(** * TideWatch: day bucketing, threshold membership, alerts and favorites

    A shallow embedding of [src/App.tsx] and [src/types.ts].  The React
    component is modelled by explicit state passing: the hooks' state
    variables become record fields, [localStorage] becomes a finite map from
    keys to strings, and the messages handed to the service worker are
    collected in an effect log. *)

From Stdlib Require Import ZArith QArith Qpower Bool List Sorted Ascii String Lia.
From stdpp Require Import base option gmap strings pretty.
Import ListNotations.

Local Open Scope string_scope.
Local Open Scope Z_scope.

(** ** JavaScript numbers

    A [number] is NaN, an infinity, or a finite value.  Every finite binary64
    value is a rational, so finite values are kept as [Q]; the comparisons
    below are the IEEE ones ([NaN] compares false with everything).  The sign
    of zero is not tracked: no comparison of the program observes it. *)

Inductive number : Type :=
| NaN
| NegInf
| Fin (q : Q)
| PosInf.

(** [a <= b] of JavaScript. *)
Definition num_le (a b : number) : bool :=
  match a, b with
  | NaN, _ | _, NaN => false
  | NegInf, _ => true
  | _, PosInf => true
  | Fin x, Fin y => Qle_bool x y
  | _, _ => false
  end.

(** [a >= b] of JavaScript. *)
Definition num_ge (a b : number) : bool := num_le b a.

(** [a > b] of JavaScript. *)
Definition num_gt (a b : number) : bool :=
  match a, b with
  | NaN, _ | _, NaN => false
  | _, _ => negb (num_le a b)
  end.

Definition isNaN (a : number) : bool :=
  match a with NaN => true | _ => false end.

Definition zero : number := Fin 0.

(** [Math.max(...l)]: [-Infinity] for no argument, [NaN] as soon as one
    argument is [NaN], the largest argument otherwise. *)
Definition max2 (a b : number) : number :=
  match a, b with
  | NaN, _ | _, NaN => NaN
  | _, _ => if num_le a b then b else a
  end.

Definition min2 (a b : number) : number :=
  match a, b with
  | NaN, _ | _, NaN => NaN
  | _, _ => if num_le b a then b else a
  end.

Definition Math_max (l : list number) : number := fold_left max2 l NegInf.

(** [Math.min(...l)]: [+Infinity] for no argument. *)
Definition Math_min (l : list number) : number := fold_left min2 l PosInf.

(** The greatest element of a list for the JavaScript order: it belongs to the
    list and every element is below it.  A list that holds [NaN] has none. *)
Definition is_greatest (m : number) (l : list number) : Prop :=
  In m l /\ forall x, In x l -> num_le x m = true.

Definition is_least (m : number) (l : list number) : Prop :=
  In m l /\ forall x, In x l -> num_le m x = true.

Definition no_NaN (l : list number) : Prop := ~ In NaN l.

(** ** [parseFloat]

    The longest prefix that reads as a decimal literal (after leading white
    space): an optional sign, then [Infinity] or digits with an optional
    fraction and an optional exponent; [NaN] when there is none.  The value
    is kept exact: it is not rounded to binary64, and a literal beyond the
    binary64 range stays finite where JavaScript gives an infinity.  The
    theorems below do not depend on which number a string denotes. *)

Definition digit_of (c : ascii) : option Z :=
  let n := Z.of_nat (nat_of_ascii c) in
  if (48 <=? n) && (n <=? 57) then Some (n - 48) else None.

Definition byte_is (c : ascii) (n : nat) : bool := Nat.eqb (nat_of_ascii c) n.

(** The three-byte white space characters of ECMAScript, in UTF-8:
    U+1680, U+2000 to U+200A, U+2028, U+2029, U+202F, U+205F, U+3000 and
    U+FEFF. *)
Definition wide_blank (c1 c2 c3 : ascii) : bool :=
  (byte_is c1 225 && byte_is c2 154 && byte_is c3 128)
  || (byte_is c1 226 && byte_is c2 128
      && ((Nat.leb 128 (nat_of_ascii c3) && Nat.leb (nat_of_ascii c3) 138)
          || byte_is c3 168 || byte_is c3 169 || byte_is c3 175))
  || (byte_is c1 226 && byte_is c2 129 && byte_is c3 159)
  || (byte_is c1 227 && byte_is c2 128 && byte_is c3 128)
  || (byte_is c1 239 && byte_is c2 187 && byte_is c3 191).

Definition is_blank (c : ascii) : bool :=
  let n := nat_of_ascii c in
  (Nat.eqb n 32 || Nat.eqb n 9 || Nat.eqb n 10 || Nat.eqb n 11
   || Nat.eqb n 12 || Nat.eqb n 13)%bool.

(** Drops the leading white space of ECMAScript: the one-byte blanks, U+00A0
    and the three-byte characters above.  Strings are read as UTF-8. *)
Fixpoint skip_blanks (s : string) : string :=
  match s with
  | String c r =>
      if is_blank c then skip_blanks r
      else
        match r with
        | String c2 r2 =>
            if byte_is c 194 && byte_is c2 160 then skip_blanks r2
            else
              match r2 with
              | String c3 r3 => if wide_blank c c2 c3 then skip_blanks r3 else s
              | EmptyString => s
              end
        | EmptyString => s
        end
  | EmptyString => s
  end.

(** Reads a run of digits: its value (after [acc]), its length, the rest. *)
Fixpoint read_digits (acc : Z) (n : nat) (s : string) : Z * nat * string :=
  match s with
  | String c r =>
      match digit_of c with
      | Some d => read_digits (10 * acc + d) (S n) r
      | None => (acc, n, s)
      end
  | EmptyString => (acc, n, s)
  end.

Definition read_sign (s : string) : bool * string :=
  match s with
  | String "-"%char r => (true, r)
  | String "+"%char r => (false, r)
  | _ => (false, s)
  end.

(** The exponent part [e±ddd], worth [0] when it is absent or malformed. *)
Definition read_exponent (s : string) : Z :=
  match s with
  | String c r =>
      if (Ascii.eqb c "e"%char || Ascii.eqb c "E"%char)%bool then
        let '(neg, r1) := read_sign r in
        let '(e, n, _) := read_digits 0 0 r1 in
        match n with
        | O => 0
        | S _ => if neg then - e else e
        end
      else 0
  | EmptyString => 0
  end.

Definition pow10 (e : Z) : Q := Qpower (10 # 1) e.

Definition parseFloat (s : string) : number :=
  let '(neg, r) := read_sign (skip_blanks s) in
  if String.prefix "Infinity" r then (if neg then NegInf else PosInf)
  else
    let '(ip, ni, r1) := read_digits 0 0 r in
    let '(fp, nf, r2) :=
      match r1 with
      | String "."%char r' => read_digits ip 0 r'
      | _ => (ip, O, r1)
      end in
    match (ni + nf)%nat with
    | O => NaN
    | S _ =>
        let m := (inject_Z fp * pow10 (- Z.of_nat nf) * pow10 (read_exponent r2))%Q in
        Fin (Qred (if neg then - m else m))
    end.

(** ** Dates (JavaScript [Date] read through date-fns)

    date-fns works on local wall-clock fields, so a valid date is kept as its
    local year, month (0 to 11), day of the month and milliseconds since
    local midnight; [InvalidDate] is the date whose time value is [NaN].
    The local time zone is taken without clock changes. *)

Inductive Date : Type :=
| InvalidDate
| LocalDate (year month day time : Z).

Definition isValid (d : Date) : bool :=
  match d with InvalidDate => false | LocalDate _ _ _ _ => true end.

Definition isLeapYear (y : Z) : bool :=
  ((y mod 4 =? 0) && negb (y mod 100 =? 0)) || (y mod 400 =? 0).

(** Days of month [m] (0 = January) in year [y]. *)
Definition daysInMonth (y m : Z) : Z :=
  if m =? 1 then (if isLeapYear y then 29 else 28)
  else if (m =? 3) || (m =? 5) || (m =? 8) || (m =? 10) then 30
  else 31.

(** Days of the year before month [m]. *)
Definition daysBeforeMonth (y m : Z) : Z :=
  fold_left (fun acc k => acc + daysInMonth y (Z.of_nat k)) (seq 0 (Z.to_nat m)) 0.

(** Number of the calendar day, counted from a fixed origin. *)
Definition dayNumber (y m d : Z) : Z :=
  365 * y + (y - 1) / 4 - (y - 1) / 100 + (y - 1) / 400 + daysBeforeMonth y m + d.

Definition msPerDay : Z := 86400000.

(** Order of two valid dates as time values. *)
Definition compareFields (y1 m1 d1 t1 y2 m2 d2 t2 : Z) : comparison :=
  match y1 ?= y2 with
  | Eq => match m1 ?= m2 with
          | Eq => match d1 ?= d2 with
                  | Eq => t1 ?= t2
                  | c => c
                  end
          | c => c
          end
  | c => c
  end.

(** [+a <= +b]: false as soon as one side is invalid. *)
Definition date_le (a b : Date) : bool :=
  match a, b with
  | LocalDate y1 m1 d1 t1, LocalDate y2 m2 d2 t2 =>
      match compareFields y1 m1 d1 t1 y2 m2 d2 t2 with Gt => false | _ => true end
  | _, _ => false
  end.

Definition isAfter (a b : Date) : bool :=
  match a, b with
  | LocalDate y1 m1 d1 t1, LocalDate y2 m2 d2 t2 =>
      match compareFields y1 m1 d1 t1 y2 m2 d2 t2 with Gt => true | _ => false end
  | _, _ => false
  end.

Definition startOfDay (d : Date) : Date :=
  match d with
  | LocalDate y m dd _ => LocalDate y m dd 0
  | InvalidDate => InvalidDate
  end.

Definition startOfMonth (d : Date) : Date :=
  match d with
  | LocalDate y m _ _ => LocalDate y m 1 0
  | InvalidDate => InvalidDate
  end.

Definition endOfMonth (d : Date) : Date :=
  match d with
  | LocalDate y m _ _ => LocalDate y m (daysInMonth y m) (msPerDay - 1)
  | InvalidDate => InvalidDate
  end.

(** [isSameDay a b]: the two dates have the same start of day; an invalid
    date is on no day. *)
Definition isSameDay (a b : Date) : bool :=
  match a, b with
  | LocalDate y1 m1 d1 _, LocalDate y2 m2 d2 _ =>
      (y1 =? y2) && (m1 =? m2) && (d1 =? d2)
  | _, _ => false
  end.

(** [date.setDate(date.getDate() + 1); date.setHours(0, 0, 0, 0)]. *)
Definition nextDay (d : Date) : Date :=
  match d with
  | LocalDate y m dd _ =>
      if dd <? daysInMonth y m then LocalDate y m (dd + 1) 0
      else if m <? 11 then LocalDate y (m + 1) 1 0
      else LocalDate (y + 1) 0 1 0
  | InvalidDate => InvalidDate
  end.

(** The loop of [eachDayOfInterval]:
    [while (+date <= endTime) { dates.push(date); date = next day }]. *)
Fixpoint eachDay_loop (fuel : nat) (date endDate : Date) : list Date :=
  match fuel with
  | O => []
  | S fuel' =>
      if date_le date endDate
      then date :: eachDay_loop fuel' (nextDay date) endDate
      else []
  end.

Definition differenceInCalendarDays (a b : Date) : option Z :=
  match a, b with
  | LocalDate y1 m1 d1 _, LocalDate y2 m2 d2 _ =>
      Some (dayNumber y1 m1 d1 - dayNumber y2 m2 d2)
  | _, _ => None
  end.

(** [eachDayOfInterval({start, end})], for [start] not after [end]: every
    start of day from that of [start] on, up to [end].  The loop runs once
    per calendar day of the interval, which bounds it. *)
Definition eachDayOfInterval (start endDate : Date) : list Date :=
  match differenceInCalendarDays endDate start with
  | Some n => eachDay_loop (Z.to_nat (n + 1)) (startOfDay start) endDate
  | None => []
  end.

(** [differenceInDays a b]: the number of full days from [b] to [a], rounded
    toward zero; [None] stands for [NaN]. *)
Definition differenceInDays (a b : Date) : option Z :=
  match a, b with
  | LocalDate y1 m1 d1 t1, LocalDate y2 m2 d2 t2 =>
      let sign := match compareFields y1 m1 d1 t1 y2 m2 d2 t2 with
                  | Lt => -1 | Eq => 0 | Gt => 1 end in
      let difference := Z.abs (dayNumber y1 m1 d1 - dayNumber y2 m2 d2) in
      (* the left date moved onto the right date's day keeps its time *)
      let back := match t1 ?= t2 with Lt => -1 | Eq => 0 | Gt => 1 end in
      let isLastDayNotFull := if back =? - sign then 1 else 0 in
      Some (sign * (difference - isLastDayNotFull))
  | _, _ => None
  end.

(** [x <= n] for a day count [x] that may be [NaN]. *)
Definition days_le (x : option Z) (n : Z) : bool :=
  match x with
  | Some k => k <=? n
  | None => false
  end.

(** ** [format] and [parse] of date-fns, for the two patterns the program uses *)

Fixpoint zeros (n : nat) : string :=
  match n with
  | O => ""
  | S n' => String "0"%char (zeros n')
  end.

(** [addLeadingZeros(number, targetLength)]. *)
Definition addLeadingZeros (n : Z) (targetLength : nat) : string :=
  let digits := pretty (Z.abs_N n) in
  let output := zeros (targetLength - String.length digits) ++ digits in
  if n <? 0 then "-" ++ output else output.

(** [format(date, 'yyyyMMdd')]; [None] stands for the [RangeError] thrown on
    an invalid date. *)
Definition format_yyyyMMdd (d : Date) : option string :=
  match d with
  | LocalDate y m dd _ =>
      let year := if 0 <? y then y else 1 - y in
      Some (addLeadingZeros year 4 ++ addLeadingZeros (m + 1) 2 ++ addLeadingZeros dd 2)
  | InvalidDate => None
  end.

(** One numeric token: between one and [n] digits, as many as there are. *)
Fixpoint read_upto (n : nat) (acc : Z) (s : string) : Z * string :=
  match n, s with
  | S n', String c r =>
      match digit_of c with
      | Some d => read_upto n' (10 * acc + d) r
      | None => (acc, s)
      end
  | _, _ => (acc, s)
  end.

Definition numeric_token (n : nat) (s : string) : option (Z * string) :=
  match s with
  | String c _ =>
      match digit_of c with
      | Some _ => Some (read_upto n 0 s)
      | None => None
      end
  | EmptyString => None
  end.

Definition literal (c : ascii) (s : string) : option string :=
  match s with
  | String c' r => if Ascii.eqb c c' then Some r else None
  | EmptyString => None
  end.

(** Nothing but white space is left (no match of [/\S/]). *)
Fixpoint all_blank (s : string) : bool :=
  match s with
  | String c r =>
      if is_blank c then all_blank r
      else
        match r with
        | String c2 r2 =>
            if byte_is c 194 && byte_is c2 160 then all_blank r2
            else
              match r2 with
              | String c3 r3 => if wide_blank c c2 c3 then all_blank r3 else false
              | EmptyString => false
              end
        | EmptyString => false
        end
  | EmptyString => true
  end.

(** [parse(s, 'yyyy-MM-dd HH:mm', new Date())].  Every unit below the year is
    given by the pattern and the seconds are reset, so the reference date
    does not show in the result. *)
Definition parse (s : string) : Date :=
  let result :=
    '(y, s1) ← numeric_token 4 s;
    s2 ← literal "-"%char s1;
    '(mo, s3) ← numeric_token 2 s2;
    s4 ← literal "-"%char s3;
    '(d, s5) ← numeric_token 2 s4;
    s6 ← literal " "%char s5;
    '(h, s7) ← numeric_token 2 s6;
    s8 ← literal ":"%char s7;
    '(mi, s9) ← numeric_token 2 s8;
    if all_blank s9
       && (0 <? y) && (1 <=? mo) && (mo <=? 12)
       && (1 <=? d) && (d <=? daysInMonth y (mo - 1))
       && (h <=? 23) && (mi <=? 59)
    then Some (LocalDate y (mo - 1) d ((h * 60 + mi) * 60000))
    else None in
  match result with
  | Some d => d
  | None => InvalidDate
  end.

(** ** Data model ([src/types.ts] and the interfaces of [src/App.tsx]) *)

Inductive TideType : Type := H | L.

Definition TideType_eqb (a b : TideType) : bool :=
  match a, b with
  | H, H | L, L => true
  | _, _ => false
  end.

Record TidePrediction : Type := mkPrediction {
  p_t : string;
  p_v : string;
  p_type : option TideType
}.

Record TideEvent : Type := mkEvent {
  time : Date;
  height : number;
  isPeak : bool;
  e_type : option TideType
}.

Record DailyTideData : Type := mkDaily {
  date : Date;
  events : list TideEvent;
  maxHeight : number;
  minHeight : number;
  meetsThreshold : bool
}.

Record SavedStation : Type := mkStation {
  id : string;
  name : string
}.

Record NotificationSettings : Type := mkSettings {
  enabled : bool;
  leadDays : Z
}.

(** [e.type === 'H'] *)
Definition isHigh (e : TideEvent) : bool :=
  match e_type e with
  | Some H => true
  | _ => false
  end.

(** ** Bucketing the predictions by day ([loadTideData], the [days.map] callback) *)

Definition toEvent (p : TidePrediction) : TideEvent :=
  {| time := parse (p_t p);
     height := parseFloat (p_v p);
     isPeak := true;
     e_type := p_type p |}.

Definition eventsOfDay (hilo : list TidePrediction) (day : Date) : list TideEvent :=
  map toEvent (List.filter (fun p => isSameDay (parse (p_t p)) day) hilo).

(** [events.filter(e => e.type === 'H').map(e => e.height)] *)
Definition highHeights (evs : list TideEvent) : list number :=
  map height (List.filter isHigh evs).

Definition processDay (hilo : list TidePrediction) (threshold : number) (day : Date)
  : DailyTideData :=
  let evs := eventsOfDay hilo day in
  let heights := highHeights evs in
  let maxH := match heights with [] => zero | _ :: _ => Math_max heights end in
  {| date := day;
     events := evs;
     maxHeight := maxH;
     minHeight := match evs with [] => zero | _ :: _ => Math_min (map height evs) end;
     meetsThreshold := num_ge maxH threshold |}.

Definition processMonth (hilo : list TidePrediction) (threshold : number)
    (currentDate : Date) : list DailyTideData :=
  map (processDay hilo threshold)
      (eachDayOfInterval (startOfMonth currentDate) (endOfMonth currentDate)).

(** ** The list view ([thresholdEvents]) *)

Definition qualifies (threshold : number) (e : TideEvent) : bool :=
  isHigh e && num_ge (height e) threshold.

Definition thresholdEvents (dailyData : list DailyTideData) (threshold : number)
  : list TideEvent :=
  flat_map (fun d => List.filter (qualifies threshold) (events d))
           (List.filter meetsThreshold dailyData).

(** ** Favorites ([toggleFavorite] and the remove button of a listed favorite) *)

Definition toggleFavorite (station : SavedStation) (prev : list SavedStation)
  : list SavedStation :=
  let isFav := existsb (fun f => String.eqb (id f) (id station)) prev in
  if isFav
  then List.filter (fun f => negb (String.eqb (id f) (id station))) prev
  else prev ++ [station].

Definition removeFavorite (fav : SavedStation) (prev : list SavedStation)
  : list SavedStation :=
  List.filter (fun f => negb (String.eqb (id f) (id fav))) prev.

(** The favorites operations the interface offers. *)
Inductive FavOp : Type :=
| Toggle (station : SavedStation)
| Remove (fav : SavedStation).

Definition applyFavOp (op : FavOp) (favs : list SavedStation) : list SavedStation :=
  match op with
  | Toggle s => toggleFavorite s favs
  | Remove f => removeFavorite f favs
  end.

Definition runFavOps (ops : list FavOp) (favs : list SavedStation) : list SavedStation :=
  fold_left (fun fs op => applyFavOp op fs) ops favs.

(** ** Notifications ([checkUpcomingTidesForAlerts])

    [localStorage] is a finite map from keys to strings.  What a run does to
    the outside is recorded, in order, in a log of effects. *)

Inductive NotifPermission : Type := granted | denied | default.

(** The values interpolated into the body of the notification; their
    rendering as text ([toFixed], [format]) is not modelled. *)
Record AlertBody : Type := mkBody {
  peakHeight : number;
  onDay : Date;
  atTime : Date
}.

Record Payload : Type := mkPayload {
  title : string;
  body : AlertBody;
  icon : string
}.

Record Message : Type := mkMessage {
  msg_type : string;
  payload : Payload
}.

Inductive Effect : Type :=
| PostMessage (m : Message)
| SetItem (key value : string).

(** What the browser provides to a run: the notification permission, whether
    a service worker controls the page, and [new Date()]. *)
Record Env : Type := mkEnv {
  permission : NotifPermission;
  controller : bool;
  today : Date
}.

Inductive Completion : Type := Returned | Threw.

Record RunResult : Type := mkRun {
  storage : gmap string string;
  log : list Effect;
  completion : Completion
}.

(** [!localStorage.getItem(key)]: no entry, or the empty string. *)
Definition noItem (st : gmap string string) (key : string) : bool :=
  match st !! key with
  | None => true
  | Some v => String.eqb v ""
  end.

Definition alertKey (station : SavedStation) (d : Date) : option string :=
  k ← format_yyyyMMdd d;
  Some ("alert_" ++ id station ++ "_" ++ k).

(** The message built for [day] and its first qualifying event; [None] stands
    for the [RangeError] of [format] on an invalid date. *)
Definition alertMessage (station : SavedStation) (day : DailyTideData)
    (maxEvent : TideEvent) : option Message :=
  if isValid (date day) && isValid (time maxEvent) then
    Some {| msg_type := "SHOW_NOTIFICATION";
            payload := {| title := "🌊 Tide Alert: " ++ name station;
                          body := {| peakHeight := height maxEvent;
                                     onDay := date day;
                                     atTime := time maxEvent |};
                          icon := "https://img.icons8.com/fluency/96/000000/waves.png" |} |}
  else None.

Section Alerts.

Variable notifSettings : NotificationSettings.
Variable station : SavedStation.
Variable threshold : number.
Variable env : Env.

Definition isUpcomingCrossing (d : DailyTideData) : bool :=
  meetsThreshold d
  && isAfter (date d) (today env)
  && days_le (differenceInDays (date d) (today env)) (leadDays notifSettings + 7).

(** One iteration of [for (const day of upcomingCrossings)]. *)
Definition alertDay (day : DailyTideData) (st : gmap string string) : RunResult :=
  let diff := differenceInDays (date day) (today env) in
  let isLeadTimeMet := days_le diff (leadDays notifSettings) in
  if isLeadTimeMet then
    match List.find (qualifies threshold) (events day) with
    | Some maxEvent =>
        match alertKey station (date day) with
        | Some key =>
            if noItem st key then
              if controller env then
                match alertMessage station day maxEvent with
                | Some m =>
                    mkRun (<[key := "sent"]> st) [PostMessage m; SetItem key "sent"] Returned
                | None => mkRun st [] Threw
                end
              else mkRun st [] Returned
            else mkRun st [] Returned
        | None => mkRun st [] Threw
        end
    | None => mkRun st [] Returned
    end
  else mkRun st [] Returned.

Fixpoint alertLoop (days : list DailyTideData) (st : gmap string string) : RunResult :=
  match days with
  | [] => mkRun st [] Returned
  | day :: rest =>
      let r := alertDay day st in
      match completion r with
      | Threw => r
      | Returned =>
          let r' := alertLoop rest (storage r) in
          mkRun (storage r') (log r ++ log r') (completion r')
      end
  end.

Definition checkUpcomingTidesForAlerts (data : list DailyTideData)
    (st : gmap string string) : RunResult :=
  if negb (enabled notifSettings)
     || negb (match permission env with granted => true | _ => false end)
  then mkRun st [] Returned
  else alertLoop (List.filter isUpcomingCrossing data) st.

End Alerts.

(** ** The component's state and [loadTideData] *)

Record AppState : Type := mkApp {
  currentDate : Date;
  station : SavedStation;
  threshold : number;
  loading : bool;
  dailyData : list DailyTideData;
  error : option string;
  notifSettings : NotificationSettings;
  favorites : list SavedStation
}.

Definition setLoading (b : bool) (s : AppState) : AppState :=
  mkApp (currentDate s) (station s) (threshold s) b (dailyData s) (error s)
        (notifSettings s) (favorites s).

Definition setError (e : option string) (s : AppState) : AppState :=
  mkApp (currentDate s) (station s) (threshold s) (loading s) (dailyData s) e
        (notifSettings s) (favorites s).

Definition setDailyData (d : list DailyTideData) (s : AppState) : AppState :=
  mkApp (currentDate s) (station s) (threshold s) (loading s) d (error s)
        (notifSettings s) (favorites s).

(** What the awaited call to the prediction service gives. *)
Inductive FetchOutcome : Type :=
| Resolved (hilo : list TidePrediction)
| Rejected.

(** [fetchTidePredictions(stationId, beginDate, endDate, product, datum, interval)] *)
Definition Service : Type :=
  string -> string -> string -> string -> string -> string -> FetchOutcome.

Definition loadErrorMessage : string :=
  "Could not load tide data for this station. Please try another.".

(** The body of the [try] block; [None] when it throws.  The alerts routine
    is [async] and is not awaited: whether it throws does not reach the
    [catch] of [loadTideData]. *)
Definition tryLoad (fetch : Service) (env : Env) (s : AppState)
    (st : gmap string string) : option (AppState * RunResult) :=
  beginDate ← format_yyyyMMdd (startOfMonth (currentDate s));
  endDate ← format_yyyyMMdd (endOfMonth (currentDate s));
  match fetch (id (station s)) beginDate endDate "predictions" "MLLW" "hilo" with
  | Rejected => None
  | Resolved hilo =>
      let processed := processMonth hilo (threshold s) (currentDate s) in
      Some (setDailyData processed s,
            checkUpcomingTidesForAlerts (notifSettings s) (station s) (threshold s)
                                        env processed st)
  end.

Definition loadTideData (fetch : Service) (env : Env) (s : AppState)
    (st : gmap string string) : AppState * gmap string string * list Effect :=
  let s1 := setError None (setLoading true s) in
  match tryLoad fetch env s1 st with
  | Some (s2, r) => (setLoading false s2, storage r, log r)
  | None => (setLoading false (setError (Some loadErrorMessage) s1), st, [])
  end.

(** ** A browser session as far as the alert markers go

    Between runs of the alerts routine the only other writes to
    [localStorage] are those of the persisting effect, under its two keys. *)

Record AlertRun : Type := mkAlertRun {
  run_settings : NotificationSettings;
  run_station : SavedStation;
  run_threshold : number;
  run_env : Env;
  run_data : list DailyTideData
}.

Inductive Step : Type :=
| RunAlerts (r : AlertRun)
| Persist (favoritesJson settingsJson : string).

Definition runAlerts (r : AlertRun) (st : gmap string string) : RunResult :=
  checkUpcomingTidesForAlerts (run_settings r) (run_station r) (run_threshold r)
                              (run_env r) (run_data r) st.

Definition persist (favoritesJson settingsJson : string) (st : gmap string string)
  : gmap string string :=
  <["tidewatch_notif_settings" := settingsJson]>
    (<["tidewatch_favorites" := favoritesJson]> st).

(** The messages a step posts for station id [sid] about calendar day [d]. *)
Definition isPostFor (d : Date) (e : Effect) : bool :=
  match e with
  | PostMessage m => isSameDay (onDay (body (payload m))) d
  | SetItem _ _ => false
  end.

Definition countPosts (d : Date) (l : list Effect) : nat :=
  length (List.filter (isPostFor d) l).

Definition postsFor (sid : string) (d : Date) (r : AlertRun) (l : list Effect) : nat :=
  if String.eqb (id (run_station r)) sid then countPosts d l else 0%nat.

(** Runs the steps in order from storage [st]: the storage at the end and
    the number of messages posted for [(sid, d)] on the way. *)
Fixpoint session (sid : string) (d : Date) (steps : list Step)
    (st : gmap string string) : gmap string string * nat :=
  match steps with
  | [] => (st, 0%nat)
  | RunAlerts r :: rest =>
      let res := runAlerts r st in
      let '(st', n) := session sid d rest (storage res) in
      (st', (postsFor sid d r (log res) + n)%nat)
  | Persist f s :: rest => session sid d rest (persist f s st)
  end.

(** ** Reference notions the properties are stated against *)

(** Every ['H'] event of the month that reaches the threshold, in order. *)
Definition allQualifying (dailyData : list DailyTideData) (threshold : number)
  : list TideEvent :=
  List.filter (qualifies threshold) (flat_map events dailyData).

(** The extremes of a day taken over all its events, whatever their type. *)
Definition extremesOverAllEvents (d : DailyTideData) : Prop :=
  is_greatest (maxHeight d) (map height (events d))
  /\ is_least (minHeight d) (map height (events d)).

(** No ['H'] prediction carries a value that [parseFloat] reads as [NaN]. *)
Definition highsAreNumbers (hilo : list TidePrediction) : Prop :=
  forall p, In p hilo -> p_type p = Some H -> parseFloat (p_v p) <> NaN.

(** The starts of the calendar days of the month of [cur], first to last. *)
Definition monthDays (cur : Date) : list Date :=
  match cur with
  | LocalDate y m _ _ =>
      map (fun k => LocalDate y m (Z.of_nat k) 0) (seq 1 (Z.to_nat (daysInMonth y m)))
  | InvalidDate => []
  end.

(** The awaited request of [loadTideData] for the month of [s] resolved
    with [hilo]. *)
Definition fetchResolved (fetch : Service) (s : AppState) (hilo : list TidePrediction)
  : Prop :=
  exists b e,
    format_yyyyMMdd (startOfMonth (currentDate s)) = Some b
    /\ format_yyyyMMdd (endOfMonth (currentDate s)) = Some e
    /\ fetch (id (station s)) b e "predictions" "MLLW" "hilo" = Resolved hilo.

(** The awaited request of [loadTideData] threw. *)
Definition fetchThrew (fetch : Service) (s : AppState) : Prop :=
  exists b e,
    format_yyyyMMdd (startOfMonth (currentDate s)) = Some b
    /\ format_yyyyMMdd (endOfMonth (currentDate s)) = Some e
    /\ fetch (id (station s)) b e "predictions" "MLLW" "hilo" = Rejected.

(** The marker key of station id [sid] and the calendar day of [d]:
    [alert_<stationId>_<yyyyMMdd>]. *)
Definition markerOf (sid : string) (d : Date) : option string :=
  alertKey (mkStation sid "") d.

(** Storage [st] holds a sent-marker for [(sid, d)]. *)
Definition marked (st : gmap string string) (sid : string) (d : Date) : Prop :=
  exists key, markerOf sid d = Some key /\ noItem st key = false.

(** Storage after the writes of a log, in order. *)
Definition applyWrites (l : list Effect) (st : gmap string string)
  : gmap string string :=
  fold_left (fun acc e => match e with
                          | SetItem k v => <[k := v]> acc
                          | PostMessage _ => acc
                          end) l st.

(** What one iteration of the alerts loop can do: nothing, or post one
    message for its day and write the marker of that day. *)
Inductive DayOutcome (notifSettings : NotificationSettings) (station : SavedStation)
    (threshold : number) (env : Env) (day : DailyTideData) (st : gmap string string)
  : RunResult -> Prop :=
| day_skipped c : DayOutcome notifSettings station threshold env day st (mkRun st [] c)
| day_alerted key maxEvent m :
    days_le (differenceInDays (date day) (today env)) (leadDays notifSettings) = true ->
    List.find (qualifies threshold) (events day) = Some maxEvent ->
    alertKey station (date day) = Some key ->
    noItem st key = true ->
    controller env = true ->
    alertMessage station day maxEvent = Some m ->
    DayOutcome notifSettings station threshold env day st
      (mkRun (<[key := "sent"]> st) [PostMessage m; SetItem key "sent"] Returned).

(** How many entries of [favs] carry the id [sid]. *)
Definition countId (sid : string) (favs : list SavedStation) : nat :=
  length (List.filter (fun f => String.eqb (id f) sid) favs).

(** The state of the component once [loadTideData] has completed. *)
Definition stateAfterLoad (fetch : Service) (env : Env) (s : AppState)
    (st : gmap string string) : AppState :=
  (loadTideData fetch env s st).1.1.

(** ** Further notions for the alerts routine *)

(** The date of the day and the times of its events are valid dates. *)
Definition wellDated (day : DailyTideData) : Prop :=
  isValid (date day) = true
  /\ forall e, In e (events day) -> isValid (time e) = true.

(** The tests of an iteration of the alerts loop that do not read storage:
    the lead time is met and the day has a peak event to report. *)
Definition dueForAlert (notifSettings : NotificationSettings) (threshold : number)
    (env : Env) (day : DailyTideData) : Prop :=
  days_le (differenceInDays (date day) (today env)) (leadDays notifSettings) = true
  /\ exists maxEvent, List.find (qualifies threshold) (events day) = Some maxEvent.

(** A calendar day with a four-digit year. *)
Definition plainDay (d : Date) : Prop :=
  match d with
  | LocalDate y m dd _ => 1 <= y <= 9999 /\ 0 <= m <= 11 /\ 1 <= dd <= 31
  | InvalidDate => False
  end.

(** [addLeadingZeros n width] has [width] characters and reads back as [n]. *)
Definition padReadsBack (width : nat) (n : Z) : bool :=
  Nat.eqb (String.length (addLeadingZeros n width)) width
  && (fst (read_upto width 0 (addLeadingZeros n width)) =? n).

(** ** Further notions for the bucketing *)

(** The date [t] is on a day of the month of [cur]. *)
Definition inVisibleMonth (cur t : Date) : bool :=
  match cur, t with
  | LocalDate y m _ _, LocalDate y' m' d' _ =>
      (y' =? y) && (m' =? m) && (1 <=? d') && (d' <=? daysInMonth y m)
  | _, _ => false
  end.

(** The threshold field: [onChange={(e) => setThreshold(parseFloat(e.target.value))}]. *)
Definition onThresholdChange (value : string) (s : AppState) : AppState :=
  mkApp (currentDate s) (station s) (parseFloat value) (loading s) (dailyData s)
        (error s) (notifSettings s) (favorites s).

(** ** Further notions for the favorites *)

(** [favorites.some(f => f.id === station.id)], the state of the star. *)
Definition isCurrentFavorite (station : SavedStation) (favorites : list SavedStation)
  : bool :=
  existsb (fun f => String.eqb (id f) (id station)) favorites.

(** ** Month navigation ([nextMonth], [prevMonth]) *)

(** [addMonths(date, amount)] of date-fns: the same day of the month
    [amount] months away, or the last day of that month when it is shorter;
    the time of day is kept. *)
Definition addMonths (d : Date) (amount : Z) : Date :=
  match d with
  | InvalidDate => InvalidDate
  | LocalDate y m dd t =>
      if amount =? 0 then d
      else
        let total := m + amount in
        let y' := y + total / 12 in
        let m' := total mod 12 in
        let daysInDesiredMonth := daysInMonth y' m' in
        if daysInDesiredMonth <=? dd
        then LocalDate y' m' daysInDesiredMonth t
        else LocalDate y' m' dd t
  end.

Definition subMonths (d : Date) (amount : Z) : Date := addMonths d (- amount).

Definition setCurrentDate (d : Date) (s : AppState) : AppState :=
  mkApp d (station s) (threshold s) (loading s) (dailyData s) (error s)
        (notifSettings s) (favorites s).

Definition nextMonth (s : AppState) : AppState :=
  setCurrentDate (addMonths (currentDate s) 1) s.

Definition prevMonth (s : AppState) : AppState :=
  setCurrentDate (subMonths (currentDate s) 1) s.

(** A date as a JavaScript [Date] holds it: the month is 0 to 11 and the day
    exists in that month. *)
Definition normalDate (d : Date) : Prop :=
  match d with
  | LocalDate y m dd t => 0 <= m <= 11 /\ 1 <= dd <= daysInMonth y m
  | InvalidDate => False
  end.

(** ** The calendar view (the callback of [calendarDays.map]) *)

(** [isSameMonth a b]: same year and same month; false on an invalid date. *)
Definition isSameMonth (a b : Date) : bool :=
  match a, b with
  | LocalDate y1 m1 _ _, LocalDate y2 m2 _ _ => (y1 =? y2) && (m1 =? m2)
  | _, _ => false
  end.

(** What the cell of [day] is drawn from. *)
Record CalendarCell : Type := mkCell {
  cellData : option DailyTideData;
  isActiveMonth : bool;
  isTargetDay : bool;
  showsBadge : bool;
  shownEvents : list TideEvent
}.

Definition calendarCell (dailyData : list DailyTideData) (currentDate day : Date)
  : CalendarCell :=
  let data := List.find (fun d => isSameDay (date d) day) dailyData in
  let isActiveMonth := isSameMonth day currentDate in
  (* [data?.meetsThreshold]: undefined, hence falsy, without data *)
  let isTargetDay := match data with Some d => meetsThreshold d | None => false end in
  {| cellData := data;
     isActiveMonth := isActiveMonth;
     isTargetDay := isTargetDay;
     showsBadge := isTargetDay && isActiveMonth;
     shownEvents := match data with
                    | Some d => if isActiveMonth then firstn 3 (events d) else []
                    | None => []
                    end |}.

(** ** The search form ([handleSearch]) *)

(** What the awaited station resolver gives: a result object (its
    [stationId] may be empty), no result, or a rejection. *)
Inductive ResolverOutcome : Type :=
| StationFound (stationId stationName : string)
| NoStation
| ResolverThrew.

(** [findStationId(query)] *)
Definition Resolver : Type := string -> ResolverOutcome.

(** [!query.trim()]: the query holds white space only.  Strings are read as
    UTF-8. *)
Fixpoint isBlankQuery (s : string) : bool :=
  match s with
  | EmptyString => true
  | String c r =>
      if is_blank c then isBlankQuery r
      else
        match r with
        | String c2 r2 =>
            if byte_is c 194 && byte_is c2 160 then isBlankQuery r2
            else
              match r2 with
              | String c3 r3 => if wide_blank c c2 c3 then isBlankQuery r3 else false
              | EmptyString => false
              end
        | EmptyString => false
        end
  end.

(** The component state together with the text of the search field. *)
Record SearchUi : Type := mkSearchUi {
  ui_app : AppState;
  searchQuery : string
}.

Definition setStation (st : SavedStation) (s : AppState) : AppState :=
  mkApp (currentDate s) st (threshold s) (loading s) (dailyData s) (error s)
        (notifSettings s) (favorites s).

Definition searchErrorMessage : string :=
  "Station not found. Try a coastal city or zip code.".

(** [handleSearch]; when the resolver rejects, the handler stops at the
    [await] with the loading flag up. *)
Definition handleSearch (findStationId : Resolver) (ui : SearchUi) : SearchUi :=
  if isBlankQuery (searchQuery ui) then ui
  else
    let s1 := setLoading true (ui_app ui) in
    let notFound :=
      mkSearchUi (setLoading false (setError (Some searchErrorMessage) s1))
                 (searchQuery ui) in
    match findStationId (searchQuery ui) with
    | StationFound stationId stationName =>
        if String.eqb stationId "" then notFound
        else mkSearchUi (setLoading false (setStation (mkStation stationId stationName) s1))
                        ""
    | NoStation => notFound
    | ResolverThrew => mkSearchUi s1 (searchQuery ui)
    end.

(** ** The calendar grid ([calendarStart], [calendarEnd], [calendarDays]) *)

(** [getDay()]: 0 for Sunday to 6 for Saturday. *)
Definition weekday (y m dd : Z) : Z := (dayNumber y m dd - 1) mod 7.

(** [date.setDate(n)] for [n] that leaves the month by less than a month,
    which is as far as a week reaches. *)
Definition setDate (d : Date) (n : Z) : Date :=
  match d with
  | LocalDate y m _ t =>
      if n <? 1 then
        let y' := if m =? 0 then y - 1 else y in
        let m' := if m =? 0 then 11 else m - 1 in
        LocalDate y' m' (daysInMonth y' m' + n) t
      else if daysInMonth y m <? n then
        let y' := if m =? 11 then y + 1 else y in
        let m' := if m =? 11 then 0 else m + 1 in
        LocalDate y' m' (n - daysInMonth y m) t
      else LocalDate y m n t
  | InvalidDate => InvalidDate
  end.

(** [startOfWeek(date)] with the week starting on Sunday. *)
Definition startOfWeek (d : Date) : Date :=
  match d with
  | LocalDate y m dd _ => startOfDay (setDate d (dd - weekday y m dd))
  | InvalidDate => InvalidDate
  end.

(** [endOfWeek(date)]: the last millisecond of the Saturday. *)
Definition endOfWeek (d : Date) : Date :=
  match d with
  | LocalDate y m dd _ =>
      match setDate d (dd + (6 - weekday y m dd)) with
      | LocalDate y' m' d' _ => LocalDate y' m' d' (msPerDay - 1)
      | InvalidDate => InvalidDate
      end
  | InvalidDate => InvalidDate
  end.

Definition calendarStart (currentDate : Date) : Date :=
  startOfWeek (startOfMonth currentDate).

Definition calendarEnd (currentDate : Date) : Date :=
  endOfWeek (endOfMonth currentDate).

Definition calendarDays (currentDate : Date) : list Date :=
  eachDayOfInterval (calendarStart currentDate) (calendarEnd currentDate).

(** The month before and the month after month [m] of year [y]. *)
Definition monthBefore (y m : Z) : Z * Z :=
  (if m =? 0 then y - 1 else y, if m =? 0 then 11 else m - 1).

Definition monthAfter (y m : Z) : Z * Z :=
  (if m =? 11 then y + 1 else y, if m =? 11 then 0 else m + 1).

(** The last days of the month before, from the Sunday of the week in which
    the month of [cur] starts. *)
Definition leadingDays (cur : Date) : list Date :=
  match cur with
  | LocalDate y m _ _ =>
      let '(py, pm) := monthBefore y m in
      let g := weekday y m 1 in
      map (fun i => LocalDate py pm (Z.of_nat i) 0)
          (seq (Z.to_nat (daysInMonth py pm + 1 - g)) (Z.to_nat g))
  | InvalidDate => []
  end.

(** The first days of the month after, up to the Saturday of the week in
    which the month of [cur] ends. *)
Definition trailingDays (cur : Date) : list Date :=
  match cur with
  | LocalDate y m _ _ =>
      let '(ny, nm) := monthAfter y m in
      let h := weekday y m (daysInMonth y m) in
      map (fun i => LocalDate ny nm (Z.of_nat i) 0) (seq 1 (Z.to_nat (6 - h)))
  | InvalidDate => []
  end.

(** ** Sample inputs *)

Definition midJanuary : Date := LocalDate 2024 0 10 43200000.

Definition sampleHilo : list TidePrediction :=
  [ mkPrediction "2024-01-15 03:24" "5.8" (Some H);
    mkPrediction "2024-01-15 09:40" "1.2" (Some L);
    mkPrediction "2024-01-15 15:51" "6.4" (Some H);
    mkPrediction "2024-01-15 22:05" "-0.3" (Some L);
    mkPrediction "2024-01-16 04:10" "5.6" (Some H);
    mkPrediction "2024-01-16 10:32" "1.0" (Some L) ].

Definition six : number := Fin 6.

(** A day on which the service reports a low tide only. *)
Definition lowOnlyHilo : list TidePrediction :=
  [ mkPrediction "2024-01-15 21:10" "1.3" (Some L) ].

(** A month in which one ['H'] value does not read as a number. *)
Definition brokenValueHilo : list TidePrediction :=
  [ mkPrediction "2024-01-15 03:24" "7.0" (Some H);
    mkPrediction "2024-01-15 15:51" "" (Some H) ].

Definition sampleStation : SavedStation := mkStation "9414290" "San Francisco, CA".

Definition sampleState : AppState :=
  mkApp midJanuary sampleStation six false [] None (mkSettings true 1) [].

(** A service that knows January 2024 only. *)
Definition sampleService : Service :=
  fun _ beginDate endDate _ _ _ =>
    if String.eqb beginDate "20240101" && String.eqb endDate "20240131"
    then Resolved sampleHilo else Rejected.

Definition failingService : Service := fun _ _ _ _ _ _ => Rejected.

Definition lowOnlyService : Service := fun _ _ _ _ _ _ => Resolved lowOnlyHilo.

Definition brokenValueService : Service := fun _ _ _ _ _ _ => Resolved brokenValueHilo.

(** The afternoon of January 14th, with notifications allowed. *)
Definition sampleEnv : Env := mkEnv granted true (LocalDate 2024 0 14 54000000).

Definition sampleEnvNoWorker : Env := mkEnv granted false (LocalDate 2024 0 14 54000000).

Definition sampleRun : AlertRun :=
  mkAlertRun (mkSettings true 1) sampleStation six sampleEnv
             (processMonth sampleHilo six midJanuary).

(** The message of the sample run: the first high tide of January 15th
    that reaches the threshold. *)
Definition sampleMessage : Message :=
  mkMessage "SHOW_NOTIFICATION"
    (mkPayload ("🌊 Tide Alert: " ++ "San Francisco, CA")
               (mkBody (Fin (32 # 5)) (LocalDate 2024 0 15 0)
                       (LocalDate 2024 0 15 57060000))
               "https://img.icons8.com/fluency/96/000000/waves.png").

Definition sampleKey : string := "alert_9414290_20240115".

(** Two high tides above the threshold on the same day, the second higher. *)
Definition twoPeaksHilo : list TidePrediction :=
  [ mkPrediction "2024-01-15 03:24" "6.1" (Some H);
    mkPrediction "2024-01-15 15:51" "6.9" (Some H) ].

Definition sampleResolver : Resolver :=
  fun query =>
    if String.eqb query "Seattle" then StationFound "9447130" "Seattle, WA"
    else if String.eqb query "nowhere" then StationFound "" ""
    else NoStation.

(** * Properties *)

(** ** The library models on concrete inputs *)

Example parseFloat_plain : parseFloat "5.25" = Fin (21 # 4).
Proof. reflexivity. Qed.

Example parseFloat_signed_exp : parseFloat " -1.5e1ft" = Fin (-15 # 1).
Proof. reflexivity. Qed.

Example parseFloat_empty : parseFloat "" = NaN.
Proof. reflexivity. Qed.

Example parseFloat_words : parseFloat "n/a" = NaN.
Proof. reflexivity. Qed.

(** A no-break space and an ideographic space ahead of the literal are
    skipped. *)
Example parseFloat_wide_blanks : parseFloat " 　5.5" = Fin (11 # 2).
Proof. reflexivity. Qed.

Example differenceInDays_next_morning :
  differenceInDays (LocalDate 2024 0 16 0) (LocalDate 2024 0 15 54000000) = Some 0.
Proof. reflexivity. Qed.

Example differenceInDays_two_days :
  differenceInDays (LocalDate 2024 2 1 0) (LocalDate 2024 1 28 3600000) = Some 1.
Proof. reflexivity. Qed.

Example eachDayOfInterval_feb :
  length (eachDayOfInterval (LocalDate 2024 1 1 0) (LocalDate 2024 1 29 86399999)) = 29%nat.
Proof. reflexivity. Qed.

Example eachDayOfInterval_across_years :
  eachDayOfInterval (LocalDate 2023 11 30 36000000) (LocalDate 2024 0 2 0)
  = [LocalDate 2023 11 30 0; LocalDate 2023 11 31 0; LocalDate 2024 0 1 0;
     LocalDate 2024 0 2 0].
Proof. reflexivity. Qed.

Example format_yyyyMMdd_jan : format_yyyyMMdd (LocalDate 2024 0 5 0) = Some "20240105".
Proof. reflexivity. Qed.

Example parse_noaa : parse "2024-01-15 03:24" = LocalDate 2024 0 15 12240000.
Proof. reflexivity. Qed.

Example parse_bad_day : parse "2023-02-29 03:24" = InvalidDate.
Proof. reflexivity. Qed.

Example parse_garbage : parse "tomorrow" = InvalidDate.
Proof. reflexivity. Qed.

(** White space after the pattern is accepted, anything else is not. *)
Example parse_trailing_blank :
  parse "2024-01-15 03:24  " = LocalDate 2024 0 15 12240000.
Proof. reflexivity. Qed.

Example parse_trailing_text : parse "2024-01-15 03:24Z" = InvalidDate.
Proof. reflexivity. Qed.


(** ** The order on numbers and [Math.max] / [Math.min] *)

Lemma num_le_NaN_l (a : number) : num_le NaN a = false.
Proof. reflexivity. Qed.

Lemma num_le_NaN_r (a : number) : num_le a NaN = false.
Proof. destruct a; reflexivity. Qed.

Lemma num_le_refl (a : number) : a <> NaN -> num_le a a = true.
Proof.
  destruct a as [| |q|]; simpl; intros Hn; try congruence.
  apply Qle_bool_iff, Qle_refl.
Qed.

Lemma num_le_trans (a b c : number) :
  num_le a b = true -> num_le b c = true -> num_le a c = true.
Proof.
  destruct a as [| |x|], b as [| |y|], c as [| |z|]; simpl; try congruence.
  rewrite !Qle_bool_iff. apply Qle_trans.
Qed.

Lemma num_le_total (a b : number) :
  a <> NaN -> b <> NaN -> num_le a b = true \/ num_le b a = true.
Proof.
  destruct a as [| |x|], b as [| |y|]; simpl; intros Ha Hb;
    try congruence; auto.
  rewrite !Qle_bool_iff.
  destruct (Qlt_le_dec x y) as [Hlt|Hle]; [left; apply Qlt_le_weak, Hlt | right; exact Hle].
Qed.

Lemma max2_NegInf (x : number) : max2 NegInf x = x.
Proof. destruct x; reflexivity. Qed.

Lemma min2_PosInf (x : number) : min2 PosInf x = x.
Proof. destruct x; reflexivity. Qed.

Lemma max2_NaN_l (x : number) : max2 NaN x = NaN.
Proof. reflexivity. Qed.

Lemma min2_NaN_l (x : number) : min2 NaN x = NaN.
Proof. reflexivity. Qed.

Lemma max2_NaN_r (x : number) : max2 x NaN = NaN.
Proof. destruct x; reflexivity. Qed.

Lemma min2_NaN_r (x : number) : min2 x NaN = NaN.
Proof. destruct x; reflexivity. Qed.

Lemma max2_cases (a b : number) :
  a <> NaN -> b <> NaN ->
  (max2 a b = b /\ num_le a b = true) \/ (max2 a b = a /\ num_le b a = true).
Proof.
  intros Ha Hb. unfold max2.
  destruct (num_le a b) eqn:E.
  - left. destruct a, b; try congruence; auto.
  - right. destruct (num_le_total a b Ha Hb) as [H1|H1]; [congruence|].
    destruct a, b; try congruence; auto.
Qed.

Lemma min2_cases (a b : number) :
  a <> NaN -> b <> NaN ->
  (min2 a b = b /\ num_le b a = true) \/ (min2 a b = a /\ num_le a b = true).
Proof.
  intros Ha Hb. unfold min2.
  destruct (num_le b a) eqn:E.
  - left. destruct a, b; try congruence; auto.
  - right. destruct (num_le_total a b Ha Hb) as [H1|H1]; [|congruence].
    destruct a, b; try congruence; auto.
Qed.

Lemma fold_max2_NaN (l : list number) : fold_left max2 l NaN = NaN.
Proof. induction l as [|x l IH]; simpl; auto. Qed.

Lemma fold_min2_NaN (l : list number) : fold_left min2 l NaN = NaN.
Proof. induction l as [|x l IH]; simpl; auto. Qed.

(** A [NaN] among the arguments makes the result [NaN]. *)
Lemma fold_max2_In_NaN (l : list number) (a : number) :
  In NaN l -> fold_left max2 l a = NaN.
Proof.
  revert a. induction l as [|x l IH]; simpl; intros a Hin; [tauto|].
  destruct Hin as [->|Hin]; [rewrite max2_NaN_r; apply fold_max2_NaN | auto].
Qed.

Lemma fold_min2_In_NaN (l : list number) (a : number) :
  In NaN l -> fold_left min2 l a = NaN.
Proof.
  revert a. induction l as [|x l IH]; simpl; intros a Hin; [tauto|].
  destruct Hin as [->|Hin]; [rewrite min2_NaN_r; apply fold_min2_NaN | auto].
Qed.

(** Without [NaN], folding [max2] from [a] gives the greatest of [a :: l]. *)
Lemma fold_max2_greatest (l : list number) (a : number) :
  a <> NaN -> no_NaN l -> is_greatest (fold_left max2 l a) (a :: l).
Proof.
  revert a. induction l as [|x l IH]; intros a Ha Hl.
  - simpl. split; [left; reflexivity|].
    intros y [<-|[]]. apply num_le_refl, Ha.
  - assert (Hx : x <> NaN) by (intros ->; apply Hl; left; reflexivity).
    assert (Hl' : no_NaN l) by (intros Hin; apply Hl; right; exact Hin).
    simpl fold_left.
    destruct (max2_cases a x Ha Hx) as [[-> Hle]|[-> Hle]].
    + destruct (IH x Hx Hl') as [Hin Hub]. split.
      * right. exact Hin.
      * intros y [<-|Hy]; [|apply Hub, Hy].
        eapply num_le_trans; [exact Hle|]. apply Hub. left; reflexivity.
    + destruct (IH a Ha Hl') as [Hin Hub]. split.
      * destruct Hin as [<-|Hin]; [left; reflexivity | right; right; exact Hin].
      * intros y [<-|[<-|Hy]].
        -- apply Hub. left; reflexivity.
        -- eapply num_le_trans; [exact Hle|]. apply Hub. left; reflexivity.
        -- apply Hub. right; exact Hy.
Qed.

Lemma fold_min2_least (l : list number) (a : number) :
  a <> NaN -> no_NaN l -> is_least (fold_left min2 l a) (a :: l).
Proof.
  revert a. induction l as [|x l IH]; intros a Ha Hl.
  - simpl. split; [left; reflexivity|].
    intros y [<-|[]]. apply num_le_refl, Ha.
  - assert (Hx : x <> NaN) by (intros ->; apply Hl; left; reflexivity).
    assert (Hl' : no_NaN l) by (intros Hin; apply Hl; right; exact Hin).
    simpl fold_left.
    destruct (min2_cases a x Ha Hx) as [[-> Hle]|[-> Hle]].
    + destruct (IH x Hx Hl') as [Hin Hlb]. split.
      * right. exact Hin.
      * intros y [<-|Hy]; [|apply Hlb, Hy].
        eapply num_le_trans; [|exact Hle]. apply Hlb. left; reflexivity.
    + destruct (IH a Ha Hl') as [Hin Hlb]. split.
      * destruct Hin as [<-|Hin]; [left; reflexivity | right; right; exact Hin].
      * intros y [<-|[<-|Hy]].
        -- apply Hlb. left; reflexivity.
        -- eapply num_le_trans; [|exact Hle]. apply Hlb. left; reflexivity.
        -- apply Hlb. right; exact Hy.
Qed.

Lemma Math_max_cons (x : number) (l : list number) :
  Math_max (x :: l) = fold_left max2 l x.
Proof. unfold Math_max. cbn [fold_left]. rewrite max2_NegInf. reflexivity. Qed.

Lemma Math_min_cons (x : number) (l : list number) :
  Math_min (x :: l) = fold_left min2 l x.
Proof. unfold Math_min. cbn [fold_left]. rewrite min2_PosInf. reflexivity. Qed.

Lemma Math_max_NaN (l : list number) : In NaN l -> Math_max l = NaN.
Proof. apply fold_max2_In_NaN. Qed.

Lemma Math_min_NaN (l : list number) : In NaN l -> Math_min l = NaN.
Proof. apply fold_min2_In_NaN. Qed.

(** On a non-empty list of numbers [Math.max] is the greatest element. *)
Lemma Math_max_greatest (l : list number) :
  l <> [] -> no_NaN l -> is_greatest (Math_max l) l.
Proof.
  destruct l as [|x l]; [congruence|]. intros _ Hl.
  rewrite Math_max_cons. apply fold_max2_greatest.
  - intros ->. apply Hl. left; reflexivity.
  - intros Hin. apply Hl. right; exact Hin.
Qed.

Lemma Math_min_least (l : list number) :
  l <> [] -> no_NaN l -> is_least (Math_min l) l.
Proof.
  destruct l as [|x l]; [congruence|]. intros _ Hl.
  rewrite Math_min_cons. apply fold_min2_least.
  - intros ->. apply Hl. left; reflexivity.
  - intros Hin. apply Hl. right; exact Hin.
Qed.

Lemma In_NaN_dec (l : list number) : {In NaN l} + {no_NaN l}.
Proof.
  induction l as [|x l [IH|IH]].
  - right. intros [].
  - left. right. exact IH.
  - destruct x; [left; left; reflexivity| | |];
      right; intros [Hx|Hx]; try discriminate Hx; apply IH, Hx.
Qed.

(** A list with a greatest element holds no [NaN]. *)
Lemma is_greatest_no_NaN (m : number) (l : list number) :
  is_greatest m l -> no_NaN l.
Proof.
  intros [_ Hub] Hin. specialize (Hub _ Hin). simpl in Hub. discriminate.
Qed.

Lemma is_least_no_NaN (m : number) (l : list number) :
  is_least m l -> no_NaN l.
Proof.
  intros [_ Hlb] Hin. specialize (Hlb _ Hin).
  rewrite num_le_NaN_r in Hlb. discriminate.
Qed.

(** ** Days built by a fetch *)

Lemma In_processMonth hilo threshold cur d :
  In d (processMonth hilo threshold cur) ->
  exists day, d = processDay hilo threshold day.
Proof.
  unfold processMonth. rewrite in_map_iff.
  intros (day & <- & _). exists day. reflexivity.
Qed.

Lemma highHeights_nil_iff (evs : list TideEvent) :
  highHeights evs = [] <-> forall e, In e evs -> isHigh e = false.
Proof.
  unfold highHeights. induction evs as [|e evs IH]; simpl.
  - split; [intros _ e [] | reflexivity].
  - destruct (isHigh e) eqn:E; simpl.
    + split; [discriminate|]. intros Hall.
      specialize (Hall e (or_introl eq_refl)). congruence.
    + rewrite IH. split.
      * intros Hall e' [<-|Hin]; auto.
      * intros Hall e' Hin. apply Hall. right. exact Hin.
Qed.

Lemma In_highHeights (evs : list TideEvent) (e : TideEvent) :
  In e evs -> isHigh e = true -> In (height e) (highHeights evs).
Proof.
  intros Hin Hh. unfold highHeights. apply in_map, filter_In. auto.
Qed.

(** The threshold test of a built day, against the greatest ['H'] height. *)
Lemma processDay_meets_iff hilo threshold day :
  let d := processDay hilo threshold day in
  meetsThreshold d = true <->
  (highHeights (events d) = [] /\ num_ge zero threshold = true)
  \/ (exists m, is_greatest m (highHeights (events d)) /\ num_ge m threshold = true).
Proof.
  cbn zeta. unfold processDay. cbn [meetsThreshold events].
  destruct (highHeights (eventsOfDay hilo day)) as [|x l] eqn:E.
  - split.
    + intros Hm. left. auto.
    + intros [[_ Hm]|(m & [[] _] & _)]. exact Hm.
  - destruct (In_NaN_dec (x :: l)) as [Hnan|Hok].
    + rewrite (Math_max_NaN _ Hnan). unfold num_ge. rewrite num_le_NaN_r.
      split; [discriminate|].
      intros [[Hnil _]|(m & Hg & _)]; [discriminate|].
      exfalso. exact (is_greatest_no_NaN _ _ Hg Hnan).
    + assert (Hg : is_greatest (Math_max (x :: l)) (x :: l))
        by (apply Math_max_greatest; [discriminate | exact Hok]).
      split.
      * intros Hm. right. exists (Math_max (x :: l)). auto.
      * intros [[Hnil _]|(m & [Hin _] & Hm)]; [discriminate|].
        unfold num_ge in *. eapply num_le_trans; [exact Hm|].
        apply Hg, Hin.
Qed.

(** The same for each day of a bucketed month. *)
Lemma processMonth_meets_iff hilo threshold cur d :
  In d (processMonth hilo threshold cur) ->
  meetsThreshold d = true <->
  (highHeights (events d) = [] /\ num_ge zero threshold = true)
  \/ (exists m, is_greatest m (highHeights (events d)) /\ num_ge m threshold = true).
Proof.
  intros Hin. destruct (In_processMonth _ _ _ _ Hin) as (day & ->).
  apply processDay_meets_iff.
Qed.

Ltac pick_member := repeat first [left; reflexivity | right].

(** ** Extremes of a day *)

Lemma processDay_maxHeight hilo threshold day :
  let d := processDay hilo threshold day in
  maxHeight d = match highHeights (events d) with
                | [] => zero
                | _ :: _ => Math_max (highHeights (events d))
                end.
Proof. reflexivity. Qed.

Lemma processDay_minHeight hilo threshold day :
  let d := processDay hilo threshold day in
  minHeight d = match events d with
                | [] => zero
                | _ :: _ => Math_min (map height (events d))
                end.
Proof. reflexivity. Qed.

(** The extremes recorded for each day of a bucketed month. *)
Lemma processMonth_extremes hilo threshold cur d :
  In d (processMonth hilo threshold cur) ->
  (highHeights (events d) = [] -> maxHeight d = zero)
  /\ (highHeights (events d) <> [] ->
      maxHeight d = Math_max (highHeights (events d))
      /\ (no_NaN (highHeights (events d)) ->
          is_greatest (maxHeight d) (highHeights (events d))))
  /\ (events d = [] -> minHeight d = zero)
  /\ (events d <> [] ->
      minHeight d = Math_min (map height (events d))
      /\ (no_NaN (map height (events d)) ->
          is_least (minHeight d) (map height (events d)))).
Proof.
  intros Hin. destruct (In_processMonth _ _ _ _ Hin) as (day & ->).
  rewrite processDay_maxHeight, processDay_minHeight. cbn zeta.
  set (d := processDay hilo threshold day).
  split; [intros ->; reflexivity|].
  split.
  { intros Hne. destruct (highHeights (events d)) as [|x l] eqn:E; [congruence|].
    split; [reflexivity|]. intros Hok.
    apply Math_max_greatest; [discriminate | exact Hok]. }
  split; [intros ->; reflexivity|].
  intros Hne. destruct (events d) as [|e evs] eqn:E; [congruence|].
  split; [reflexivity|]. intros Hok.
  apply Math_min_least; [discriminate | exact Hok].
Qed.

(** ** Days without high tide *)

Lemma num_gt_not_le (a b : number) : num_gt a b = true -> num_le a b = false.
Proof.
  destruct a, b; simpl; try discriminate; try reflexivity;
    intros Hg; apply negb_true_iff in Hg; exact Hg.
Qed.

(** A day of a bucketed month none of whose events is a high tide. *)
Lemma processMonth_without_high hilo threshold cur d :
  In d (processMonth hilo threshold cur) ->
  (forall e, In e (events d) -> isHigh e = false) ->
  maxHeight d = zero
  /\ (meetsThreshold d = true <-> num_le threshold zero = true)
  /\ (num_gt threshold zero = true -> meetsThreshold d = false)
  /\ (events d = [] -> minHeight d = zero).
Proof.
  intros Hin Hno. destruct (In_processMonth _ _ _ _ Hin) as (day & ->).
  apply highHeights_nil_iff in Hno.
  unfold processDay in *. cbn [events maxHeight minHeight meetsThreshold] in *.
  rewrite Hno. unfold num_ge.
  split; [reflexivity|]. split; [tauto|]. split.
  - apply num_gt_not_le.
  - intros ->. reflexivity.
Qed.

(** ** The list view *)

Lemma flat_map_filter_skip {A B} (f : A -> list B) (p : A -> bool) (l : list A) :
  (forall x, In x l -> p x = false -> f x = []) ->
  flat_map f (List.filter p l) = flat_map f l.
Proof.
  induction l as [|x l IH]; intros Hskip; [reflexivity|].
  simpl. destruct (p x) eqn:E; simpl.
  - f_equal. apply IH. intros y Hy. apply Hskip. right. exact Hy.
  - rewrite (Hskip x (or_introl eq_refl) E). simpl.
    apply IH. intros y Hy. apply Hskip. right. exact Hy.
Qed.

Lemma filter_flat_map {A B} (f : A -> list B) (q : B -> bool) (l : list A) :
  List.filter q (flat_map f l) = flat_map (fun x => List.filter q (f x)) l.
Proof.
  induction l as [|x l IH]; [reflexivity|].
  simpl. rewrite List.filter_app, IH. reflexivity.
Qed.

Lemma filter_nil_iff {A} (q : A -> bool) (l : list A) :
  List.filter q l = [] <-> forall x, In x l -> q x = false.
Proof.
  induction l as [|x l IH]; simpl.
  - split; [intros _ x [] | reflexivity].
  - destruct (q x) eqn:E.
    + split; [discriminate|]. intros Hall.
      specialize (Hall x (or_introl eq_refl)). congruence.
    + rewrite IH. split.
      * intros Hall y [<-|Hy]; auto.
      * intros Hall y Hy. apply Hall. right. exact Hy.
Qed.

Lemma In_eventsOfDay hilo day e :
  In e (eventsOfDay hilo day) ->
  exists p, In p hilo /\ isSameDay (parse (p_t p)) day = true /\ e = toEvent p.
Proof.
  unfold eventsOfDay. rewrite in_map_iff.
  intros (p & <- & Hp). apply filter_In in Hp. exists p. tauto.
Qed.

Lemma highHeights_no_NaN hilo day :
  highsAreNumbers hilo -> no_NaN (highHeights (eventsOfDay hilo day)).
Proof.
  intros Hnum Hin. unfold highHeights in Hin.
  apply in_map_iff in Hin. destruct Hin as (e & Hh & He).
  apply filter_In in He. destruct He as [He Hhigh].
  destruct (In_eventsOfDay _ _ _ He) as (p & Hp & _ & ->).
  unfold isHigh in Hhigh. cbn [toEvent e_type height] in *.
  destruct (p_type p) as [[|]|] eqn:Et; try discriminate.
  exact (Hnum p Hp Et Hh).
Qed.

(** A built day whose ['H'] heights are numbers and which holds a qualifying
    event meets the threshold. *)
Lemma qualifying_event_meets hilo threshold day e :
  no_NaN (highHeights (eventsOfDay hilo day)) ->
  In e (eventsOfDay hilo day) -> qualifies threshold e = true ->
  meetsThreshold (processDay hilo threshold day) = true.
Proof.
  intros Hok Hin Hq. unfold qualifies in Hq. apply andb_true_iff in Hq.
  destruct Hq as [Hh Hge].
  apply processDay_meets_iff. right.
  pose proof (In_highHeights _ _ Hin Hh) as Hmem.
  exists (Math_max (highHeights (events (processDay hilo threshold day)))).
  cbn [processDay events] in *.
  assert (Hg : is_greatest (Math_max (highHeights (eventsOfDay hilo day)))
                           (highHeights (eventsOfDay hilo day))).
  { apply Math_max_greatest; [|exact Hok]. intros E. rewrite E in Hmem. exact Hmem. }
  split; [exact Hg|].
  unfold num_ge in *. eapply num_le_trans; [exact Hge|]. apply Hg, Hmem.
Qed.

(** On a bucketed month whose ['H'] values are numbers the filter on
    [meetsThreshold] drops no qualifying event. *)
Lemma processMonth_thresholdEvents hilo threshold cur :
  highsAreNumbers hilo ->
  thresholdEvents (processMonth hilo threshold cur) threshold
  = allQualifying (processMonth hilo threshold cur) threshold.
Proof.
  intros Hnum. unfold thresholdEvents, allQualifying.
  rewrite filter_flat_map. apply flat_map_filter_skip.
  intros d Hin Hmeets. destruct (In_processMonth _ _ _ _ Hin) as (day & ->).
  apply filter_nil_iff. intros e He.
  destruct (qualifies threshold e) eqn:Hq; [|reflexivity].
  cbn [processDay events] in He.
  rewrite (qualifying_event_meets hilo threshold day e) in Hmeets;
    [discriminate | apply highHeights_no_NaN, Hnum | exact He | exact Hq].
Qed.

(** An event that qualifies for a threshold qualifies for every lower one. *)
Lemma qualifies_lower (threshold threshold' : number) (e : TideEvent) :
  num_le threshold threshold' = true ->
  qualifies threshold' e = true -> qualifies threshold e = true.
Proof.
  intros Hle Hq. unfold qualifies in *. apply andb_true_iff in Hq.
  destruct Hq as [Hh Hge]. apply andb_true_iff. split; [exact Hh|].
  unfold num_ge in *. eapply num_le_trans; [exact Hle | exact Hge].
Qed.

(** The same when the list view filters with a threshold that is not lower
    than the one the days were flagged with: a day it would need is a day
    that was flagged. *)
Lemma processMonth_thresholdEvents_raised hilo threshold threshold' cur :
  highsAreNumbers hilo ->
  threshold' = threshold \/ num_le threshold threshold' = true ->
  thresholdEvents (processMonth hilo threshold cur) threshold'
  = allQualifying (processMonth hilo threshold cur) threshold'.
Proof.
  intros Hnum [->|Hle]; [apply processMonth_thresholdEvents, Hnum|].
  unfold thresholdEvents, allQualifying.
  rewrite filter_flat_map. apply flat_map_filter_skip.
  intros d Hin Hmeets. destruct (In_processMonth _ _ _ _ Hin) as (day & ->).
  apply filter_nil_iff. intros e He.
  destruct (qualifies threshold' e) eqn:Hq; [|reflexivity].
  cbn [processDay events] in He.
  rewrite (qualifying_event_meets hilo threshold day e) in Hmeets;
    [discriminate | apply highHeights_no_NaN, Hnum | exact He
    | exact (qualifies_lower _ _ _ Hle Hq)].
Qed.

(** ** The days of the visible month *)

Lemma daysInMonth_pos (y m : Z) : 28 <= daysInMonth y m <= 31.
Proof.
  unfold daysInMonth.
  destruct (m =? 1); [destruct (isLeapYear y); lia|].
  destruct ((m =? 3) || (m =? 5) || (m =? 8) || (m =? 10)); lia.
Qed.

Lemma date_le_in_month (y m k : Z) :
  k <= daysInMonth y m ->
  date_le (LocalDate y m k 0) (LocalDate y m (daysInMonth y m) (msPerDay - 1)) = true.
Proof.
  intros Hk. unfold date_le, compareFields. rewrite !Z.compare_refl.
  destruct (Z.compare_spec k (daysInMonth y m)) as [E|E|E]; try reflexivity; lia.
Qed.

Lemma date_le_past_month (y m : Z) :
  date_le (nextDay (LocalDate y m (daysInMonth y m) 0))
          (LocalDate y m (daysInMonth y m) (msPerDay - 1)) = false.
Proof.
  unfold nextDay. rewrite Z.ltb_irrefl.
  destruct (m <? 11); unfold date_le, compareFields.
  - rewrite Z.compare_refl.
    destruct (Z.compare_spec (m + 1) m) as [E|E|E]; try reflexivity; lia.
  - destruct (Z.compare_spec (y + 1) y) as [E|E|E]; try reflexivity; lia.
Qed.

(** From day [k] of the month on, the loop lists the [n] days that are left
    and then stops on its own test, however much fuel remains. *)
Lemma eachDay_loop_month (y m : Z) (n extra : nat) (k : nat) :
  (1 <= k)%nat ->
  Z.of_nat k + Z.of_nat n = daysInMonth y m + 1 ->
  eachDay_loop (n + extra) (LocalDate y m (Z.of_nat k) 0)
               (LocalDate y m (daysInMonth y m) (msPerDay - 1))
  = (map (fun i => LocalDate y m (Z.of_nat i) 0) (seq k n)
     ++ match n with
        | O => eachDay_loop extra (LocalDate y m (Z.of_nat k) 0)
                            (LocalDate y m (daysInMonth y m) (msPerDay - 1))
        | S _ => []
        end)%list.
Proof.
  revert k. induction n as [|n IH]; intros k Hk Hsum; [reflexivity|].
  cbn [Nat.add eachDay_loop seq map].
  rewrite date_le_in_month by lia. cbn [app]. f_equal.
  destruct n as [|n'].
  - assert (Hlast : Z.of_nat k = daysInMonth y m) by lia.
    rewrite Hlast. cbn [Nat.add seq map app].
    destruct extra as [|extra]; [reflexivity|].
    cbn [eachDay_loop]. rewrite date_le_past_month. reflexivity.
  - assert (Hnext : nextDay (LocalDate y m (Z.of_nat k) 0)
                    = LocalDate y m (Z.of_nat (S k)) 0).
    { unfold nextDay.
      destruct (Z.ltb_spec (Z.of_nat k) (daysInMonth y m)) as [_|Hge]; [|lia].
      f_equal. lia. }
    rewrite Hnext, (IH (S k)) by lia.
    rewrite app_nil_r. reflexivity.
Qed.

Lemma differenceInCalendarDays_month (y m d t : Z) :
  differenceInCalendarDays (endOfMonth (LocalDate y m d t))
                           (startOfMonth (LocalDate y m d t))
  = Some (daysInMonth y m - 1).
Proof. simpl. unfold dayNumber. f_equal. lia. Qed.

(** The interval of the month of a valid date lists the starts of its days,
    first to last. *)
Lemma eachDayOfInterval_month (cur : Date) :
  eachDayOfInterval (startOfMonth cur) (endOfMonth cur) = monthDays cur.
Proof.
  destruct cur as [|y m d t]; [reflexivity|].
  unfold eachDayOfInterval. rewrite differenceInCalendarDays_month.
  pose proof (daysInMonth_pos y m) as Hdim.
  replace (daysInMonth y m - 1 + 1) with (daysInMonth y m) by lia.
  cbn [startOfMonth endOfMonth startOfDay monthDays].
  change (LocalDate y m 1 0) with (LocalDate y m (Z.of_nat 1) 0).
  rewrite <- (Nat.add_0_r (Z.to_nat (daysInMonth y m))) at 1.
  rewrite eachDay_loop_month by lia.
  destruct (Z.to_nat (daysInMonth y m)) eqn:E; [lia|].
  apply app_nil_r.
Qed.

(** The bound on the loop of [eachDayOfInterval] does not cut it short: with
    any larger bound the loop returns the same days. *)
Lemma eachDay_loop_month_stable (y m : Z) (extra : nat) :
  eachDay_loop (Z.to_nat (daysInMonth y m) + extra) (LocalDate y m 1 0)
               (LocalDate y m (daysInMonth y m) (msPerDay - 1))
  = monthDays (LocalDate y m 1 0).
Proof.
  pose proof (daysInMonth_pos y m) as Hdim.
  change (LocalDate y m 1 0) with (LocalDate y m (Z.of_nat 1) 0) at 1.
  rewrite eachDay_loop_month by lia.
  destruct (Z.to_nat (daysInMonth y m)) eqn:E; [lia|].
  rewrite app_nil_r. cbn [monthDays]. rewrite E. reflexivity.
Qed.

Lemma processMonth_dates hilo threshold cur :
  map date (processMonth hilo threshold cur) = monthDays cur.
Proof.
  unfold processMonth. rewrite eachDayOfInterval_month, map_map.
  cbn [processDay date]. apply map_id.
Qed.

Lemma processMonth_events hilo threshold cur d :
  In d (processMonth hilo threshold cur) ->
  events d = map toEvent
                 (List.filter (fun p => isSameDay (parse (p_t p)) (date d)) hilo).
Proof.
  intros Hin. destruct (In_processMonth _ _ _ _ Hin) as (day & ->). reflexivity.
Qed.

(** Later days of a month come later as time values. *)
Lemma monthDays_sorted (cur : Date) :
  StronglySorted (fun a b => isAfter b a = true) (monthDays cur).
Proof.
  destruct cur as [|y m d t]; [constructor|].
  unfold monthDays. generalize (Z.to_nat (daysInMonth y m)) as n.
  generalize 1%nat as k. intros k n. revert k.
  induction n as [|n IH]; intros k; [constructor|].
  cbn [seq map]. constructor; [apply IH|].
  apply List.Forall_forall. intros x Hx. apply in_map_iff in Hx.
  destruct Hx as (j & <- & Hj). apply in_seq in Hj.
  unfold isAfter, compareFields. rewrite !Z.compare_refl.
  destruct (Z.compare_spec (Z.of_nat j) (Z.of_nat k)) as [E|E|E]; try reflexivity; lia.
Qed.

(** The list runs from the start of the month to the start of its last day. *)
Lemma monthDays_ends (y m d t : Z) :
  hd_error (monthDays (LocalDate y m d t)) = Some (startOfMonth (LocalDate y m d t))
  /\ List.last (monthDays (LocalDate y m d t)) InvalidDate
     = startOfDay (endOfMonth (LocalDate y m d t))
  /\ Z.of_nat (length (monthDays (LocalDate y m d t))) = daysInMonth y m.
Proof.
  pose proof (daysInMonth_pos y m) as Hdim.
  cbn [monthDays startOfMonth endOfMonth startOfDay].
  destruct (Z.to_nat (daysInMonth y m)) as [|n] eqn:E; [lia|].
  split; [reflexivity|]. split.
  - rewrite seq_S, map_app. cbn [map]. rewrite List.last_last.
    f_equal. lia.
  - rewrite length_map, length_seq. lia.
Qed.

(** ** [loadTideData] *)

Lemma tryLoad_resolved fetch env s st hilo :
  fetchResolved fetch s hilo ->
  tryLoad fetch env s st
  = Some (setDailyData (processMonth hilo (threshold s) (currentDate s)) s,
          checkUpcomingTidesForAlerts (notifSettings s) (station s) (threshold s) env
            (processMonth hilo (threshold s) (currentDate s)) st).
Proof.
  intros (b & e & Hb & He & Hf). unfold tryLoad.
  rewrite Hb, He. cbn [mbind option_bind]. rewrite Hf. reflexivity.
Qed.

Lemma tryLoad_threw fetch env s st :
  fetchThrew fetch s -> tryLoad fetch env s st = None.
Proof.
  intros (b & e & Hb & He & Hf). unfold tryLoad.
  rewrite Hb, He. cbn [mbind option_bind]. rewrite Hf. reflexivity.
Qed.

(** C2: after a fetch for the visible month that resolved with [hilo],
    [dailyData] holds one entry per calendar day of that month, from the
    first to the last in ascending order of date, and the events of each
    entry are the fetched predictions whose parsed time falls on that day,
    in the order of [hilo]. *)
Theorem dailyData_after_fetch fetch env s st hilo :
  fetchResolved fetch s hilo ->
  let s' := stateAfterLoad fetch env s st in
  map date (dailyData s') = monthDays (currentDate s)
  /\ hd_error (map date (dailyData s')) = Some (startOfMonth (currentDate s))
  /\ List.last (map date (dailyData s')) InvalidDate = startOfDay (endOfMonth (currentDate s))
  /\ StronglySorted (fun a b => isAfter b a = true) (map date (dailyData s'))
  /\ forall d, In d (dailyData s') ->
       events d = map toEvent
                      (List.filter (fun p => isSameDay (parse (p_t p)) (date d)) hilo).
Proof.
  intros Hres. cbn zeta. unfold stateAfterLoad, loadTideData.
  rewrite (tryLoad_resolved fetch env _ st hilo) by exact Hres.
  cbn [fst setLoading setError setDailyData dailyData currentDate threshold].
  rewrite processMonth_dates.
  split; [reflexivity|].
  assert (Hends : hd_error (monthDays (currentDate s))
                  = Some (startOfMonth (currentDate s))
                  /\ List.last (monthDays (currentDate s)) InvalidDate
                     = startOfDay (endOfMonth (currentDate s))).
  { destruct Hres as (b & e & Hb & _).
    destruct (currentDate s) as [|y m d t]; [discriminate Hb|].
    destruct (monthDays_ends y m d t) as (Hh & Hl & _). auto. }
  split; [apply Hends|]. split; [apply Hends|].
  split; [apply monthDays_sorted|].
  apply processMonth_events.
Qed.

Lemma dailyData_after_fetch_witness :
  fetchResolved sampleService sampleState sampleHilo
  /\ let s' := stateAfterLoad sampleService sampleEnv sampleState ∅ in
     map date (dailyData s') = monthDays midJanuary
     /\ hd_error (map date (dailyData s')) = Some (startOfMonth midJanuary)
     /\ List.last (map date (dailyData s')) InvalidDate = startOfDay (endOfMonth midJanuary)
     /\ StronglySorted (fun a b => isAfter b a = true) (map date (dailyData s'))
     /\ forall d, In d (dailyData s') ->
          events d = map toEvent
                         (List.filter (fun p => isSameDay (parse (p_t p)) (date d))
                                      sampleHilo).
Proof.
  assert (Hres : fetchResolved sampleService sampleState sampleHilo).
  { exists "20240101", "20240131". repeat split; reflexivity. }
  split; [exact Hres|].
  exact (dailyData_after_fetch sampleService sampleEnv sampleState ∅ sampleHilo Hres).
Defined.

(** C6: when the predictions fetch throws, [loadTideData] sets the error
    message, leaves [dailyData] as it was, and clears the loading flag; it
    writes nothing to storage and posts nothing. *)
Theorem loadTideData_fetch_throws fetch env s st :
  fetchThrew fetch s ->
  let '(s', st', effects) := loadTideData fetch env s st in
  error s' = Some loadErrorMessage
  /\ dailyData s' = dailyData s
  /\ loading s' = false
  /\ st' = st /\ effects = [].
Proof.
  intros Hthrew. unfold loadTideData.
  rewrite (tryLoad_threw fetch env _ st) by exact Hthrew.
  repeat split; reflexivity.
Qed.

Lemma loadTideData_fetch_throws_witness :
  fetchThrew failingService sampleState
  /\ let '(s', st', effects) := loadTideData failingService sampleEnv sampleState ∅ in
     error s' = Some loadErrorMessage
     /\ dailyData s' = dailyData sampleState
     /\ loading s' = false
     /\ st' = ∅ /\ effects = [].
Proof.
  assert (Hthrew : fetchThrew failingService sampleState).
  { exists "20240101", "20240131". repeat split; reflexivity. }
  split; [exact Hthrew|].
  exact (loadTideData_fetch_throws failingService sampleEnv sampleState ∅ Hthrew).
Defined.

(** ** What a fetch leaves in the state *)

Lemma stateAfterLoad_resolved fetch env s st hilo :
  fetchResolved fetch s hilo ->
  dailyData (stateAfterLoad fetch env s st)
  = processMonth hilo (threshold s) (currentDate s)
  /\ threshold (stateAfterLoad fetch env s st) = threshold s
  /\ loading (stateAfterLoad fetch env s st) = false
  /\ error (stateAfterLoad fetch env s st) = None.
Proof.
  intros Hres. unfold stateAfterLoad, loadTideData.
  rewrite (tryLoad_resolved fetch env _ st hilo) by exact Hres.
  repeat split; reflexivity.
Qed.

(** C1: for every day produced by a fetch, [meetsThreshold] holds exactly
    when the greatest height among the day's ['H'] events is at least the
    configured threshold, that greatest height being taken as 0 for a day
    without ['H'] events. *)
Theorem meetsThreshold_iff_max_high fetch env s st hilo d :
  fetchResolved fetch s hilo ->
  In d (dailyData (stateAfterLoad fetch env s st)) ->
  meetsThreshold d = true <->
  (highHeights (events d) = [] /\ num_ge zero (threshold s) = true)
  \/ (exists m, is_greatest m (highHeights (events d))
                /\ num_ge m (threshold s) = true).
Proof.
  intros Hres Hin.
  destruct (stateAfterLoad_resolved fetch env s st hilo Hres) as (Hdata & _).
  rewrite Hdata in Hin. eapply processMonth_meets_iff. exact Hin.
Qed.

Lemma meetsThreshold_iff_max_high_witness :
  let d := processDay sampleHilo six (LocalDate 2024 0 15 0) in
  fetchResolved sampleService sampleState sampleHilo
  /\ In d (dailyData (stateAfterLoad sampleService sampleEnv sampleState ∅))
  /\ meetsThreshold d = true
  /\ (meetsThreshold d = true <->
      (highHeights (events d) = [] /\ num_ge zero six = true)
      \/ (exists m, is_greatest m (highHeights (events d)) /\ num_ge m six = true)).
Proof.
  cbn zeta.
  assert (Hres : fetchResolved sampleService sampleState sampleHilo).
  { exists "20240101", "20240131". repeat split; reflexivity. }
  assert (Hin : In (processDay sampleHilo six (LocalDate 2024 0 15 0))
                   (dailyData (stateAfterLoad sampleService sampleEnv sampleState ∅))).
  { vm_compute. pick_member. }
  split; [exact Hres|]. split; [exact Hin|]. split; [reflexivity|].
  exact (meetsThreshold_iff_max_high sampleService sampleEnv sampleState ∅
           sampleHilo _ Hres Hin).
Defined.

(** C5 (as amended): for every day built from a fetch, [maxHeight] is the
    greatest height among the day's ['H'] events ([Math.max] of them, which is
    that greatest element when they are all numbers), or 0 when the day has no
    ['H'] event; [minHeight] is the least height among all the day's events
    ([Math.min] of them), or 0 when the day has no event. *)
Theorem extremes_of_built_day fetch env s st hilo d :
  fetchResolved fetch s hilo ->
  In d (dailyData (stateAfterLoad fetch env s st)) ->
  (highHeights (events d) = [] -> maxHeight d = zero)
  /\ (highHeights (events d) <> [] ->
      maxHeight d = Math_max (highHeights (events d))
      /\ (no_NaN (highHeights (events d)) ->
          is_greatest (maxHeight d) (highHeights (events d))))
  /\ (events d = [] -> minHeight d = zero)
  /\ (events d <> [] ->
      minHeight d = Math_min (map height (events d))
      /\ (no_NaN (map height (events d)) ->
          is_least (minHeight d) (map height (events d)))).
Proof.
  intros Hres Hin.
  destruct (stateAfterLoad_resolved fetch env s st hilo Hres) as (Hdata & _).
  rewrite Hdata in Hin. eapply processMonth_extremes. exact Hin.
Qed.

Lemma extremes_of_built_day_witness :
  let d := processDay sampleHilo six (LocalDate 2024 0 15 0) in
  fetchResolved sampleService sampleState sampleHilo
  /\ In d (dailyData (stateAfterLoad sampleService sampleEnv sampleState ∅))
  /\ maxHeight d = Fin (32 # 5) /\ minHeight d = Fin (-3 # 10)
  /\ is_greatest (maxHeight d) (highHeights (events d))
  /\ is_least (minHeight d) (map height (events d)).
Proof.
  cbn zeta.
  assert (Hres : fetchResolved sampleService sampleState sampleHilo).
  { exists "20240101", "20240131". repeat split; reflexivity. }
  assert (Hin : In (processDay sampleHilo six (LocalDate 2024 0 15 0))
                   (dailyData (stateAfterLoad sampleService sampleEnv sampleState ∅))).
  { vm_compute. pick_member. }
  destruct (extremes_of_built_day sampleService sampleEnv sampleState ∅
              sampleHilo _ Hres Hin) as (_ & Hmax & _ & Hmin).
  split; [exact Hres|]. split; [exact Hin|].
  split; [reflexivity|]. split; [reflexivity|].
  split.
  - apply Hmax; [discriminate|].
    vm_compute. intros Hn. repeat (destruct Hn as [Hn|Hn]; [discriminate Hn|]). exact Hn.
  - apply Hmin; [discriminate|].
    vm_compute. intros Hn. repeat (destruct Hn as [Hn|Hn]; [discriminate Hn|]). exact Hn.
Defined.

(** C5 (as stated) fails: the service reports a single low tide of 1.3 for
    January 15th; the entry of that day has [maxHeight] 0, which is not the
    greatest height of the day's events. *)
Lemma extremes_not_over_all_events :
  let s := sampleState in
  let d := processDay lowOnlyHilo six (LocalDate 2024 0 15 0) in
  fetchResolved lowOnlyService s lowOnlyHilo
  /\ In d (dailyData (stateAfterLoad lowOnlyService sampleEnv s ∅))
  /\ map height (events d) = [Fin (13 # 10)]
  /\ maxHeight d = zero
  /\ ~ extremesOverAllEvents d.
Proof.
  cbn zeta.
  split; [exists "20240101", "20240131"; repeat split; reflexivity|].
  split; [vm_compute; pick_member|].
  split; [reflexivity|]. split; [reflexivity|].
  intros [[Hin _] _]. vm_compute in Hin.
  destruct Hin as [Hin|[]]. discriminate Hin.
Qed.

(** C9: a day without ['H'] events gets [maxHeight] 0, so it meets the
    threshold exactly when the threshold is at most 0, and never for a
    strictly positive threshold; a day without any event also gets
    [minHeight] 0. *)
Theorem day_without_high_tide fetch env s st hilo d :
  fetchResolved fetch s hilo ->
  In d (dailyData (stateAfterLoad fetch env s st)) ->
  (forall e, In e (events d) -> isHigh e = false) ->
  maxHeight d = zero
  /\ (meetsThreshold d = true <-> num_le (threshold s) zero = true)
  /\ (num_gt (threshold s) zero = true -> meetsThreshold d = false)
  /\ (events d = [] -> minHeight d = zero).
Proof.
  intros Hres Hin.
  destruct (stateAfterLoad_resolved fetch env s st hilo Hres) as (Hdata & _).
  rewrite Hdata in Hin. eapply processMonth_without_high. exact Hin.
Qed.

Lemma day_without_high_tide_witness :
  let d := processDay lowOnlyHilo six (LocalDate 2024 0 15 0) in
  fetchResolved lowOnlyService sampleState lowOnlyHilo
  /\ In d (dailyData (stateAfterLoad lowOnlyService sampleEnv sampleState ∅))
  /\ num_gt six zero = true
  /\ maxHeight d = zero
  /\ (meetsThreshold d = true <-> num_le six zero = true)
  /\ (num_gt six zero = true -> meetsThreshold d = false)
  /\ (events d = [] -> minHeight d = zero).
Proof.
  cbn zeta.
  assert (Hres : fetchResolved lowOnlyService sampleState lowOnlyHilo).
  { exists "20240101", "20240131". repeat split; reflexivity. }
  assert (Hin : In (processDay lowOnlyHilo six (LocalDate 2024 0 15 0))
                   (dailyData (stateAfterLoad lowOnlyService sampleEnv sampleState ∅))).
  { vm_compute. pick_member. }
  split; [exact Hres|]. split; [exact Hin|]. split; [reflexivity|].
  apply (day_without_high_tide lowOnlyService sampleEnv sampleState ∅
           lowOnlyHilo _ Hres Hin).
  vm_compute. intros e [<-|[]]. reflexivity.
Defined.

(** C8 (as amended): take a load whose fetch resolved with ['H'] values that
    all read as numbers, and any state [view] that still holds the days this
    load stored and whose threshold is the one of the load or not lower than
    it (the state the load leaves is such a state).  There the list view
    holds exactly the ['H'] events of the month whose height is at least the
    threshold of [view]: the filter on [meetsThreshold] drops none. *)
Theorem thresholdEvents_all_qualifying fetch env s st hilo view :
  fetchResolved fetch s hilo ->
  highsAreNumbers hilo ->
  dailyData view = dailyData (stateAfterLoad fetch env s st) ->
  threshold view = threshold s \/ num_le (threshold s) (threshold view) = true ->
  thresholdEvents (dailyData view) (threshold view)
  = allQualifying (dailyData view) (threshold view).
Proof.
  intros Hres Hnum Hdata Hthr. rewrite Hdata.
  destruct (stateAfterLoad_resolved fetch env s st hilo Hres) as (-> & _).
  apply processMonth_thresholdEvents_raised; [exact Hnum | exact Hthr].
Qed.

Lemma thresholdEvents_all_qualifying_witness :
  let s' := stateAfterLoad sampleService sampleEnv sampleState ∅ in
  let raised := onThresholdChange "6.2" s' in
  fetchResolved sampleService sampleState sampleHilo
  /\ highsAreNumbers sampleHilo
  /\ threshold s' = threshold sampleState
  /\ num_le (threshold sampleState) (threshold raised) = true
  /\ thresholdEvents (dailyData s') (threshold s')
     = allQualifying (dailyData s') (threshold s')
  /\ map height (thresholdEvents (dailyData s') (threshold s')) = [Fin (32 # 5)]
  /\ thresholdEvents (dailyData raised) (threshold raised)
     = allQualifying (dailyData raised) (threshold raised)
  /\ map height (thresholdEvents (dailyData raised) (threshold raised))
     = [Fin (32 # 5)].
Proof.
  cbn zeta.
  assert (Hres : fetchResolved sampleService sampleState sampleHilo).
  { exists "20240101", "20240131". repeat split; reflexivity. }
  assert (Hnum : highsAreNumbers sampleHilo).
  { intros p Hin _. vm_compute in Hin.
    repeat (destruct Hin as [<-|Hin]; [vm_compute; discriminate|]).
    destruct Hin. }
  split; [exact Hres|]. split; [exact Hnum|].
  split; [reflexivity|]. split; [reflexivity|].
  split.
  { exact (thresholdEvents_all_qualifying sampleService sampleEnv sampleState ∅
             sampleHilo
             (stateAfterLoad sampleService sampleEnv sampleState ∅)
             Hres Hnum eq_refl (or_introl eq_refl)). }
  split; [reflexivity|].
  split; [|reflexivity].
  exact (thresholdEvents_all_qualifying sampleService sampleEnv sampleState ∅
           sampleHilo
           (onThresholdChange "6.2"
              (stateAfterLoad sampleService sampleEnv sampleState ∅))
           Hres Hnum eq_refl (or_intror eq_refl)).
Defined.

(** C8 (as stated) fails: the service reports for one day the high tides
    "7.0" and one whose value is the empty string; [Math.max] of the two is
    [NaN], the day does not meet the threshold 6, and its 7.0 event is missing
    from the list view. *)
Lemma thresholdEvents_drops_event :
  let s' := stateAfterLoad brokenValueService sampleEnv sampleState ∅ in
  fetchResolved brokenValueService sampleState brokenValueHilo
  /\ thresholdEvents (dailyData s') (threshold s')
     <> allQualifying (dailyData s') (threshold s')
  /\ thresholdEvents (dailyData s') (threshold s') = []
  /\ allQualifying (dailyData s') (threshold s')
     = [mkEvent (LocalDate 2024 0 15 12240000) (Fin 7) true (Some H)].
Proof.
  cbn zeta.
  split; [exists "20240101", "20240131"; repeat split; reflexivity|].
  split; [vm_compute; discriminate|].
  split; vm_compute; reflexivity.
Qed.

(** The condition on the threshold is needed too.  The month is loaded with
    the threshold 6, the threshold field is then set to 5.5 and the reload
    it starts is rejected, so the days keep the flags computed for 6: the
    16th, whose high tide of 5.6 is below 6, is not flagged, and the list
    view for 5.5 lacks its event although every value is a number. *)
Lemma thresholdEvents_stale_flags :
  let loaded := stateAfterLoad sampleService sampleEnv sampleState ∅ in
  let s' := stateAfterLoad failingService sampleEnv
              (onThresholdChange "5.5" loaded) ∅ in
  highsAreNumbers sampleHilo
  /\ dailyData s' = dailyData loaded
  /\ threshold s' = Fin (11 # 2)
  /\ num_le (threshold sampleState) (threshold s') = false
  /\ map height (thresholdEvents (dailyData s') (threshold s'))
     = [Fin (29 # 5); Fin (32 # 5)]
  /\ map height (allQualifying (dailyData s') (threshold s'))
     = [Fin (29 # 5); Fin (32 # 5); Fin (28 # 5)].
Proof.
  cbn zeta. split.
  { intros p Hin _. vm_compute in Hin.
    repeat (destruct Hin as [<-|Hin]; [vm_compute; discriminate|]).
    destruct Hin. }
  repeat split; vm_compute; reflexivity.
Qed.

(** ** Alert markers and keys *)

Lemma noItem_insert_sent (st : gmap string string) (k k' : string) :
  noItem st k' = false -> noItem (<[k := "sent"]> st) k' = false.
Proof.
  unfold noItem. destruct (decide (k = k')) as [->|Hne].
  - rewrite lookup_insert_eq. reflexivity.
  - rewrite lookup_insert_ne by exact Hne. auto.
Qed.

Lemma noItem_insert_same (st : gmap string string) (k : string) :
  noItem (<[k := "sent"]> st) k = false.
Proof. unfold noItem. rewrite lookup_insert_eq. reflexivity. Qed.

Lemma alertKey_id (s s' : SavedStation) (d : Date) :
  id s = id s' -> alertKey s d = alertKey s' d.
Proof. unfold alertKey. intros ->. reflexivity. Qed.

Lemma alertKey_sameDay (s : SavedStation) (a b : Date) :
  isSameDay a b = true -> alertKey s a = alertKey s b.
Proof.
  destruct a as [|y1 m1 d1 t1], b as [|y2 m2 d2 t2]; simpl; try discriminate.
  intros Hs. apply andb_true_iff in Hs. destruct Hs as [Hs Hd].
  apply andb_true_iff in Hs. destruct Hs as [Hy Hm].
  apply Z.eqb_eq in Hy, Hm, Hd. subst. reflexivity.
Qed.

(** An alert key is never one of the two keys of the persisting effect. *)
Lemma alertKey_not_persisted (s : SavedStation) (d : Date) (key : string) :
  alertKey s d = Some key ->
  key <> "tidewatch_favorites" /\ key <> "tidewatch_notif_settings".
Proof.
  unfold alertKey. destruct (format_yyyyMMdd d) as [k|]; [|discriminate].
  cbn [mbind option_bind]. intros [= <-]. split; discriminate.
Qed.

Lemma marked_persist st sid d f js :
  marked st sid d -> marked (persist f js st) sid d.
Proof.
  intros (key & Hk & Hno). exists key. split; [exact Hk|].
  destruct (alertKey_not_persisted _ _ _ Hk) as [Hf Hs].
  unfold persist, noItem in *.
  rewrite !lookup_insert_ne by congruence. exact Hno.
Qed.

Section AlertProperties.

Variable notifSettings : NotificationSettings.
Variable station : SavedStation.
Variable threshold : number.
Variable env : Env.

Lemma alertDay_outcome day st :
  DayOutcome notifSettings station threshold env day st
             (alertDay notifSettings station threshold env day st).
Proof.
  unfold alertDay.
  destruct (days_le _ (leadDays notifSettings)) eqn:Hlead; [|constructor].
  destruct (List.find _ (events day)) as [maxEvent|] eqn:Hfind; [|constructor].
  destruct (alertKey station (date day)) as [key|] eqn:Hkey; [|constructor].
  destruct (noItem st key) eqn:Hno; [|constructor].
  destruct (controller env) eqn:Hctl; [|constructor].
  destruct (alertMessage station day maxEvent) as [m|] eqn:Hmsg; [|constructor].
  econstructor; eassumption.
Qed.

Lemma alertMessage_onDay day e m :
  alertMessage station day e = Some m -> onDay (body (payload m)) = date day.
Proof.
  unfold alertMessage. destruct (isValid (date day) && isValid (time e)); [|discriminate].
  intros [= <-]. reflexivity.
Qed.

(** Every message of the loop is the message of one of its days, within the
    lead window. *)
Lemma alertLoop_posts days st m :
  In (PostMessage m) (log (alertLoop notifSettings station threshold env days st)) ->
  exists day, In day days
    /\ onDay (body (payload m)) = date day
    /\ days_le (differenceInDays (date day) (today env)) (leadDays notifSettings) = true.
Proof.
  revert st. induction days as [|day rest IH]; intros st Hin; [destruct Hin|].
  cbn [alertLoop] in Hin.
  destruct (alertDay_outcome day st) as [c|key e m' Hlead Hfind Hkey Hno Hctl Hmsg].
  - cbn [completion storage log] in Hin. destruct c.
    + cbn [log app] in Hin. destruct (IH _ Hin) as (d & Hd & Hrest).
      exists d. split; [right; exact Hd | exact Hrest].
    + destruct Hin.
  - cbn [completion storage log app] in Hin.
    destruct Hin as [Heq|[Heq|Hin]]; [|discriminate Heq|].
    + injection Heq as <-. exists day. split; [left; reflexivity|].
      split; [eapply alertMessage_onDay; exact Hmsg | exact Hlead].
    + destruct (IH _ Hin) as (d & Hd & Hrest).
      exists d. split; [right; exact Hd | exact Hrest].
Qed.

(** C3: a run posts a notification only for a day of its data that meets the
    threshold, whose date is strictly after today, and whose distance to
    today in full days is at most [leadDays]; it posts none unless
    notifications are enabled and permitted. *)
Theorem alerts_only_for_upcoming_crossings data st m :
  In (PostMessage m)
     (log (checkUpcomingTidesForAlerts notifSettings station threshold env data st)) ->
  enabled notifSettings = true /\ permission env = granted
  /\ exists day, In day data
       /\ onDay (body (payload m)) = date day
       /\ meetsThreshold day = true
       /\ isAfter (date day) (today env) = true
       /\ days_le (differenceInDays (date day) (today env)) (leadDays notifSettings)
          = true.
Proof.
  unfold checkUpcomingTidesForAlerts.
  destruct (enabled notifSettings); [|intros []].
  destruct (permission env); try (intros []).
  cbn [negb orb]. intros Hin.
  split; [reflexivity|]. split; [reflexivity|].
  destruct (alertLoop_posts _ _ _ Hin) as (day & Hday & Hon & Hlead).
  apply filter_In in Hday. destruct Hday as [Hday Hup].
  unfold isUpcomingCrossing in Hup.
  apply andb_true_iff in Hup. destruct Hup as [Hup _].
  apply andb_true_iff in Hup. destruct Hup as [Hmeets Hafter].
  exists day. auto.
Qed.

Lemma applyWrites_app (l1 l2 : list Effect) (st : gmap string string) :
  applyWrites (l1 ++ l2) st = applyWrites l2 (applyWrites l1 st).
Proof. unfold applyWrites. apply fold_left_app. Qed.

(** The storage a loop returns is the storage it started from with the
    writes of its log. *)
Lemma alertLoop_storage days st :
  storage (alertLoop notifSettings station threshold env days st)
  = applyWrites (log (alertLoop notifSettings station threshold env days st)) st.
Proof.
  revert st. induction days as [|day rest IH]; intros st; [reflexivity|].
  cbn [alertLoop].
  destruct (alertDay_outcome day st) as [c|key e m' Hlead Hfind Hkey Hno Hctl Hmsg].
  - destruct c; cbn [completion storage log app]; [apply IH | reflexivity].
  - cbn [completion storage log]. rewrite applyWrites_app. apply IH.
Qed.

(** In the log of a loop, messages and marker writes come in pairs. *)
Lemma alertLoop_write_posted days st key v :
  In (SetItem key v) (log (alertLoop notifSettings station threshold env days st)) ->
  v = "sent"
  /\ exists m,
       In (PostMessage m) (log (alertLoop notifSettings station threshold env days st))
       /\ alertKey station (onDay (body (payload m))) = Some key.
Proof.
  revert st. induction days as [|day rest IH]; intros st Hin; [destruct Hin|].
  cbn [alertLoop] in *.
  destruct (alertDay_outcome day st) as [c|key' e m' Hlead Hfind Hkey Hno Hctl Hmsg].
  - destruct c; cbn [completion storage log app] in *; [apply IH, Hin | destruct Hin].
  - cbn [completion storage log app] in *.
    destruct Hin as [Heq|[Heq|Hin]]; [discriminate Heq| |].
    + injection Heq as <- <-. split; [reflexivity|].
      exists m'. split; [left; reflexivity|].
      rewrite (alertMessage_onDay _ _ _ Hmsg). exact Hkey.
    + destruct (IH _ Hin) as (Hv & m & Hm & Hk). split; [exact Hv|].
      exists m. split; [right; right; exact Hm | exact Hk].
Qed.

Lemma alertLoop_posted_written days st m :
  In (PostMessage m) (log (alertLoop notifSettings station threshold env days st)) ->
  exists key,
    alertKey station (onDay (body (payload m))) = Some key
    /\ In (SetItem key "sent")
          (log (alertLoop notifSettings station threshold env days st)).
Proof.
  revert st. induction days as [|day rest IH]; intros st Hin; [destruct Hin|].
  cbn [alertLoop] in *.
  destruct (alertDay_outcome day st) as [c|key' e m' Hlead Hfind Hkey Hno Hctl Hmsg].
  - destruct c; cbn [completion storage log app] in *; [apply IH, Hin | destruct Hin].
  - cbn [completion storage log app] in *.
    destruct Hin as [Heq|[Heq|Hin]]; [|discriminate Heq|].
    + injection Heq as <-. exists key'.
      rewrite (alertMessage_onDay _ _ _ Hmsg). split; [exact Hkey|].
      right; left; reflexivity.
    + destruct (IH _ Hin) as (key & Hk & Hw).
      exists key. split; [exact Hk | right; right; exact Hw].
Qed.

Lemma alertLoop_no_controller days st :
  controller env = false ->
  log (alertLoop notifSettings station threshold env days st) = []
  /\ storage (alertLoop notifSettings station threshold env days st) = st.
Proof.
  intros Hctl. revert st. induction days as [|day rest IH]; intros st; [auto|].
  cbn [alertLoop].
  destruct (alertDay_outcome day st) as [c|key' e m' Hlead Hfind Hkey Hno Hctl' Hmsg];
    [|congruence].
  destruct c; cbn [completion storage log app]; auto.
Qed.

(** C10: in a run, the marker of a station/day is written exactly when the
    message for that day is posted: every marker write comes with a posted
    message of its key, every posted message with the write of its marker,
    the storage returned is the initial one with the logged writes, and
    without a service worker controller the run posts nothing and leaves the
    storage as it was. *)
Theorem marker_written_iff_posted data st :
  let r := checkUpcomingTidesForAlerts notifSettings station threshold env data st in
  storage r = applyWrites (log r) st
  /\ (forall key v, In (SetItem key v) (log r) ->
        v = "sent"
        /\ exists m, In (PostMessage m) (log r)
                     /\ alertKey station (onDay (body (payload m))) = Some key)
  /\ (forall m, In (PostMessage m) (log r) ->
        exists key, alertKey station (onDay (body (payload m))) = Some key
                    /\ In (SetItem key "sent") (log r))
  /\ (controller env = false -> log r = [] /\ storage r = st).
Proof.
  cbn zeta. unfold checkUpcomingTidesForAlerts.
  destruct (negb (enabled notifSettings) || _).
  - cbn [storage log]. split; [reflexivity|].
    split; [intros key v []|]. split; [intros m []|]. auto.
  - split; [apply alertLoop_storage|].
    split; [apply alertLoop_write_posted|].
    split; [apply alertLoop_posted_written | apply alertLoop_no_controller].
Qed.

(** Markers are never removed by the loop. *)
Lemma alertLoop_keeps_markers days st k :
  noItem st k = false ->
  noItem (storage (alertLoop notifSettings station threshold env days st)) k = false.
Proof.
  revert st. induction days as [|day rest IH]; intros st Hno; [exact Hno|].
  cbn [alertLoop].
  destruct (alertDay_outcome day st) as [c|key' e m' Hlead Hfind Hkey Hno' Hctl Hmsg].
  - destruct c; cbn [completion storage]; [apply IH, Hno | exact Hno].
  - cbn [completion storage]. apply IH, noItem_insert_sent, Hno.
Qed.

Lemma countPosts_app d l1 l2 :
  countPosts d (l1 ++ l2) = (countPosts d l1 + countPosts d l2)%nat.
Proof. unfold countPosts. rewrite List.filter_app, length_app. reflexivity. Qed.

(** For the station of the run, the loop posts at most one message about a
    calendar day: none when the marker is there at the start, and the marker
    is there at the end when it posts one. *)
Lemma alertLoop_count d days st :
  let r := alertLoop notifSettings station threshold env days st in
  (countPosts d (log r) <= 1)%nat
  /\ (marked st (id station) d -> countPosts d (log r) = 0%nat)
  /\ (countPosts d (log r) = 1%nat -> marked (storage r) (id station) d).
Proof.
  cbn zeta. revert st. induction days as [|day rest IH]; intros st.
  - cbn. repeat split; [lia | discriminate].
  - cbn [alertLoop].
    destruct (alertDay_outcome day st) as [c|key e m Hlead Hfind Hkey Hno Hctl Hmsg].
    + destruct c; cbn [completion storage log app]; [apply IH|].
      cbn. repeat split; [lia | discriminate].
    + cbn [completion storage log].
      destruct (IH (<[key := "sent"]> st)) as (IH1 & IH2 & IH3).
      rewrite countPosts_app.
      assert (Hhere : countPosts d [PostMessage m; SetItem key "sent"]
                      = if isSameDay (date day) d then 1%nat else 0%nat).
      { unfold countPosts. cbn [List.filter isPostFor].
        rewrite (alertMessage_onDay _ _ _ Hmsg).
        destruct (isSameDay (date day) d); reflexivity. }
      rewrite Hhere. clear Hhere.
      destruct (isSameDay (date day) d) eqn:Hsame.
      * assert (Hmark : markerOf (id station) d = Some key).
        { unfold markerOf. rewrite <- (alertKey_sameDay _ _ _ Hsame).
          rewrite <- Hkey. apply alertKey_id. reflexivity. }
        assert (Hnow : marked (<[key := "sent"]> st) (id station) d).
        { exists key. split; [exact Hmark | apply noItem_insert_same]. }
        rewrite (IH2 Hnow). split; [lia|]. split.
        -- intros (key' & Hk' & Hno'). congruence.
        -- intros _. destruct Hnow as (k & Hk & Hnok).
           exists k. split; [exact Hk|]. apply alertLoop_keeps_markers, Hnok.
      * cbn [Nat.add]. split; [exact IH1|]. split; [|exact IH3].
        intros (k & Hk & Hnok). apply IH2.
        exists k. split; [exact Hk | apply noItem_insert_sent, Hnok].
Qed.

End AlertProperties.

Lemma runAlerts_keeps_marked r st sid d :
  marked st sid d -> marked (storage (runAlerts r st)) sid d.
Proof.
  intros (k & Hk & Hno). exists k. split; [exact Hk|].
  unfold runAlerts, checkUpcomingTidesForAlerts.
  destruct (negb (enabled (run_settings r)) || _); [exact Hno|].
  apply alertLoop_keeps_markers, Hno.
Qed.

Lemma runAlerts_count r st sid d :
  (postsFor sid d r (log (runAlerts r st)) <= 1)%nat
  /\ (marked st sid d -> postsFor sid d r (log (runAlerts r st)) = 0%nat)
  /\ (postsFor sid d r (log (runAlerts r st)) = 1%nat ->
      marked (storage (runAlerts r st)) sid d).
Proof.
  unfold postsFor. destruct (String.eqb_spec (id (run_station r)) sid) as [<-|Hne].
  - unfold runAlerts, checkUpcomingTidesForAlerts.
    destruct (negb (enabled (run_settings r)) || _).
    + cbn. repeat split; [lia | discriminate].
    + apply alertLoop_count.
  - repeat split; [lia | discriminate].
Qed.

Lemma session_count sid d steps st :
  ((session sid d steps st).2 <= 1)%nat
  /\ (marked st sid d -> (session sid d steps st).2 = 0%nat).
Proof.
  revert st. induction steps as [|[r|f js] rest IH]; intros st.
  - cbn. split; [lia | reflexivity].
  - cbn [session].
    destruct (runAlerts_count r st sid d) as (H1 & H2 & H3).
    pose proof (runAlerts_keeps_marked r st sid d) as Hkeep.
    destruct (IH (storage (runAlerts r st))) as [IH1 IH2].
    destruct (session sid d rest (storage (runAlerts r st))) as [st' n] eqn:E.
    cbn [snd] in *. split.
    + destruct (postsFor sid d r (log (runAlerts r st))) as [|[|k]] eqn:Ep.
      * exact IH1.
      * rewrite IH2 by (apply H3; reflexivity). lia.
      * lia.
    + intros Hm. rewrite (H2 Hm), (IH2 (Hkeep Hm)). reflexivity.
  - cbn [session]. destruct (IH (persist f js st)) as [IH1 IH2].
    split; [exact IH1|]. intros Hm. apply IH2, marked_persist, Hm.
Qed.

(** C4: in a browser session, whatever the runs of the alerts routine and the
    other writes to storage, at most one notification is posted for a station
    id and a calendar day; and once the marker [alert_<stationId>_<yyyyMMdd>]
    of the pair is in storage, no run posts a notification for it. *)
Theorem one_alert_per_station_day sid d steps st :
  ((session sid d steps st).2 <= 1)%nat
  /\ (forall key, markerOf sid d = Some key -> st !! key = Some "sent" ->
      (session sid d steps st).2 = 0%nat).
Proof.
  split; [apply session_count|].
  intros key Hk Hst. apply session_count.
  exists key. split; [exact Hk|]. unfold noItem. rewrite Hst. reflexivity.
Qed.

Lemma alerts_only_for_upcoming_crossings_witness :
  In (PostMessage sampleMessage)
     (log (checkUpcomingTidesForAlerts (mkSettings true 1) sampleStation six sampleEnv
             (processMonth sampleHilo six midJanuary) ∅))
  /\ exists day, In day (processMonth sampleHilo six midJanuary)
       /\ onDay (body (payload sampleMessage)) = date day
       /\ meetsThreshold day = true
       /\ isAfter (date day) (today sampleEnv) = true
       /\ days_le (differenceInDays (date day) (today sampleEnv)) 1 = true.
Proof.
  assert (Hin : In (PostMessage sampleMessage)
     (log (checkUpcomingTidesForAlerts (mkSettings true 1) sampleStation six sampleEnv
             (processMonth sampleHilo six midJanuary) ∅))).
  { vm_compute. left. reflexivity. }
  split; [exact Hin|].
  exact (proj2 (proj2 (alerts_only_for_upcoming_crossings
                         (mkSettings true 1) sampleStation six sampleEnv _ ∅ _ Hin))).
Defined.

Lemma marker_written_iff_posted_witness :
  In (PostMessage sampleMessage) (log (runAlerts sampleRun ∅))
  /\ (exists key, alertKey sampleStation (onDay (body (payload sampleMessage))) = Some key
                  /\ In (SetItem key "sent") (log (runAlerts sampleRun ∅)))
  /\ controller sampleEnvNoWorker = false
  /\ log (checkUpcomingTidesForAlerts (mkSettings true 1) sampleStation six
            sampleEnvNoWorker (processMonth sampleHilo six midJanuary) ∅) = []
  /\ storage (checkUpcomingTidesForAlerts (mkSettings true 1) sampleStation six
                sampleEnvNoWorker (processMonth sampleHilo six midJanuary) ∅) = ∅.
Proof.
  assert (Hin : In (PostMessage sampleMessage) (log (runAlerts sampleRun ∅))).
  { vm_compute. left. reflexivity. }
  split; [exact Hin|]. split.
  - exact (proj1 (proj2 (proj2 (marker_written_iff_posted
             (mkSettings true 1) sampleStation six sampleEnv
             (processMonth sampleHilo six midJanuary) ∅))) sampleMessage Hin).
  - split; [reflexivity|].
    exact (proj2 (proj2 (proj2 (marker_written_iff_posted
             (mkSettings true 1) sampleStation six sampleEnvNoWorker
             (processMonth sampleHilo six midJanuary) ∅))) eq_refl).
Defined.

Lemma one_alert_per_station_day_witness :
  markerOf "9414290" (LocalDate 2024 0 15 0) = Some sampleKey
  /\ (session "9414290" (LocalDate 2024 0 15 0)
              [RunAlerts sampleRun; Persist "[]" "{}"; RunAlerts sampleRun]
              (<[sampleKey := "sent"]> ∅)).2 = 0%nat.
Proof.
  split; [reflexivity|].
  apply (proj2 (one_alert_per_station_day "9414290" (LocalDate 2024 0 15 0)
                  [RunAlerts sampleRun; Persist "[]" "{}"; RunAlerts sampleRun]
                  (<[sampleKey := "sent"]> ∅)) sampleKey).
  - reflexivity.
  - apply lookup_insert_eq.
Defined.

(** The bound is reached: of two identical runs the first posts, the second
    does not. *)
Example session_posts_once :
  (session "9414290" (LocalDate 2024 0 15 0)
           [RunAlerts sampleRun; Persist "[]" "{}"; RunAlerts sampleRun] ∅).2 = 1%nat.
Proof. vm_compute. reflexivity. Qed.

(** Without a service worker nothing is marked, and the next run with one
    still posts. *)
Example no_worker_then_worker :
  (session "9414290" (LocalDate 2024 0 15 0)
           [RunAlerts (mkAlertRun (mkSettings true 1) sampleStation six sampleEnvNoWorker
                                  (processMonth sampleHilo six midJanuary));
            RunAlerts sampleRun] ∅).2 = 1%nat.
Proof. vm_compute. reflexivity. Qed.

(** ** Favorites *)

Lemma In_map_filter {A B} (f : A -> B) (p : A -> bool) (l : list A) (y : B) :
  In y (map f (List.filter p l)) -> In y (map f l).
Proof.
  rewrite !in_map_iff. intros (x & Hx & Hin).
  apply filter_In in Hin. exists x. tauto.
Qed.

Lemma NoDup_map_filter {A B} (f : A -> B) (p : A -> bool) (l : list A) :
  List.NoDup (map f l) -> List.NoDup (map f (List.filter p l)).
Proof.
  induction l as [|x l IH]; simpl; intros Hnd; [exact Hnd|].
  apply List.NoDup_cons_iff in Hnd. destruct Hnd as [Hx Hnd].
  destruct (p x); simpl; [|apply IH, Hnd].
  apply List.NoDup_cons_iff. split; [|apply IH, Hnd].
  intros Hin. apply Hx. eapply In_map_filter. exact Hin.
Qed.

Lemma existsb_id_false (sid : string) (l : list SavedStation) :
  existsb (fun f => String.eqb (id f) sid) l = false -> ~ In sid (map id l).
Proof.
  intros Hex Hin. apply in_map_iff in Hin. destruct Hin as (f & Hf & Hin).
  assert (Ht : existsb (fun f => String.eqb (id f) sid) l = true).
  { apply existsb_exists. exists f. split; [exact Hin|]. apply String.eqb_eq, Hf. }
  congruence.
Qed.

Lemma NoDup_map_snoc {A B} (f : A -> B) (l : list A) (x : A) :
  List.NoDup (map f l) -> ~ In (f x) (map f l) -> List.NoDup (map f (l ++ [x])).
Proof.
  induction l as [|y l IH]; simpl; intros Hnd Hx.
  - constructor; [intros [] | constructor].
  - apply List.NoDup_cons_iff in Hnd. destruct Hnd as [Hy Hnd].
    apply List.NoDup_cons_iff. split.
    + rewrite map_app, in_app_iff. simpl. intros [Hin|[Heq|[]]]; [tauto|].
      apply Hx. left. symmetry. exact Heq.
    + apply IH; [exact Hnd | tauto].
Qed.

(** Each favorites operation keeps the ids distinct. *)
Lemma applyFavOp_unique (op : FavOp) (favs : list SavedStation) :
  List.NoDup (map id favs) -> List.NoDup (map id (applyFavOp op favs)).
Proof.
  intros Hnd. destruct op as [s|f]; cbn [applyFavOp].
  - unfold toggleFavorite.
    destruct (existsb _ favs) eqn:Hex.
    + apply NoDup_map_filter, Hnd.
    + apply NoDup_map_snoc; [exact Hnd | apply existsb_id_false, Hex].
  - apply NoDup_map_filter, Hnd.
Qed.

Lemma runFavOps_unique (ops : list FavOp) (favs : list SavedStation) :
  List.NoDup (map id favs) -> List.NoDup (map id (runFavOps ops favs)).
Proof.
  unfold runFavOps. revert favs.
  induction ops as [|op ops IH]; intros favs Hnd; [exact Hnd|].
  cbn [fold_left]. apply IH, applyFavOp_unique, Hnd.
Qed.

Lemma countId_filter_out (sid : string) (l : list SavedStation) :
  countId sid (List.filter (fun f => negb (String.eqb (id f) sid)) l) = 0%nat.
Proof.
  unfold countId. induction l as [|x l IH]; [reflexivity|].
  cbn [List.filter]. destruct (String.eqb (id x) sid) eqn:E; cbn [negb]; [exact IH|].
  cbn [List.filter]. rewrite E. exact IH.
Qed.

Lemma countId_absent (sid : string) (l : list SavedStation) :
  existsb (fun f => String.eqb (id f) sid) l = false -> countId sid l = 0%nat.
Proof.
  unfold countId. induction l as [|x l IH]; [reflexivity|].
  cbn [existsb List.filter]. intros Hex. apply orb_false_iff in Hex.
  destruct Hex as [-> Hex]. apply IH, Hex.
Qed.

(** C7: from the empty list, any sequence of favorites operations (toggling
    a station, removing a listed favorite) leaves a list in which no two
    entries share an id.  Toggling a station whose id is in the list removes
    every entry with that id and keeps the others in order; toggling a
    station whose id is not in the list appends it, so that its id occurs
    exactly once. *)
Theorem favorites_ids_unique (ops : list FavOp) (station : SavedStation)
    (prev : list SavedStation) :
  List.NoDup (map id (runFavOps ops []))
  /\ (if existsb (fun f => String.eqb (id f) (id station)) prev
      then countId (id station) (toggleFavorite station prev) = 0%nat
           /\ toggleFavorite station prev
              = List.filter (fun f => negb (String.eqb (id f) (id station))) prev
      else toggleFavorite station prev = (prev ++ [station])%list
           /\ countId (id station) (toggleFavorite station prev) = 1%nat).
Proof.
  split; [apply runFavOps_unique; constructor|].
  unfold toggleFavorite.
  destruct (existsb _ prev) eqn:Hex.
  - split; [apply countId_filter_out | reflexivity].
  - split; [reflexivity|].
    unfold countId. rewrite List.filter_app, length_app.
    fold (countId (id station) prev). rewrite (countId_absent _ _ Hex).
    cbn [List.filter]. rewrite String.eqb_refl. reflexivity.
Qed.

Example favorites_session :
  map id (runFavOps [Toggle (mkStation "9414290" "San Francisco, CA");
                     Toggle (mkStation "8518750" "The Battery, NY");
                     Toggle (mkStation "9414290" "San Francisco");
                     Toggle (mkStation "9447130" "Seattle, WA");
                     Remove (mkStation "8518750" "The Battery, NY")] [])
  = ["9447130"].
Proof. reflexivity. Qed.

(** * Further properties of the alerts routine *)

Section MoreAlertProperties.

Variable notifSettings : NotificationSettings.
Variable station : SavedStation.
Variable threshold : number.
Variable env : Env.

Lemma alertLoop_all_skipped days st :
  (forall day, In day days ->
     log (alertDay notifSettings station threshold env day st) = []
     /\ storage (alertDay notifSettings station threshold env day st) = st) ->
  log (alertLoop notifSettings station threshold env days st) = []
  /\ storage (alertLoop notifSettings station threshold env days st) = st.
Proof.
  induction days as [|day rest IH]; intros Hall; [auto|].
  cbn [alertLoop].
  destruct (Hall day (or_introl eq_refl)) as [Hlog Hst].
  destruct (completion (alertDay notifSettings station threshold env day st));
    [|auto].
  cbn [log storage]. rewrite Hlog, Hst.
  apply IH. intros d Hd. apply Hall. right. exact Hd.
Qed.

(** An iteration on a well dated day does not throw. *)
Lemma alertDay_returns day st :
  wellDated day ->
  completion (alertDay notifSettings station threshold env day st) = Returned.
Proof.
  intros [Hdate Htimes]. unfold alertDay.
  destruct (days_le _ _); [|reflexivity].
  destruct (List.find _ (events day)) as [maxEvent|] eqn:Hfind; [|reflexivity].
  apply find_some in Hfind. destruct Hfind as [Hin _].
  unfold alertKey, alertMessage. rewrite Hdate, (Htimes _ Hin).
  destruct (date day) as [|y m d t]; [discriminate Hdate|].
  cbn [format_yyyyMMdd mbind option_bind andb].
  destruct (noItem st _); [|reflexivity].
  destruct (controller env); reflexivity.
Qed.

Lemma alertLoop_returns days st :
  (forall day, In day days -> wellDated day) ->
  completion (alertLoop notifSettings station threshold env days st) = Returned.
Proof.
  revert st. induction days as [|day rest IH]; intros st Hall; [reflexivity|].
  cbn [alertLoop]. rewrite alertDay_returns by (apply Hall; left; reflexivity).
  cbn [completion]. apply IH. intros d Hd. apply Hall. right. exact Hd.
Qed.

(** With a service worker, an iteration that returns on a day due for an
    alert leaves the marker of that day in storage. *)
Lemma alertDay_marks day st :
  controller env = true ->
  dueForAlert notifSettings threshold env day ->
  completion (alertDay notifSettings station threshold env day st) = Returned ->
  exists key, alertKey station (date day) = Some key
    /\ noItem (storage (alertDay notifSettings station threshold env day st)) key = false.
Proof.
  intros Hctl [Hlead [maxEvent Hfind]]. unfold alertDay.
  rewrite Hlead, Hfind, Hctl.
  destruct (alertKey station (date day)) as [key|]; [|discriminate].
  intros Hret. exists key. split; [reflexivity|].
  destruct (noItem st key) eqn:Hno; [|exact Hno].
  destruct (alertMessage station day maxEvent); [|discriminate Hret].
  cbn [storage]. apply noItem_insert_same.
Qed.

Lemma alertLoop_marks days st :
  controller env = true ->
  completion (alertLoop notifSettings station threshold env days st) = Returned ->
  forall day, In day days -> dueForAlert notifSettings threshold env day ->
  exists key, alertKey station (date day) = Some key
    /\ noItem (storage (alertLoop notifSettings station threshold env days st)) key
       = false.
Proof.
  intros Hctl. revert st. induction days as [|d rest IH]; intros st Hret day Hin Hdue;
    [destruct Hin|].
  cbn [alertLoop] in *.
  destruct (completion (alertDay notifSettings station threshold env d st)) eqn:Hc;
    [|rewrite Hc in Hret; discriminate Hret].
  cbn [completion storage] in *.
  destruct Hin as [<-|Hin].
  - destruct (alertDay_marks d st Hctl Hdue Hc) as (key & Hkey & Hno).
    exists key. split; [exact Hkey|].
    apply alertLoop_keeps_markers, Hno.
  - apply IH; assumption.
Qed.

(** When the storage already holds the markers of all the days due, no
    iteration posts or writes. *)
Lemma alertDay_skips_marked day st key :
  alertKey station (date day) = Some key -> noItem st key = false ->
  log (alertDay notifSettings station threshold env day st) = []
  /\ storage (alertDay notifSettings station threshold env day st) = st.
Proof.
  intros Hkey Hno. unfold alertDay.
  destruct (days_le _ _); [|auto].
  destruct (List.find _ (events day)); [|auto].
  rewrite Hkey, Hno. auto.
Qed.

Lemma alertDay_skips_not_due day st :
  ~ dueForAlert notifSettings threshold env day ->
  log (alertDay notifSettings station threshold env day st) = []
  /\ storage (alertDay notifSettings station threshold env day st) = st.
Proof.
  intros Hnot. unfold alertDay.
  destruct (days_le _ _) eqn:Hlead; [|auto].
  destruct (List.find _ (events day)) as [e|] eqn:Hfind; [|auto].
  exfalso. apply Hnot. split; [exact Hlead | exists e; exact Hfind].
Qed.

Lemma dueForAlert_dec day :
  dueForAlert notifSettings threshold env day
  \/ ~ dueForAlert notifSettings threshold env day.
Proof.
  unfold dueForAlert.
  destruct (days_le _ _); [|right; intros [Hd _]; discriminate Hd].
  destruct (List.find _ (events day)) as [e|];
    [left; split; [reflexivity | exists e; reflexivity]|].
  right. intros [_ [e He]]. discriminate He.
Qed.

Lemma alertDay_no_controller day st :
  controller env = false ->
  log (alertDay notifSettings station threshold env day st) = []
  /\ storage (alertDay notifSettings station threshold env day st) = st.
Proof.
  intros Hctl.
  destruct (alertDay_outcome notifSettings station threshold env day st)
    as [c|key e m _ _ _ _ Hctl' _]; [auto | congruence].
Qed.

(** Running the loop again on the storage it returned does nothing. *)
Lemma alertLoop_again days st :
  completion (alertLoop notifSettings station threshold env days st) = Returned ->
  let st1 := storage (alertLoop notifSettings station threshold env days st) in
  log (alertLoop notifSettings station threshold env days st1) = []
  /\ storage (alertLoop notifSettings station threshold env days st1) = st1.
Proof.
  intros Hret. cbn zeta. apply alertLoop_all_skipped. intros day Hin.
  destruct (controller env) eqn:Hctl; [|apply alertDay_no_controller, Hctl].
  destruct (dueForAlert_dec day) as [Hdue|Hnot]; [|apply alertDay_skips_not_due, Hnot].
  destruct (alertLoop_marks days st Hctl Hret day Hin Hdue) as (key & Hkey & Hno).
  eapply alertDay_skips_marked; eassumption.
Qed.

Lemma noItem_insert_other (st : gmap string string) (k k' v : string) :
  k <> k' -> noItem (<[k := v]> st) k' = noItem st k'.
Proof. intros Hne. unfold noItem. rewrite lookup_insert_ne by exact Hne. reflexivity. Qed.

(** A marker that appears during the loop comes with a message of its key. *)
Lemma alertLoop_new_marker days st key :
  noItem st key = true ->
  noItem (storage (alertLoop notifSettings station threshold env days st)) key = false ->
  exists m,
    In (PostMessage m) (log (alertLoop notifSettings station threshold env days st))
    /\ alertKey station (onDay (body (payload m))) = Some key.
Proof.
  revert st. induction days as [|day rest IH]; intros st Hno Hend.
  - cbn in Hend. congruence.
  - cbn [alertLoop] in *.
    destruct (alertDay_outcome notifSettings station threshold env day st)
      as [c|key' e m Hlead Hfind Hkey Hno' Hctl Hmsg].
    + destruct c; cbn [completion storage log app] in *; [auto | congruence].
    + cbn [completion storage log app] in *.
      destruct (decide (key' = key)) as [->|Hne].
      * exists m. split; [left; reflexivity|].
        rewrite (alertMessage_onDay _ _ _ _ Hmsg). exact Hkey.
      * destruct (IH (<[key' := "sent"]> st)) as (m' & Hin & Hk); [|exact Hend|].
        -- rewrite noItem_insert_other by exact Hne. exact Hno.
        -- exists m'. split; [right; right; exact Hin | exact Hk].
Qed.

(** What the loop does to storage: an entry is left as it was, or it was
    missing (or empty) and now holds the marker of one of the days. *)
Lemma alertLoop_frame days st k :
  storage (alertLoop notifSettings station threshold env days st) !! k = st !! k
  \/ (noItem st k = true
      /\ storage (alertLoop notifSettings station threshold env days st) !! k
         = Some "sent"
      /\ exists day, In day days /\ alertKey station (date day) = Some k).
Proof.
  revert st. induction days as [|day rest IH]; intros st; [left; reflexivity|].
  cbn [alertLoop].
  destruct (alertDay_outcome notifSettings station threshold env day st)
    as [c|key e m Hlead Hfind Hkey Hno Hctl Hmsg].
  - destruct c; cbn [completion storage]; [|left; reflexivity].
    destruct (IH st) as [Hsame|(Hno & Hsent & d & Hd & Hk)]; [left; exact Hsame|].
    right. split; [exact Hno|]. split; [exact Hsent|].
    exists d. split; [right; exact Hd | exact Hk].
  - cbn [completion storage].
    destruct (decide (key = k)) as [->|Hne].
    + right. split; [exact Hno|].
      destruct (IH (<[k := "sent"]> st)) as [Hsame|(Hno' & _)].
      * rewrite Hsame, lookup_insert_eq. split; [reflexivity|].
        exists day. split; [left; reflexivity | exact Hkey].
      * rewrite noItem_insert_same in Hno'. discriminate Hno'.
    + destruct (IH (<[key := "sent"]> st)) as [Hsame|(Hno' & Hsent & d & Hd & Hk)].
      * left. rewrite Hsame. apply lookup_insert_ne, Hne.
      * right. rewrite noItem_insert_other in Hno' by exact Hne.
        split; [exact Hno'|]. split; [exact Hsent|].
        exists d. split; [right; exact Hd | exact Hk].
Qed.

End MoreAlertProperties.

Lemma processMonth_wellDated hilo threshold cur d :
  In d (processMonth hilo threshold cur) -> wellDated d.
Proof.
  intros Hin.
  assert (Hdate : In (date d) (monthDays cur)).
  { rewrite <- (processMonth_dates hilo threshold cur). apply in_map, Hin. }
  destruct (In_processMonth _ _ _ _ Hin) as (day & ->).
  cbn [processDay date events] in *. split.
  - destruct cur as [|y m dd t]; [destruct Hdate|].
    unfold monthDays in Hdate. apply in_map_iff in Hdate.
    destruct Hdate as (k & <- & _). reflexivity.
  - intros e He. destruct (In_eventsOfDay _ _ _ He) as (p & _ & Hsame & ->).
    cbn [toEvent time]. destruct (parse (p_t p)); [discriminate Hsame | reflexivity].
Qed.

Lemma checkUpcoming_returns_on_built notifSettings station threshold env
    hilo threshold' cur st :
  completion (checkUpcomingTidesForAlerts notifSettings station threshold env
                (processMonth hilo threshold' cur) st) = Returned.
Proof.
  unfold checkUpcomingTidesForAlerts.
  destruct (negb (enabled notifSettings) || _); [reflexivity|].
  apply alertLoop_returns. intros day Hin. apply filter_In in Hin.
  eapply processMonth_wellDated. apply Hin.
Qed.

Lemma checkUpcoming_again notifSettings station threshold env data st :
  completion (checkUpcomingTidesForAlerts notifSettings station threshold env data st)
  = Returned ->
  let st1 := storage (checkUpcomingTidesForAlerts notifSettings station threshold env
                        data st) in
  log (checkUpcomingTidesForAlerts notifSettings station threshold env data st1) = []
  /\ storage (checkUpcomingTidesForAlerts notifSettings station threshold env data st1)
     = st1.
Proof.
  unfold checkUpcomingTidesForAlerts.
  destruct (negb (enabled notifSettings) || _); [auto|].
  apply alertLoop_again.
Qed.

(** X1: loading the same month again, with the same answer of the service and
    the same clock, posts no notification, writes nothing to storage and
    leaves the state as the first load left it. *)
Theorem reload_posts_nothing fetch env s st hilo :
  fetchResolved fetch s hilo ->
  let '(s1, st1, _) := loadTideData fetch env s st in
  loadTideData fetch env s1 st1 = (s1, st1, []).
Proof.
  intros Hres. unfold loadTideData at 1.
  rewrite (tryLoad_resolved fetch env _ st hilo) by exact Hres.
  cbn [setLoading setError setDailyData currentDate station threshold notifSettings
       favorites dailyData error loading].
  set (data := processMonth hilo (threshold s) (currentDate s)).
  set (r1 := checkUpcomingTidesForAlerts (notifSettings s) (station s) (threshold s)
               env data st).
  unfold loadTideData.
  rewrite (tryLoad_resolved fetch env _ (storage r1) hilo) by exact Hres.
  cbn [setLoading setError setDailyData currentDate station threshold notifSettings
       favorites dailyData error loading].
  fold data.
  destruct (checkUpcoming_again (notifSettings s) (station s) (threshold s) env data st)
    as [Hlog Hst]; [apply checkUpcoming_returns_on_built|].
  fold r1 in Hlog, Hst. rewrite Hlog, Hst. reflexivity.
Qed.

Lemma reload_posts_nothing_witness :
  fetchResolved sampleService sampleState sampleHilo
  /\ (loadTideData sampleService sampleEnv sampleState ∅).2
     = [PostMessage sampleMessage; SetItem sampleKey "sent"]
  /\ let '(s1, st1, _) := loadTideData sampleService sampleEnv sampleState ∅ in
     loadTideData sampleService sampleEnv s1 st1 = (s1, st1, []).
Proof.
  assert (Hres : fetchResolved sampleService sampleState sampleHilo).
  { exists "20240101", "20240131". repeat split; reflexivity. }
  split; [exact Hres|]. split; [vm_compute; reflexivity|].
  exact (reload_posts_nothing sampleService sampleEnv sampleState ∅ sampleHilo Hres).
Defined.

(** X2: on the days built from a fetch the alerts routine runs to its end:
    no [format] call meets an invalid date, whatever the predictions, the
    settings, the clock and the storage. *)
Theorem alerts_complete_on_fetched_data notifSettings station threshold env
    hilo threshold' cur st :
  completion (checkUpcomingTidesForAlerts notifSettings station threshold env
                (processMonth hilo threshold' cur) st) = Returned.
Proof. apply checkUpcoming_returns_on_built. Qed.

Lemma days_le_mono (x : option Z) (n n' : Z) :
  n <= n' -> days_le x n = true -> days_le x n' = true.
Proof.
  destruct x as [k|]; simpl; [|auto].
  intros Hle Hk. apply Z.leb_le in Hk. apply Z.leb_le. lia.
Qed.

(** X3: with notifications enabled, permitted and a service worker in
    control, every fetched day that meets the threshold, lies after today
    within the lead time and has a peak event ends the run with its marker in
    storage; when the marker was not there before, the run posted a message
    under that key. *)
Theorem due_days_get_marked notifSettings station threshold env
    hilo threshold' cur st day :
  enabled notifSettings = true -> permission env = granted ->
  controller env = true ->
  In day (processMonth hilo threshold' cur) ->
  meetsThreshold day = true ->
  isAfter (date day) (today env) = true ->
  dueForAlert notifSettings threshold env day ->
  let r := checkUpcomingTidesForAlerts notifSettings station threshold env
             (processMonth hilo threshold' cur) st in
  exists key,
    alertKey station (date day) = Some key
    /\ noItem (storage r) key = false
    /\ (noItem st key = true ->
        exists m, In (PostMessage m) (log r)
                  /\ alertKey station (onDay (body (payload m))) = Some key).
Proof.
  intros Hen Hperm Hctl Hin Hmeets Hafter Hdue. cbn zeta.
  pose proof (checkUpcoming_returns_on_built notifSettings station threshold env
                hilo threshold' cur st) as Hret.
  unfold checkUpcomingTidesForAlerts in *. rewrite Hen, Hperm in *.
  cbn [negb orb] in *.
  assert (Hup : In day (List.filter (isUpcomingCrossing notifSettings env)
                                    (processMonth hilo threshold' cur))).
  { apply filter_In. split; [exact Hin|].
    unfold isUpcomingCrossing. rewrite Hmeets, Hafter. cbn [andb].
    destruct Hdue as [Hlead _]. eapply days_le_mono; [|exact Hlead]. lia. }
  destruct (alertLoop_marks notifSettings station threshold env _ st Hctl Hret
              day Hup Hdue) as (key & Hkey & Hno).
  exists key. split; [exact Hkey|]. split; [exact Hno|].
  intros Hbefore. eapply alertLoop_new_marker; eassumption.
Qed.

Lemma due_days_get_marked_witness :
  let day := processDay sampleHilo six (LocalDate 2024 0 15 0) in
  let r := checkUpcomingTidesForAlerts (mkSettings true 1) sampleStation six sampleEnv
             (processMonth sampleHilo six midJanuary) ∅ in
  exists key,
    alertKey sampleStation (date day) = Some key
    /\ noItem (storage r) key = false
    /\ (noItem ∅ key = true ->
        exists m, In (PostMessage m) (log r)
                  /\ alertKey sampleStation (onDay (body (payload m))) = Some key).
Proof.
  cbn zeta.
  apply (due_days_get_marked (mkSettings true 1) sampleStation six sampleEnv
           sampleHilo six midJanuary ∅).
  - reflexivity.
  - reflexivity.
  - reflexivity.
  - apply in_map. vm_compute. pick_member.
  - reflexivity.
  - reflexivity.
  - split; [reflexivity|]. eexists. vm_compute. reflexivity.
Defined.

(** X4: a run of the alerts routine changes storage only by putting "sent"
    under the alert key of one of its days, where there was no entry or an
    empty one; every other entry, and the two entries of the persisted
    preferences, are as before. *)
Theorem alerts_storage_frame notifSettings station threshold env data st :
  let r := checkUpcomingTidesForAlerts notifSettings station threshold env data st in
  (forall k,
     storage r !! k = st !! k
     \/ (noItem st k = true /\ storage r !! k = Some "sent"
         /\ exists day, In day data /\ alertKey station (date day) = Some k))
  /\ storage r !! "tidewatch_favorites" = st !! "tidewatch_favorites"
  /\ storage r !! "tidewatch_notif_settings" = st !! "tidewatch_notif_settings".
Proof.
  cbn zeta.
  assert (Hframe : forall k,
     storage (checkUpcomingTidesForAlerts notifSettings station threshold env data st)
       !! k = st !! k
     \/ (noItem st k = true
         /\ storage (checkUpcomingTidesForAlerts notifSettings station threshold env
                       data st) !! k = Some "sent"
         /\ exists day, In day data /\ alertKey station (date day) = Some k)).
  { intros k. unfold checkUpcomingTidesForAlerts.
    destruct (negb (enabled notifSettings) || _); [left; reflexivity|].
    destruct (alertLoop_frame notifSettings station threshold env
                (List.filter (isUpcomingCrossing notifSettings env) data) st k)
      as [Hsame|(Hno & Hsent & d & Hd & Hk)]; [left; exact Hsame|].
    right. split; [exact Hno|]. split; [exact Hsent|].
    exists d. apply filter_In in Hd. split; [apply Hd | exact Hk]. }
  split; [exact Hframe|].
  split.
  - destruct (Hframe "tidewatch_favorites") as [Hsame|(_ & _ & d & _ & Hk)];
      [exact Hsame|].
    apply alertKey_not_persisted in Hk. destruct Hk as [Hk _]. congruence.
  - destruct (Hframe "tidewatch_notif_settings") as [Hsame|(_ & _ & d & _ & Hk)];
      [exact Hsame|].
    apply alertKey_not_persisted in Hk. destruct Hk as [_ Hk]. congruence.
Qed.

(** The day behind a posted message. *)
Lemma posted_message_day notifSettings station threshold env data st m :
  In (PostMessage m)
     (log (checkUpcomingTidesForAlerts notifSettings station threshold env data st)) ->
  exists day, In day data
    /\ onDay (body (payload m)) = date day
    /\ isAfter (date day) (today env) = true
    /\ days_le (differenceInDays (date day) (today env)) (leadDays notifSettings) = true.
Proof.
  unfold checkUpcomingTidesForAlerts.
  destruct (negb (enabled notifSettings) || _); [intros []|].
  intros Hin.
  destruct (alertLoop_posts _ _ _ _ _ _ _ Hin) as (day & Hday & Hon & Hlead).
  apply filter_In in Hday. destruct Hday as [Hday Hup].
  unfold isUpcomingCrossing in Hup.
  apply andb_true_iff in Hup. destruct Hup as [Hup _].
  apply andb_true_iff in Hup. destruct Hup as [_ Hafter].
  exists day. auto.
Qed.

(** The dates of the days of a bucketed month are starts of days of that
    month. *)
Lemma processMonth_date_in_month hilo threshold y m dd t d :
  In d (processMonth hilo threshold (LocalDate y m dd t)) ->
  exists k, date d = LocalDate y m k 0 /\ 1 <= k <= daysInMonth y m.
Proof.
  intros Hin.
  assert (Hdate : In (date d) (monthDays (LocalDate y m dd t))).
  { rewrite <- (processMonth_dates hilo threshold). apply in_map, Hin. }
  unfold monthDays in Hdate. apply in_map_iff in Hdate.
  destruct Hdate as (k & <- & Hk). apply in_seq in Hk.
  exists (Z.of_nat k). split; [reflexivity | lia].
Qed.

Lemma processMonth_date_midnight hilo threshold cur d :
  In d (processMonth hilo threshold cur) ->
  exists y m k, date d = LocalDate y m k 0.
Proof.
  destruct cur as [|y m dd t]; [intros []|].
  intros Hin. destruct (processMonth_date_in_month _ _ _ _ _ _ _ Hin) as (k & Hk & _).
  exists y, m, k. exact Hk.
Qed.

(** X5: no notification is about the current day: for the days built from a
    fetch, the day of a posted message is never the calendar day of the
    clock, whatever the lead time chosen. *)
Theorem never_alerts_for_today notifSettings station threshold env
    hilo threshold' cur st m y mo d t :
  today env = LocalDate y mo d t -> 0 <= t ->
  In (PostMessage m)
     (log (checkUpcomingTidesForAlerts notifSettings station threshold env
             (processMonth hilo threshold' cur) st)) ->
  isSameDay (onDay (body (payload m))) (today env) = false.
Proof.
  intros Htoday Ht Hin.
  destruct (posted_message_day _ _ _ _ _ _ _ Hin) as (day & Hday & -> & Hafter & _).
  destruct (processMonth_date_midnight _ _ _ _ Hday) as (y' & m' & k & Hk).
  rewrite Hk, Htoday in *. cbn [isSameDay isAfter] in *.
  destruct ((y' =? y) && (m' =? mo) && (k =? d)) eqn:Hsame; [|reflexivity].
  apply andb_true_iff in Hsame. destruct Hsame as [Hsame Hd].
  apply andb_true_iff in Hsame. destruct Hsame as [Hy Hm].
  apply Z.eqb_eq in Hy, Hm, Hd. subst.
  unfold compareFields in Hafter. rewrite !Z.compare_refl in Hafter.
  destruct (Z.compare_spec 0 t); try discriminate Hafter. lia.
Qed.

Lemma never_alerts_for_today_witness :
  In (PostMessage sampleMessage)
     (log (checkUpcomingTidesForAlerts (mkSettings true 1) sampleStation six sampleEnv
             (processMonth sampleHilo six midJanuary) ∅))
  /\ isSameDay (onDay (body (payload sampleMessage))) (today sampleEnv) = false.
Proof.
  assert (Hin : In (PostMessage sampleMessage)
     (log (checkUpcomingTidesForAlerts (mkSettings true 1) sampleStation six sampleEnv
             (processMonth sampleHilo six midJanuary) ∅))).
  { vm_compute. left. reflexivity. }
  split; [exact Hin|].
  apply (never_alerts_for_today (mkSettings true 1) sampleStation six sampleEnv
           sampleHilo six midJanuary ∅ sampleMessage 2024 0 14 54000000);
    [reflexivity | lia | exact Hin].
Defined.

Lemma dayNumber_same_month (y m k d : Z) :
  dayNumber y m k - dayNumber y m d = k - d.
Proof. unfold dayNumber. lia. Qed.

(** X6: when the clock is in the visible month, on day [d] of it, the days
    notified are days [k] of that month with [d < k <= d + leadDays + 1];
    the upper bound is [d + leadDays] when the clock is exactly at midnight.
    With the lead time "Same Day" (0) the day notified is tomorrow. *)
Theorem lead_window_in_calendar_days notifSettings station threshold env
    hilo threshold' st m y mo d t dd tt :
  today env = LocalDate y mo d t -> 0 <= t ->
  In (PostMessage m)
     (log (checkUpcomingTidesForAlerts notifSettings station threshold env
             (processMonth hilo threshold' (LocalDate y mo dd tt)) st)) ->
  exists k, onDay (body (payload m)) = LocalDate y mo k 0
    /\ d < k
    /\ k <= d + leadDays notifSettings + (if t =? 0 then 0 else 1).
Proof.
  intros Htoday Ht Hin.
  destruct (posted_message_day _ _ _ _ _ _ _ Hin) as (day & Hday & -> & Hafter & Hlead).
  destruct (processMonth_date_in_month _ _ _ _ _ _ _ Hday) as (k & Hk & _).
  exists k. split; [exact Hk|].
  rewrite Hk, Htoday in *. cbn [isAfter differenceInDays days_le] in *.
  rewrite dayNumber_same_month in Hlead.
  unfold compareFields in *. rewrite !Z.compare_refl in *.
  apply Z.leb_le in Hlead.
  destruct (Z.compare_spec k d) as [E|E|E].
  - subst. destruct (Z.compare_spec 0 t); try discriminate Hafter. lia.
  - discriminate Hafter.
  - split; [lia|].
    destruct (Z.compare_spec 0 t) as [E0|E0|E0]; [| |lia].
    + subst t. change (0 =? - (1)) with false in Hlead.
      cbv beta iota in Hlead. cbn. lia.
    + destruct (Z.eqb_spec t 0) as [->|_]; [lia|].
      change (-1 =? - (1)) with true in Hlead.
      cbv beta iota in Hlead. lia.
Qed.

Lemma lead_window_in_calendar_days_witness :
  In (PostMessage sampleMessage)
     (log (checkUpcomingTidesForAlerts (mkSettings true 0) sampleStation six sampleEnv
             (processMonth sampleHilo six midJanuary) ∅))
  /\ exists k, onDay (body (payload sampleMessage)) = LocalDate 2024 0 k 0
       /\ 14 < k /\ k <= 14 + 0 + 1.
Proof.
  assert (Hin : In (PostMessage sampleMessage)
     (log (checkUpcomingTidesForAlerts (mkSettings true 0) sampleStation six sampleEnv
             (processMonth sampleHilo six midJanuary) ∅))).
  { vm_compute. left. reflexivity. }
  split; [exact Hin|].
  apply (lead_window_in_calendar_days (mkSettings true 0) sampleStation six sampleEnv
           sampleHilo six ∅ sampleMessage 2024 0 14 54000000 10 43200000);
    [reflexivity | lia | exact Hin].
Defined.

(** ** Alert keys tell station/day pairs apart *)

Lemma string_app_length (a b : string) :
  String.length (a ++ b) = (String.length a + String.length b)%nat.
Proof. induction a as [|c a IH]; simpl; [reflexivity | rewrite IH; reflexivity]. Qed.

Lemma string_app_inj_length (a b c d : string) :
  String.length a = String.length c -> a ++ b = c ++ d -> a = c /\ b = d.
Proof.
  revert c. induction a as [|x a IH]; intros [|y c]; simpl; try discriminate.
  - auto.
  - intros Hlen Heq. injection Hlen as Hlen. injection Heq as -> Heq.
    destruct (IH c Hlen Heq) as [-> ->]. auto.
Qed.

Lemma padReadsBack_table4 :
  forallb (fun k => padReadsBack 4 (Z.of_nat k)) (seq 0 (Z.to_nat 10000)) = true.
Proof. vm_compute. reflexivity. Qed.

Lemma padReadsBack_table2 :
  forallb (fun k => padReadsBack 2 (Z.of_nat k)) (seq 0 100) = true.
Proof. vm_compute. reflexivity. Qed.

Lemma pad4_spec (n : Z) :
  0 <= n <= 9999 ->
  String.length (addLeadingZeros n 4) = 4%nat
  /\ fst (read_upto 4 0 (addLeadingZeros n 4)) = n.
Proof.
  intros Hn. pose proof padReadsBack_table4 as Htab.
  rewrite forallb_forall in Htab. specialize (Htab (Z.to_nat n)).
  rewrite Z2Nat.id in Htab by lia.
  assert (Hin : In (Z.to_nat n) (seq 0 (Z.to_nat 10000))) by (apply in_seq; lia).
  apply Htab in Hin. unfold padReadsBack in Hin.
  apply andb_true_iff in Hin. destruct Hin as [Hlen Hval].
  split; [apply Nat.eqb_eq, Hlen | apply Z.eqb_eq, Hval].
Qed.

Lemma pad2_spec (n : Z) :
  0 <= n <= 99 ->
  String.length (addLeadingZeros n 2) = 2%nat
  /\ fst (read_upto 2 0 (addLeadingZeros n 2)) = n.
Proof.
  intros Hn. pose proof padReadsBack_table2 as Htab.
  rewrite forallb_forall in Htab. specialize (Htab (Z.to_nat n)).
  rewrite Z2Nat.id in Htab by lia.
  assert (Hin : In (Z.to_nat n) (seq 0 100)) by (apply in_seq; lia).
  apply Htab in Hin. unfold padReadsBack in Hin.
  apply andb_true_iff in Hin. destruct Hin as [Hlen Hval].
  split; [apply Nat.eqb_eq, Hlen | apply Z.eqb_eq, Hval].
Qed.

Lemma format_yyyyMMdd_length (d : Date) (k : string) :
  plainDay d -> format_yyyyMMdd d = Some k -> String.length k = 8%nat.
Proof.
  destruct d as [|y m dd t]; [intros []|].
  intros (Hy & Hm & Hd) [= <-].
  destruct (Z.ltb_spec 0 y) as [_|Hy']; [|lia].
  rewrite !string_app_length.
  destruct (pad4_spec y) as [-> _]; [lia|].
  destruct (pad2_spec (m + 1)) as [-> _]; [lia|].
  destruct (pad2_spec dd) as [-> _]; [lia|]. reflexivity.
Qed.

Lemma format_yyyyMMdd_inj (a b : Date) (k : string) :
  plainDay a -> plainDay b ->
  format_yyyyMMdd a = Some k -> format_yyyyMMdd b = Some k ->
  isSameDay a b = true.
Proof.
  destruct a as [|y1 m1 d1 t1]; [intros []|].
  destruct b as [|y2 m2 d2 t2]; [intros _ []|].
  intros (Hy1 & Hm1 & Hd1) (Hy2 & Hm2 & Hd2) [= <-] [= Heq].
  destruct (Z.ltb_spec 0 y1) as [_|?]; [|lia].
  destruct (Z.ltb_spec 0 y2) as [_|?]; [|lia].
  destruct (pad4_spec y1) as [Hl1 Hv1]; [lia|].
  destruct (pad4_spec y2) as [Hl2 Hv2]; [lia|].
  destruct (pad2_spec (m1 + 1)) as [Hlm1 Hvm1]; [lia|].
  destruct (pad2_spec (m2 + 1)) as [Hlm2 Hvm2]; [lia|].
  destruct (pad2_spec d1) as [_ Hvd1]; [lia|].
  destruct (pad2_spec d2) as [_ Hvd2]; [lia|].
  apply string_app_inj_length in Heq; [|congruence].
  destruct Heq as [Ey Heq].
  apply string_app_inj_length in Heq; [|congruence].
  destruct Heq as [Em Ed].
  rewrite Ey in Hv2. rewrite Em in Hvm2. rewrite Ed in Hvd2.
  cbn [isSameDay].
  replace y2 with y1 by congruence.
  replace m2 with m1 by lia.
  replace d2 with d1 by congruence.
  rewrite !Z.eqb_refl. reflexivity.
Qed.

(** X7: the alert key determines the station id and the calendar day: two
    keys built for valid days with four-digit years are equal only when the
    station ids are equal and the days are the same, so the marker of one
    station and day never hides the alert of another. *)
Theorem alertKey_injective (s1 s2 : SavedStation) (d1 d2 : Date) (key : string) :
  plainDay d1 -> plainDay d2 ->
  alertKey s1 d1 = Some key -> alertKey s2 d2 = Some key ->
  id s1 = id s2 /\ isSameDay d1 d2 = true.
Proof.
  intros Hp1 Hp2. unfold alertKey.
  destruct (format_yyyyMMdd d1) as [k1|] eqn:E1; [|discriminate].
  destruct (format_yyyyMMdd d2) as [k2|] eqn:E2; [|discriminate].
  cbn [mbind option_bind]. intros [= <-] [= Heq].
  change ("" ++ id s2 ++ "_" ++ k2 = "" ++ id s1 ++ "_" ++ k1)
    with (id s2 ++ "_" ++ k2 = id s1 ++ "_" ++ k1) in Heq.
  pose proof (format_yyyyMMdd_length _ _ Hp1 E1) as Hl1.
  pose proof (format_yyyyMMdd_length _ _ Hp2 E2) as Hl2.
  assert (Hlen : String.length (id s2) = String.length (id s1)).
  { apply (f_equal String.length) in Heq.
    rewrite !string_app_length in Heq. cbn [String.length] in Heq.
    rewrite Hl1, Hl2 in Heq. lia. }
  apply string_app_inj_length in Heq; [|exact Hlen].
  destruct Heq as [Hid Hk]. apply (inj (String.app "_")) in Hk. subst k2.
  split; [congruence|].
  eapply format_yyyyMMdd_inj; eassumption.
Qed.

Lemma alertKey_injective_witness :
  alertKey sampleStation (LocalDate 2024 0 15 0) = Some sampleKey
  /\ alertKey (mkStation "9414290" "SF") (LocalDate 2024 0 15 57060000) = Some sampleKey
  /\ id sampleStation = "9414290"
  /\ isSameDay (LocalDate 2024 0 15 0) (LocalDate 2024 0 15 57060000) = true.
Proof.
  split; [reflexivity|]. split; [reflexivity|].
  apply (alertKey_injective sampleStation (mkStation "9414290" "SF")
           (LocalDate 2024 0 15 0) (LocalDate 2024 0 15 57060000) sampleKey);
    [cbn; lia | cbn; lia | reflexivity | reflexivity].
Defined.

(** Outside four-digit years the keys do collide: [yyyy] prints year 0 as
    year 1. *)
Example alertKey_year_zero :
  alertKey sampleStation (LocalDate 0 0 15 0) = alertKey sampleStation (LocalDate 1 0 15 0).
Proof. reflexivity. Qed.

(** * Further properties of the bucketing and of the list view *)

Lemma count_day_seq (dd : Z) (a n : nat) :
  length (List.filter (fun k => dd =? Z.of_nat k) (seq a n))
  = if (Z.of_nat a <=? dd) && (dd <? Z.of_nat a + Z.of_nat n) then 1%nat else 0%nat.
Proof.
  revert a. induction n as [|n IH]; intros a.
  - cbn [seq List.filter length].
    destruct (Z.leb_spec (Z.of_nat a) dd), (Z.ltb_spec dd (Z.of_nat a + Z.of_nat 0));
      try reflexivity; lia.
  - cbn [seq List.filter].
    destruct (Z.eqb_spec dd (Z.of_nat a)) as [Heq|Hne]; cbn [length]; rewrite IH.
    + destruct (Z.leb_spec (Z.of_nat (S a)) dd),
               (Z.leb_spec (Z.of_nat a) dd),
               (Z.ltb_spec dd (Z.of_nat a + Z.of_nat (S n)));
        cbn [andb]; try reflexivity; lia.
    + destruct (Z.leb_spec (Z.of_nat (S a)) dd),
               (Z.leb_spec (Z.of_nat a) dd),
               (Z.ltb_spec dd (Z.of_nat (S a) + Z.of_nat n)),
               (Z.ltb_spec dd (Z.of_nat a + Z.of_nat (S n)));
        cbn [andb]; try reflexivity; lia.
Qed.

(** A date falls on exactly one day of the list of a month when it is in
    that month, and on none otherwise. *)
Lemma count_sameDay_monthDays (cur t : Date) :
  length (List.filter (fun day => isSameDay t day) (monthDays cur))
  = if inVisibleMonth cur t then 1%nat else 0%nat.
Proof.
  destruct cur as [|y m dd tt]; [destruct t; reflexivity|].
  destruct t as [|y' m' d' t'].
  - cbn [inVisibleMonth monthDays].
    induction (seq 1 (Z.to_nat (daysInMonth y m))) as [|k l IH]; [reflexivity | exact IH].
  - cbn [inVisibleMonth monthDays].
    pose proof (daysInMonth_pos y m) as Hdim.
    destruct ((y' =? y) && (m' =? m)) eqn:E; cbn [andb].
    + transitivity (length (List.filter (fun k => d' =? Z.of_nat k)
                                        (seq 1 (Z.to_nat (daysInMonth y m))))).
      * generalize (seq 1 (Z.to_nat (daysInMonth y m))) as l.
        induction l as [|k l IH]; [reflexivity|].
        cbn [map List.filter isSameDay]. rewrite E. cbn [andb].
        destruct (d' =? Z.of_nat k); [cbn [length]; f_equal; exact IH | exact IH].
      * rewrite count_day_seq.
        destruct (Z.leb_spec (Z.of_nat 1) d'), (Z.leb_spec 1 d'),
                 (Z.ltb_spec d' (Z.of_nat 1 + Z.of_nat (Z.to_nat (daysInMonth y m)))),
                 (Z.leb_spec d' (daysInMonth y m));
          cbn [andb]; try reflexivity; lia.
    + generalize (seq 1 (Z.to_nat (daysInMonth y m))) as l.
      induction l as [|k l IH]; [reflexivity|].
      cbn [map List.filter isSameDay]. rewrite E. cbn [andb]. exact IH.
Qed.

Lemma flat_map_app_Permutation {A B} (f g : A -> list B) (l : list A) :
  Permutation (flat_map (fun x => f x ++ g x)%list l) (flat_map f l ++ flat_map g l).
Proof.
  induction l as [|a l IH]; [reflexivity|].
  cbn [flat_map]. rewrite <- !app_assoc. apply Permutation_app_head.
  rewrite IH. apply Permutation_app_swap_app.
Qed.

Lemma flat_map_singleton_if {A B} (p : A -> bool) (x : B) (l : list A) :
  flat_map (fun a => if p a then [x] else []) l
  = repeat x (length (List.filter p l)).
Proof.
  induction l as [|a l IH]; [reflexivity|].
  cbn [flat_map List.filter]. destruct (p a); cbn [length repeat app]; rewrite IH;
    reflexivity.
Qed.

Lemma flat_map_map_compose {A B C} (g : A -> B) (f : B -> list C) (l : list A) :
  flat_map f (map g l) = flat_map (fun a => f (g a)) l.
Proof.
  induction l as [|a l IH]; [reflexivity|].
  cbn [map flat_map]. rewrite IH. reflexivity.
Qed.

(** The events of all the days of a list of days, for the predictions
    [hilo]. *)
Lemma bucketing_Permutation (hilo : list TidePrediction) (cur : Date) :
  Permutation
    (flat_map (eventsOfDay hilo) (monthDays cur))
    (map toEvent (List.filter (fun p => inVisibleMonth cur (parse (p_t p))) hilo)).
Proof.
  induction hilo as [|p rest IH].
  - cbn [List.filter map]. unfold eventsOfDay. cbn [List.filter map].
    induction (monthDays cur) as [|d l IHl]; [reflexivity | exact IHl].
  - transitivity
      (flat_map (fun day => if isSameDay (parse (p_t p)) day then [toEvent p] else [])
                (monthDays cur)
       ++ flat_map (eventsOfDay rest) (monthDays cur))%list.
    + rewrite <- flat_map_app_Permutation.
      apply Permutation_refl'. apply flat_map_ext. intros day.
      unfold eventsOfDay. cbn [List.filter].
      destruct (isSameDay (parse (p_t p)) day); reflexivity.
    + rewrite flat_map_singleton_if, count_sameDay_monthDays.
      cbn [List.filter].
      destruct (inVisibleMonth cur (parse (p_t p))); cbn [repeat app map].
      * apply perm_skip, IH.
      * exact IH.
Qed.

(** X8: bucketing loses and duplicates nothing: the events of all the days
    of [dailyData] after a fetch are, up to order, the fetched predictions
    whose parsed time is on a day of the visible month, each once; the
    predictions of other months, or whose time does not parse, are in no
    day. *)
Theorem bucketing_partitions_predictions fetch env s st hilo :
  fetchResolved fetch s hilo ->
  Permutation
    (flat_map events (dailyData (stateAfterLoad fetch env s st)))
    (map toEvent
         (List.filter (fun p => inVisibleMonth (currentDate s) (parse (p_t p))) hilo)).
Proof.
  intros Hres.
  destruct (stateAfterLoad_resolved fetch env s st hilo Hres) as (-> & _).
  unfold processMonth. rewrite eachDayOfInterval_month, flat_map_map_compose.
  cbn [processDay events]. apply bucketing_Permutation.
Qed.

Lemma bucketing_partitions_predictions_witness :
  fetchResolved sampleService sampleState sampleHilo
  /\ Permutation
       (flat_map events (dailyData (stateAfterLoad sampleService sampleEnv sampleState ∅)))
       (map toEvent
            (List.filter (fun p => inVisibleMonth midJanuary (parse (p_t p))) sampleHilo))
  /\ length (flat_map events
               (dailyData (stateAfterLoad sampleService sampleEnv sampleState ∅)))
     = 6%nat.
Proof.
  assert (Hres : fetchResolved sampleService sampleState sampleHilo).
  { exists "20240101", "20240131". repeat split; reflexivity. }
  split; [exact Hres|]. split; [|reflexivity].
  exact (bucketing_partitions_predictions sampleService sampleEnv sampleState ∅
           sampleHilo Hres).
Defined.





Lemma sublist_flat_map_filter {A B} (f : A -> list B) (p : A -> bool) (l : list A) :
  sublist (flat_map f (List.filter p l)) (flat_map f l).
Proof.
  induction l as [|a l IH]; [constructor|].
  cbn [flat_map List.filter]. destruct (p a); cbn [flat_map].
  - apply sublist_app; [reflexivity | exact IH].
  - apply sublist_inserts_l, IH.
Qed.

(** X10: whatever [dailyData] and threshold (also for data built with
    another threshold), the list view is an order-preserving sub-list of the
    ['H'] events at or above the threshold, and each event it shows is of
    type ['H'], at or above the threshold, and belongs to a flagged day. *)
Theorem thresholdEvents_sound (dailyData : list DailyTideData) (threshold : number) :
  sublist (thresholdEvents dailyData threshold) (allQualifying dailyData threshold)
  /\ forall e, In e (thresholdEvents dailyData threshold) ->
       isHigh e = true /\ num_ge (height e) threshold = true
       /\ height e <> NaN
       /\ exists d, In d dailyData /\ meetsThreshold d = true /\ In e (events d).
Proof.
  split.
  - unfold thresholdEvents, allQualifying. rewrite filter_flat_map.
    apply sublist_flat_map_filter.
  - intros e He. unfold thresholdEvents in He. apply in_flat_map in He.
    destruct He as (d & Hd & He). apply filter_In in Hd, He.
    destruct Hd as [Hd Hmeets]. destruct He as [He Hq].
    unfold qualifies in Hq. apply andb_true_iff in Hq. destruct Hq as [Hh Hge].
    split; [exact Hh|]. split; [exact Hge|]. split.
    + intros E. rewrite E in Hge. unfold num_ge in Hge.
      rewrite num_le_NaN_r in Hge. discriminate Hge.
    + exists d. auto.
Qed.

Lemma thresholdEvents_sound_witness :
  let data := processMonth sampleHilo six midJanuary in
  In (toEvent (mkPrediction "2024-01-15 15:51" "6.4" (Some H))) (thresholdEvents data six)
  /\ isHigh (toEvent (mkPrediction "2024-01-15 15:51" "6.4" (Some H))) = true.
Proof.
  cbn zeta.
  assert (Hin : In (toEvent (mkPrediction "2024-01-15 15:51" "6.4" (Some H)))
                   (thresholdEvents (processMonth sampleHilo six midJanuary) six)).
  { vm_compute. left. reflexivity. }
  split; [exact Hin|].
  exact (proj1 (proj2 (thresholdEvents_sound (processMonth sampleHilo six midJanuary) six)
                  _ Hin)).
Defined.

(** X11: when the threshold field is emptied, [parseFloat] gives [NaN]; a
    fetch with that threshold flags no day, the list view is empty, and the
    alerts routine posts nothing and leaves storage alone. *)
Theorem empty_threshold_flags_nothing fetch env s st hilo :
  fetchResolved fetch s hilo ->
  let '(s', st', effects) := loadTideData fetch env (onThresholdChange "" s) st in
  threshold s' = NaN
  /\ (forall d, In d (dailyData s') -> meetsThreshold d = false)
  /\ thresholdEvents (dailyData s') (threshold s') = []
  /\ effects = [] /\ st' = st.
Proof.
  intros Hres. unfold loadTideData.
  rewrite (tryLoad_resolved fetch env _ st hilo) by exact Hres.
  cbn [setLoading setError setDailyData onThresholdChange currentDate station threshold
       notifSettings favorites dailyData error loading].
  change (parseFloat "") with NaN.
  assert (Hnone : forall d, In d (processMonth hilo NaN (currentDate s)) ->
                            meetsThreshold d = false).
  { intros d Hin. destruct (In_processMonth _ _ _ _ Hin) as (day & ->).
    unfold processDay. cbn [meetsThreshold]. unfold num_ge. reflexivity. }
  assert (Hfilter : List.filter meetsThreshold (processMonth hilo NaN (currentDate s))
                    = []).
  { apply filter_nil_iff. exact Hnone. }
  split; [reflexivity|]. split; [exact Hnone|].
  split; [unfold thresholdEvents; rewrite Hfilter; reflexivity|].
  unfold checkUpcomingTidesForAlerts.
  destruct (negb (enabled (notifSettings s)) || _); [auto|].
  assert (Hup : List.filter (isUpcomingCrossing (notifSettings s) env)
                            (processMonth hilo NaN (currentDate s)) = []).
  { apply filter_nil_iff. intros d Hin. unfold isUpcomingCrossing.
    rewrite (Hnone d Hin). reflexivity. }
  rewrite Hup. auto.
Qed.

Lemma empty_threshold_flags_nothing_witness :
  fetchResolved sampleService sampleState sampleHilo
  /\ let '(s', st', effects) :=
       loadTideData sampleService sampleEnv (onThresholdChange "" sampleState) ∅ in
     threshold s' = NaN
     /\ (forall d, In d (dailyData s') -> meetsThreshold d = false)
     /\ thresholdEvents (dailyData s') (threshold s') = []
     /\ effects = [] /\ st' = ∅.
Proof.
  assert (Hres : fetchResolved sampleService sampleState sampleHilo).
  { exists "20240101", "20240131". repeat split; reflexivity. }
  split; [exact Hres|].
  exact (empty_threshold_flags_nothing sampleService sampleEnv sampleState ∅
           sampleHilo Hres).
Defined.

(** * Further properties of the favorites *)

Lemma existsb_id_filter_out (sid sid' : string) (l : list SavedStation) :
  existsb (fun f => String.eqb (id f) sid')
          (List.filter (fun f => negb (String.eqb (id f) sid)) l)
  = negb (String.eqb sid sid') && existsb (fun f => String.eqb (id f) sid') l.
Proof.
  induction l as [|a l IH].
  - cbn. rewrite andb_false_r. reflexivity.
  - cbn [List.filter existsb].
    destruct (String.eqb_spec (id a) sid) as [Ea|Ea]; cbn [negb].
    + rewrite IH. subst sid.
      destruct (String.eqb_spec (id a) sid'); cbn [negb andb orb]; reflexivity.
    + cbn [existsb]. rewrite IH.
      destruct (String.eqb_spec sid sid') as [<-|Hne]; cbn [negb andb].
      * destruct (String.eqb_spec (id a) sid); [contradiction | reflexivity].
      * reflexivity.
Qed.

Lemma filter_out_absent (sid : string) (l : list SavedStation) :
  existsb (fun f => String.eqb (id f) sid) l = false ->
  List.filter (fun f => negb (String.eqb (id f) sid)) l = l.
Proof.
  induction l as [|a l IH]; [reflexivity|].
  cbn [existsb List.filter]. intros Hex. apply orb_false_iff in Hex.
  destruct Hex as [-> Hex]. cbn [negb]. rewrite IH by exact Hex. reflexivity.
Qed.

Lemma toggleFavorite_star (station other : SavedStation) (prev : list SavedStation) :
  isCurrentFavorite other (toggleFavorite station prev)
  = if String.eqb (id station) (id other)
    then negb (isCurrentFavorite other prev)
    else isCurrentFavorite other prev.
Proof.
  unfold isCurrentFavorite, toggleFavorite.
  destruct (String.eqb_spec (id station) (id other)) as [E|Hne].
  - rewrite <- E.
    destruct (existsb (fun f => String.eqb (id f) (id station)) prev) eqn:Hex.
    + rewrite existsb_id_filter_out, String.eqb_refl. reflexivity.
    + rewrite existsb_app. cbn [existsb]. rewrite Hex, String.eqb_refl. reflexivity.
  - destruct (existsb (fun f => String.eqb (id f) (id station)) prev) eqn:Hex.
    + rewrite existsb_id_filter_out.
      destruct (String.eqb_spec (id station) (id other)); [contradiction | reflexivity].
    + rewrite existsb_app. cbn [existsb].
      destruct (String.eqb_spec (id station) (id other)); [contradiction|].
      rewrite !orb_false_r. reflexivity.
Qed.

(** X12: toggling the current station flips the star, the test
    [favorites.some(f => f.id === station.id)], and changes it for no other
    station id. *)
Theorem toggleFavorite_flips_star (station other : SavedStation)
    (prev : list SavedStation) :
  isCurrentFavorite station (toggleFavorite station prev)
  = negb (isCurrentFavorite station prev)
  /\ (id other <> id station ->
      isCurrentFavorite other (toggleFavorite station prev)
      = isCurrentFavorite other prev).
Proof.
  split.
  - rewrite toggleFavorite_star, String.eqb_refl. reflexivity.
  - intros Hne. rewrite toggleFavorite_star.
    destruct (String.eqb_spec (id station) (id other)); [congruence | reflexivity].
Qed.

Lemma toggleFavorite_flips_star_witness :
  isCurrentFavorite sampleStation (toggleFavorite sampleStation []) = true
  /\ isCurrentFavorite (mkStation "8518750" "The Battery, NY")
                       (toggleFavorite sampleStation [mkStation "8518750" "The Battery, NY"])
     = true.
Proof.
  split.
  - exact (proj1 (toggleFavorite_flips_star sampleStation sampleStation [])).
  - apply (proj2 (toggleFavorite_flips_star sampleStation
                    (mkStation "8518750" "The Battery, NY")
                    [mkStation "8518750" "The Battery, NY"])).
    cbn. discriminate.
Defined.

(** X13: toggling the same station twice gives the list back when the
    station was not a favorite; when it was, the entries with its id are gone
    and the current station object stands at the end of the list. *)
Theorem toggleFavorite_twice (station : SavedStation) (prev : list SavedStation) :
  toggleFavorite station (toggleFavorite station prev)
  = if isCurrentFavorite station prev
    then (removeFavorite station prev ++ [station])%list
    else prev.
Proof.
  pose proof (toggleFavorite_star station station prev) as Hflip.
  rewrite String.eqb_refl in Hflip. unfold isCurrentFavorite in *.
  unfold toggleFavorite at 1. rewrite Hflip.
  destruct (existsb (fun f => String.eqb (id f) (id station)) prev) eqn:Hex;
    cbn [negb].
  - unfold toggleFavorite. rewrite Hex. reflexivity.
  - unfold toggleFavorite. rewrite Hex.
    rewrite List.filter_app. cbn [List.filter]. rewrite String.eqb_refl. cbn [negb].
    rewrite app_nil_r. apply filter_out_absent, Hex.
Qed.

Lemma filter_split_length {A} (p : A -> bool) (l : list A) :
  (length (List.filter p l) + length (List.filter (fun x => negb (p x)) l))%nat
  = length l.
Proof.
  induction l as [|a l IH]; [reflexivity|].
  cbn [List.filter]. destruct (p a); cbn [negb length]; lia.
Qed.

Lemma countId_notin (sid : string) (l : list SavedStation) :
  ~ In sid (map id l) -> countId sid l = 0%nat.
Proof.
  intros Hnot. apply countId_absent.
  destruct (existsb (fun f => String.eqb (id f) sid) l) eqn:Hex; [|reflexivity].
  apply existsb_exists in Hex. destruct Hex as (f & Hf & Heq).
  apply String.eqb_eq in Heq. exfalso. apply Hnot. rewrite <- Heq. apply in_map, Hf.
Qed.

Lemma countId_listed (fav : SavedStation) (l : list SavedStation) :
  List.NoDup (map id l) -> In fav l -> countId (id fav) l = 1%nat.
Proof.
  induction l as [|a l IH]; [intros _ []|].
  cbn [map]. intros Hnd Hin. apply List.NoDup_cons_iff in Hnd.
  destruct Hnd as [Ha Hnd]. unfold countId in *. cbn [List.filter].
  destruct (String.eqb_spec (id a) (id fav)) as [E|Hne].
  - cbn [length]. f_equal. rewrite E in Ha. apply (countId_notin _ _ Ha).
  - destruct Hin as [->|Hin]; [congruence|]. apply IH; assumption.
Qed.

(** X14: with distinct ids, removing a listed favorite shortens the list by
    exactly one entry; its id is no longer a favorite, the entries with other
    ids are all kept, and removing it again changes nothing. *)
Theorem removeFavorite_listed (fav : SavedStation) (prev : list SavedStation) :
  List.NoDup (map id prev) -> In fav prev ->
  (length (removeFavorite fav prev) + 1)%nat = length prev
  /\ isCurrentFavorite fav (removeFavorite fav prev) = false
  /\ (forall f, id f <> id fav -> In f (removeFavorite fav prev) <-> In f prev)
  /\ removeFavorite fav (removeFavorite fav prev) = removeFavorite fav prev.
Proof.
  intros Hnd Hin. unfold removeFavorite, isCurrentFavorite.
  assert (Hgone : existsb (fun f => String.eqb (id f) (id fav))
                    (List.filter (fun f => negb (String.eqb (id f) (id fav))) prev)
                  = false).
  { rewrite existsb_id_filter_out, String.eqb_refl. reflexivity. }
  split.
  - pose proof (filter_split_length (fun f => String.eqb (id f) (id fav)) prev) as Hlen.
    pose proof (countId_listed fav prev Hnd Hin) as Hone.
    unfold countId in Hone. lia.
  - split; [exact Hgone|]. split.
    + intros f Hne. rewrite filter_In. split; [tauto|].
      intros Hf. split; [exact Hf|].
      destruct (String.eqb_spec (id f) (id fav)); [contradiction | reflexivity].
    + apply filter_out_absent, Hgone.
Qed.

Lemma removeFavorite_listed_witness :
  let battery := mkStation "8518750" "The Battery, NY" in
  (length (removeFavorite sampleStation [battery; sampleStation]) + 1)%nat = 2%nat
  /\ isCurrentFavorite sampleStation (removeFavorite sampleStation [battery; sampleStation])
     = false
  /\ removeFavorite sampleStation [battery; sampleStation] = [battery].
Proof.
  cbn zeta.
  destruct (removeFavorite_listed sampleStation
              [mkStation "8518750" "The Battery, NY"; sampleStation])
    as (Hlen & Hgone & _ & _).
  - cbn. repeat constructor; cbn; intuition discriminate.
  - right. left. reflexivity.
  - split; [exact Hlen|]. split; [exact Hgone | reflexivity].
Defined.

(** * Month navigation *)

Lemma addMonths_next (y m dd t : Z) :
  0 <= m <= 11 ->
  addMonths (LocalDate y m dd t) 1
  = let y' := if m =? 11 then y + 1 else y in
    let m' := if m =? 11 then 0 else m + 1 in
    LocalDate y' m' (Z.min dd (daysInMonth y' m')) t.
Proof.
  intros Hm. unfold addMonths. cbn [Z.eqb]. cbn zeta.
  assert (Hq : (m + 1) / 12 = if m =? 11 then 1 else 0).
  { destruct (Z.eqb_spec m 11) as [->|Hne]; [reflexivity|].
    apply Z.div_small. lia. }
  assert (Hr : (m + 1) mod 12 = if m =? 11 then 0 else m + 1).
  { destruct (Z.eqb_spec m 11) as [->|Hne]; [reflexivity|].
    apply Z.mod_small. lia. }
  rewrite Hq, Hr.
  destruct (Z.eqb_spec m 11) as [->|Hne].
  - destruct (Z.leb_spec (daysInMonth (y + 1) 0) dd); f_equal; lia.
  - replace (y + 0) with y by lia.
    destruct (Z.leb_spec (daysInMonth y (m + 1)) dd); f_equal; lia.
Qed.

Lemma addMonths_prev (y m dd t : Z) :
  0 <= m <= 11 ->
  addMonths (LocalDate y m dd t) (-1)
  = let y' := if m =? 0 then y - 1 else y in
    let m' := if m =? 0 then 11 else m - 1 in
    LocalDate y' m' (Z.min dd (daysInMonth y' m')) t.
Proof.
  intros Hm. unfold addMonths. cbn [Z.eqb]. cbn zeta.
  assert (Hq : (m + -1) / 12 = if m =? 0 then -1 else 0).
  { destruct (Z.eqb_spec m 0) as [->|Hne]; [reflexivity|].
    apply Z.div_small. lia. }
  assert (Hr : (m + -1) mod 12 = if m =? 0 then 11 else m - 1).
  { destruct (Z.eqb_spec m 0) as [->|Hne]; [reflexivity|].
    rewrite Z.mod_small by lia. lia. }
  rewrite Hq, Hr.
  destruct (Z.eqb_spec m 0) as [->|Hne].
  - replace (y + -1) with (y - 1) by lia.
    destruct (Z.leb_spec (daysInMonth (y - 1) 11) dd); f_equal; lia.
  - replace (y + 0) with y by lia.
    destruct (Z.leb_spec (daysInMonth y (m - 1)) dd); f_equal; lia.
Qed.

Lemma nextMonth_date (s : AppState) (y m dd t : Z) :
  currentDate s = LocalDate y m dd t -> 0 <= m <= 11 ->
  currentDate (nextMonth s)
  = LocalDate (if m =? 11 then y + 1 else y) (if m =? 11 then 0 else m + 1)
              (Z.min dd (daysInMonth (if m =? 11 then y + 1 else y)
                                     (if m =? 11 then 0 else m + 1))) t.
Proof.
  intros Hcur Hm. unfold nextMonth. cbn [setCurrentDate currentDate].
  rewrite Hcur. apply addMonths_next, Hm.
Qed.

Lemma prevMonth_date (s : AppState) (y m dd t : Z) :
  currentDate s = LocalDate y m dd t -> 0 <= m <= 11 ->
  currentDate (prevMonth s)
  = LocalDate (if m =? 0 then y - 1 else y) (if m =? 0 then 11 else m - 1)
              (Z.min dd (daysInMonth (if m =? 0 then y - 1 else y)
                                     (if m =? 0 then 11 else m - 1))) t.
Proof.
  intros Hcur Hm. unfold prevMonth, subMonths. cbn [setCurrentDate currentDate].
  rewrite Hcur. apply addMonths_prev, Hm.
Qed.

(** X15: from a date the component can hold, [nextMonth] and [prevMonth]
    move [currentDate] to the following and to the preceding calendar month
    (across the year at December and January), keep the time of day, keep
    the day of the month or take the last day of the target month when that
    month is shorter, and leave a date that exists. *)
Theorem month_step_lands_in_adjacent_month (s : AppState) (y m dd t : Z) :
  currentDate s = LocalDate y m dd t ->
  normalDate (currentDate s) ->
  (exists k,
     currentDate (nextMonth s)
     = LocalDate (if m =? 11 then y + 1 else y) (if m =? 11 then 0 else m + 1) k t
     /\ k = Z.min dd (daysInMonth (if m =? 11 then y + 1 else y)
                                  (if m =? 11 then 0 else m + 1))
     /\ normalDate (currentDate (nextMonth s)))
  /\ (exists k,
        currentDate (prevMonth s)
        = LocalDate (if m =? 0 then y - 1 else y) (if m =? 0 then 11 else m - 1) k t
        /\ k = Z.min dd (daysInMonth (if m =? 0 then y - 1 else y)
                                     (if m =? 0 then 11 else m - 1))
        /\ normalDate (currentDate (prevMonth s))).
Proof.
  intros Hcur Hnorm. rewrite Hcur in Hnorm. destruct Hnorm as [Hm Hd].
  split.
  - eexists. split; [apply (nextMonth_date s y m dd t Hcur Hm)|].
    split; [reflexivity|].
    rewrite (nextMonth_date s y m dd t Hcur Hm). cbn [normalDate].
    pose proof (daysInMonth_pos (if m =? 11 then y + 1 else y)
                                (if m =? 11 then 0 else m + 1)).
    destruct (Z.eqb_spec m 11); lia.
  - eexists. split; [apply (prevMonth_date s y m dd t Hcur Hm)|].
    split; [reflexivity|].
    rewrite (prevMonth_date s y m dd t Hcur Hm). cbn [normalDate].
    pose proof (daysInMonth_pos (if m =? 0 then y - 1 else y)
                                (if m =? 0 then 11 else m - 1)).
    destruct (Z.eqb_spec m 0); lia.
Qed.

Lemma month_step_lands_in_adjacent_month_witness :
  let s := setCurrentDate (LocalDate 2024 0 31 43200000) sampleState in
  currentDate (nextMonth s) = LocalDate 2024 1 29 43200000
  /\ currentDate (prevMonth s) = LocalDate 2023 11 31 43200000.
Proof.
  cbn zeta.
  destruct (month_step_lands_in_adjacent_month
              (setCurrentDate (LocalDate 2024 0 31 43200000) sampleState)
              2024 0 31 43200000 eq_refl) as [(k & Hn & -> & _) (k' & Hp & -> & _)].
  - cbn. lia.
  - split; [exact Hn | exact Hp].
Defined.

(** X16: going to the next month and back, or to the previous month and
    back, shows the month one started from; the date itself comes back
    unchanged when its day is at most 28, and otherwise may have moved to
    the last day of the shorter month in between. *)
Theorem month_navigation_round_trip (s : AppState) (y m dd t : Z) :
  currentDate s = LocalDate y m dd t ->
  normalDate (currentDate s) ->
  monthDays (currentDate (prevMonth (nextMonth s))) = monthDays (currentDate s)
  /\ monthDays (currentDate (nextMonth (prevMonth s))) = monthDays (currentDate s)
  /\ (dd <= 28 -> prevMonth (nextMonth s) = s /\ nextMonth (prevMonth s) = s).
Proof.
  intros Hcur Hnorm. pose proof Hnorm as Hnorm'.
  rewrite Hcur in Hnorm'. destruct Hnorm' as [Hm Hd].
  pose proof (nextMonth_date s y m dd t Hcur Hm) as Hn.
  pose proof (prevMonth_date s y m dd t Hcur Hm) as Hp.
  assert (Hm1 : 0 <= (if m =? 11 then 0 else m + 1) <= 11)
    by (destruct (Z.eqb_spec m 11); lia).
  assert (Hm2 : 0 <= (if m =? 0 then 11 else m - 1) <= 11)
    by (destruct (Z.eqb_spec m 0); lia).
  pose proof (prevMonth_date (nextMonth s) _ _ _ _ Hn Hm1) as Hpn.
  pose proof (nextMonth_date (prevMonth s) _ _ _ _ Hp Hm2) as Hnp.
  assert (Eback : (if (if m =? 11 then 0 else m + 1) =? 0
                   then (if m =? 11 then y + 1 else y) - 1
                   else (if m =? 11 then y + 1 else y)) = y
                  /\ (if (if m =? 11 then 0 else m + 1) =? 0 then 11
                      else (if m =? 11 then 0 else m + 1) - 1) = m).
  { destruct (Z.eqb_spec m 11) as [->|Hne]; [cbn; split; lia|].
    destruct (Z.eqb_spec (m + 1) 0); split; lia. }
  assert (Eforth : (if (if m =? 0 then 11 else m - 1) =? 11
                    then (if m =? 0 then y - 1 else y) + 1
                    else (if m =? 0 then y - 1 else y)) = y
                   /\ (if (if m =? 0 then 11 else m - 1) =? 11 then 0
                       else (if m =? 0 then 11 else m - 1) + 1) = m).
  { destruct (Z.eqb_spec m 0) as [->|Hne]; [cbn; split; lia|].
    destruct (Z.eqb_spec (m - 1) 11); split; lia. }
  destruct Eback as [Ey1 Em1]. destruct Eforth as [Ey2 Em2].
  rewrite Ey1, Em1 in Hpn. rewrite Ey2, Em2 in Hnp.
  split; [rewrite Hpn, Hcur; reflexivity|].
  split; [rewrite Hnp, Hcur; reflexivity|].
  intros H28.
  pose proof (daysInMonth_pos (if m =? 11 then y + 1 else y)
                              (if m =? 11 then 0 else m + 1)).
  pose proof (daysInMonth_pos (if m =? 0 then y - 1 else y)
                              (if m =? 0 then 11 else m - 1)).
  assert (Eq1 : currentDate (prevMonth (nextMonth s)) = currentDate s).
  { rewrite Hpn, Hcur. f_equal. lia. }
  assert (Eq2 : currentDate (nextMonth (prevMonth s)) = currentDate s).
  { rewrite Hnp, Hcur. f_equal. lia. }
  split.
  - unfold prevMonth at 1. fold (prevMonth (nextMonth s)) in Eq1.
    unfold prevMonth in Eq1 at 1. cbn [setCurrentDate currentDate] in Eq1.
    rewrite Eq1. destruct s; reflexivity.
  - unfold nextMonth at 1. unfold nextMonth in Eq2 at 1.
    cbn [setCurrentDate currentDate] in Eq2.
    rewrite Eq2. destruct s; reflexivity.
Qed.

Lemma month_navigation_round_trip_witness :
  let s := setCurrentDate (LocalDate 2024 0 31 43200000) sampleState in
  monthDays (currentDate (prevMonth (nextMonth s))) = monthDays (currentDate s)
  /\ currentDate (prevMonth (nextMonth s)) = LocalDate 2024 0 29 43200000
  /\ prevMonth (nextMonth sampleState) = sampleState.
Proof.
  cbn zeta.
  destruct (month_navigation_round_trip
              (setCurrentDate (LocalDate 2024 0 31 43200000) sampleState)
              2024 0 31 43200000 eq_refl) as (Hback & _ & _).
  - cbn. lia.
  - destruct (month_navigation_round_trip sampleState 2024 0 10 43200000 eq_refl)
      as (_ & _ & Hsame).
    + cbn. lia.
    + split; [exact Hback|]. split; [reflexivity|]. apply Hsame. lia.
Defined.

(** * The calendar view *)

Lemma find_day_seq (k : Z) (a n : nat) :
  List.find (fun i => Z.of_nat i =? k) (seq a n)
  = if (Z.of_nat a <=? k) && (k <? Z.of_nat a + Z.of_nat n)
    then Some (Z.to_nat k) else None.
Proof.
  revert a. induction n as [|n IH]; intros a.
  - cbn [seq List.find].
    destruct (Z.leb_spec (Z.of_nat a) k), (Z.ltb_spec k (Z.of_nat a + Z.of_nat 0));
      try reflexivity; lia.
  - cbn [seq List.find].
    destruct (Z.eqb_spec (Z.of_nat a) k) as [Heq|Hne].
    + destruct (Z.leb_spec (Z.of_nat a) k),
               (Z.ltb_spec k (Z.of_nat a + Z.of_nat (S n)));
        cbn [andb]; try lia. f_equal. lia.
    + rewrite IH.
      destruct (Z.leb_spec (Z.of_nat (S a)) k),
               (Z.leb_spec (Z.of_nat a) k),
               (Z.ltb_spec k (Z.of_nat (S a) + Z.of_nat n)),
               (Z.ltb_spec k (Z.of_nat a + Z.of_nat (S n)));
        cbn [andb]; try reflexivity; lia.
Qed.

Lemma find_map_date {A} (g : A -> DailyTideData) (p : Date -> bool) (l : list A) :
  List.find (fun d => p (date d)) (map g l)
  = option_map g (List.find (fun x => p (date (g x))) l).
Proof.
  induction l as [|a l IH]; [reflexivity|].
  cbn [map List.find]. destruct (p (date (g a))); [reflexivity | exact IH].
Qed.

(** Looking a day up in a bucketed month. *)
Lemma find_in_processMonth hilo threshold cur day :
  List.find (fun d => isSameDay (date d) day) (processMonth hilo threshold cur)
  = if inVisibleMonth cur day
    then Some (processDay hilo threshold (startOfDay day))
    else None.
Proof.
  unfold processMonth. rewrite eachDayOfInterval_month.
  rewrite (find_map_date (processDay hilo threshold) (fun x => isSameDay x day)).
  cbn [processDay date].
  destruct cur as [|y m dd t]; [reflexivity|].
  destruct day as [|y' m' k t'].
  - cbn [inVisibleMonth monthDays].
    induction (seq 1 (Z.to_nat (daysInMonth y m))) as [|i l IH]; [reflexivity | exact IH].
  - cbn [inVisibleMonth monthDays startOfDay].
    pose proof (daysInMonth_pos y m) as Hdim.
    destruct ((y' =? y) && (m' =? m)) eqn:E; cbn [andb].
    + apply andb_true_iff in E. destruct E as [Ey Em].
      apply Z.eqb_eq in Ey, Em. subst y' m'.
      transitivity (option_map (processDay hilo threshold)
                      (option_map (fun i => LocalDate y m (Z.of_nat i) 0)
                         (List.find (fun i => Z.of_nat i =? k)
                                    (seq 1 (Z.to_nat (daysInMonth y m)))))).
      * f_equal. generalize (seq 1 (Z.to_nat (daysInMonth y m))) as l.
        induction l as [|i l IH]; [reflexivity|].
        cbn [map List.find isSameDay]. rewrite !Z.eqb_refl. cbn [andb].
        destruct (Z.of_nat i =? k); [reflexivity | exact IH].
      * rewrite find_day_seq.
        destruct (Z.leb_spec (Z.of_nat 1) k), (Z.leb_spec 1 k),
                 (Z.ltb_spec k (Z.of_nat 1 + Z.of_nat (Z.to_nat (daysInMonth y m)))),
                 (Z.leb_spec k (daysInMonth y m));
          cbn [andb option_map]; try reflexivity; try lia.
        rewrite Z2Nat.id by lia. reflexivity.
    + transitivity (option_map (processDay hilo threshold) (@None Date));
        [|reflexivity].
      f_equal. generalize (seq 1 (Z.to_nat (daysInMonth y m))) as l.
      induction l as [|i l IH]; [reflexivity|].
      cbn [map List.find isSameDay].
      replace ((y =? y') && (m =? m')) with false; [exact IH|].
      rewrite (Z.eqb_sym y y'), (Z.eqb_sym m m'). symmetry. exact E.
Qed.

(** What [loadTideData] leaves alone, whatever the fetch gives. *)
Lemma stateAfterLoad_frame fetch env s st :
  currentDate (stateAfterLoad fetch env s st) = currentDate s
  /\ station (stateAfterLoad fetch env s st) = station s
  /\ threshold (stateAfterLoad fetch env s st) = threshold s
  /\ notifSettings (stateAfterLoad fetch env s st) = notifSettings s
  /\ favorites (stateAfterLoad fetch env s st) = favorites s
  /\ loading (stateAfterLoad fetch env s st) = false.
Proof.
  unfold stateAfterLoad, loadTideData, tryLoad.
  destruct (format_yyyyMMdd (startOfMonth _)) as [b|]; cbn [mbind option_bind];
    [|repeat split; reflexivity].
  destruct (format_yyyyMMdd (endOfMonth _)) as [e|]; cbn [mbind option_bind];
    [|repeat split; reflexivity].
  destruct (fetch _ b e _ _ _); repeat split; reflexivity.
Qed.

Lemma inVisibleMonth_sameMonth (cur day : Date) :
  inVisibleMonth cur day = true -> isSameMonth day cur = true.
Proof.
  destruct cur as [|y m dd t], day as [|y' m' k t']; cbn; try discriminate.
  intros Hin. apply andb_true_iff in Hin. destruct Hin as [Hin _].
  apply andb_true_iff in Hin. destruct Hin as [Hin _]. exact Hin.
Qed.

(** X17: after a fetch, the calendar cell of a day of the visible month is
    drawn from the entry of that day: the badge follows its
    [meetsThreshold], and the cell lists its first three events; the cells of
    the days that pad the first and last week find no entry and show
    neither. *)
Theorem calendar_cell_after_fetch fetch env s st hilo day :
  fetchResolved fetch s hilo ->
  let s' := stateAfterLoad fetch env s st in
  let cell := calendarCell (dailyData s') (currentDate s') day in
  let entry := processDay hilo (threshold s) (startOfDay day) in
  if inVisibleMonth (currentDate s) day
  then cellData cell = Some entry
       /\ In entry (dailyData s')
       /\ showsBadge cell = meetsThreshold entry
       /\ shownEvents cell = firstn 3 (events entry)
  else cellData cell = None /\ showsBadge cell = false /\ shownEvents cell = [].
Proof.
  intros Hres. cbn zeta.
  destruct (stateAfterLoad_resolved fetch env s st hilo Hres) as (Hdata & _).
  assert (Hcur : currentDate (stateAfterLoad fetch env s st) = currentDate s)
    by apply stateAfterLoad_frame.
  unfold calendarCell. cbn [cellData showsBadge shownEvents].
  rewrite Hdata, Hcur, find_in_processMonth.
  destruct (inVisibleMonth (currentDate s) day) eqn:Hin.
  - rewrite (inVisibleMonth_sameMonth _ _ Hin), andb_true_r.
    split; [reflexivity|]. split; [|split; reflexivity].
    pose proof (find_in_processMonth hilo (threshold s) (currentDate s) day) as Hfind.
    rewrite Hin in Hfind. apply find_some in Hfind. apply Hfind.
  - repeat split; reflexivity.
Qed.

Lemma calendar_cell_after_fetch_witness :
  let s' := stateAfterLoad sampleService sampleEnv sampleState ∅ in
  fetchResolved sampleService sampleState sampleHilo
  /\ showsBadge (calendarCell (dailyData s') (currentDate s') (LocalDate 2024 0 15 0))
     = true
  /\ length (shownEvents (calendarCell (dailyData s') (currentDate s')
                                       (LocalDate 2024 0 15 0))) = 3%nat
  /\ cellData (calendarCell (dailyData s') (currentDate s') (LocalDate 2023 11 31 0))
     = None.
Proof.
  cbn zeta.
  assert (Hres : fetchResolved sampleService sampleState sampleHilo).
  { exists "20240101", "20240131". repeat split; reflexivity. }
  pose proof (calendar_cell_after_fetch sampleService sampleEnv sampleState ∅ sampleHilo
                (LocalDate 2024 0 15 0) Hres) as Hin.
  pose proof (calendar_cell_after_fetch sampleService sampleEnv sampleState ∅ sampleHilo
                (LocalDate 2023 11 31 0) Hres) as Hout.
  cbn zeta in Hin, Hout.
  change (inVisibleMonth (currentDate sampleState) (LocalDate 2024 0 15 0))
    with true in Hin.
  change (inVisibleMonth (currentDate sampleState) (LocalDate 2023 11 31 0))
    with false in Hout.
  destruct Hin as (_ & _ & Hbadge & Hshown). destruct Hout as (Hnone & _).
  split; [exact Hres|].
  split; [rewrite Hbadge; reflexivity|].
  split; [rewrite Hshown; reflexivity | exact Hnone].
Defined.




(** * What a notification says *)

Lemma alertLoop_posts_message notifSettings station threshold env days st m :
  In (PostMessage m) (log (alertLoop notifSettings station threshold env days st)) ->
  exists day maxEvent,
    In day days
    /\ List.find (qualifies threshold) (events day) = Some maxEvent
    /\ alertMessage station day maxEvent = Some m.
Proof.
  revert st. induction days as [|day rest IH]; intros st Hin; [destruct Hin|].
  cbn [alertLoop] in Hin.
  destruct (alertDay_outcome notifSettings station threshold env day st)
    as [c|key e m' Hlead Hfind Hkey Hno Hctl Hmsg].
  - cbn [completion storage log] in Hin. destruct c; [|destruct Hin].
    cbn [log app] in Hin. destruct (IH _ Hin) as (d & e & Hd & Hrest).
    exists d, e. split; [right; exact Hd | exact Hrest].
  - cbn [completion storage log app] in Hin.
    destruct Hin as [Heq|[Heq|Hin]]; [|discriminate Heq|].
    + injection Heq as <-. exists day, e. split; [left; reflexivity|]. auto.
    + destruct (IH _ Hin) as (d & e' & Hd & Hrest).
      exists d, e'. split; [right; exact Hd | exact Hrest].
Qed.

(** X19: a notification reports the first ['H'] event of its day that
    reaches the threshold, in the order of the day's events: the height and
    the time in its body are those of that event, which need not be the
    highest tide of the day; its title names the current station. *)
Theorem notification_reports_first_peak notifSettings station threshold env data st m :
  In (PostMessage m)
     (log (checkUpcomingTidesForAlerts notifSettings station threshold env data st)) ->
  exists day maxEvent,
    In day data
    /\ List.find (qualifies threshold) (events day) = Some maxEvent
    /\ isHigh maxEvent = true /\ num_ge (height maxEvent) threshold = true
    /\ m = mkMessage "SHOW_NOTIFICATION"
             (mkPayload ("🌊 Tide Alert: " ++ name station)
                        (mkBody (height maxEvent) (date day) (time maxEvent))
                        "https://img.icons8.com/fluency/96/000000/waves.png").
Proof.
  unfold checkUpcomingTidesForAlerts.
  destruct (negb (enabled notifSettings) || _); [intros []|].
  intros Hin.
  destruct (alertLoop_posts_message _ _ _ _ _ _ _ Hin) as (day & e & Hday & Hfind & Hmsg).
  apply filter_In in Hday. destruct Hday as [Hday _].
  exists day, e. split; [exact Hday|]. split; [exact Hfind|].
  pose proof (find_some _ _ Hfind) as [_ Hq].
  unfold qualifies in Hq. apply andb_true_iff in Hq. destruct Hq as [Hh Hge].
  split; [exact Hh|]. split; [exact Hge|].
  unfold alertMessage in Hmsg.
  destruct (isValid (date day) && isValid (time e)); [|discriminate Hmsg].
  injection Hmsg as <-. reflexivity.
Qed.

Lemma notification_reports_first_peak_witness :
  let data := processMonth twoPeaksHilo six midJanuary in
  exists m day maxEvent,
    In (PostMessage m)
       (log (checkUpcomingTidesForAlerts (mkSettings true 1) sampleStation six sampleEnv
               data ∅))
    /\ In day data
    /\ List.find (qualifies six) (events day) = Some maxEvent
    /\ peakHeight (body (payload m)) = height maxEvent
    /\ peakHeight (body (payload m)) = Fin (61 # 10)
    /\ maxHeight day = Fin (69 # 10).
Proof.
  cbn zeta.
  set (m := mkMessage "SHOW_NOTIFICATION"
              (mkPayload ("🌊 Tide Alert: " ++ "San Francisco, CA")
                         (mkBody (Fin (61 # 10)) (LocalDate 2024 0 15 0)
                                 (LocalDate 2024 0 15 12240000))
                         "https://img.icons8.com/fluency/96/000000/waves.png")).
  assert (Hin : In (PostMessage m)
       (log (checkUpcomingTidesForAlerts (mkSettings true 1) sampleStation six sampleEnv
               (processMonth twoPeaksHilo six midJanuary) ∅))).
  { vm_compute. left. reflexivity. }
  destruct (notification_reports_first_peak _ _ _ _ _ _ _ Hin)
    as (day & e & Hday & Hfind & _ & _ & Hm).
  exists m, day, e. split; [exact Hin|]. split; [exact Hday|]. split; [exact Hfind|].
  assert (Hpeak : height e = Fin (61 # 10) /\ date day = LocalDate 2024 0 15 0).
  { unfold m in Hm. injection Hm as Hh Hd _. auto. }
  destruct Hpeak as [Hpeak Hdate].
  split; [symmetry; exact Hpeak|]. split; [reflexivity|].
  destruct (In_processMonth _ _ _ _ Hday) as (d0 & ->).
  cbn [processDay date] in Hdate. subst d0. reflexivity.
Defined.

(** * [loadTideData] as a whole *)

Lemma tryLoad_cases fetch env s st :
  tryLoad fetch env s st = None
  \/ exists hilo,
       tryLoad fetch env s st
       = Some (setDailyData (processMonth hilo (threshold s) (currentDate s)) s,
               checkUpcomingTidesForAlerts (notifSettings s) (station s) (threshold s)
                 env (processMonth hilo (threshold s) (currentDate s)) st).
Proof.
  unfold tryLoad.
  destruct (format_yyyyMMdd (startOfMonth _)) as [b|]; cbn [mbind option_bind];
    [|left; reflexivity].
  destruct (format_yyyyMMdd (endOfMonth _)) as [e|]; cbn [mbind option_bind];
    [|left; reflexivity].
  destruct (fetch _ b e _ _ _) as [hilo|]; [|left; reflexivity].
  right. exists hilo. reflexivity.
Qed.

(** X20: whatever the service answers, [loadTideData] ends with the loading
    flag down and leaves the date, the station, the threshold, the
    notification settings and the favorites as they were; it either clears
    the error, or sets the load error and then keeps [dailyData] and the
    storage and posts nothing; and every message it posts is about a day of
    the visible month. *)
Theorem loadTideData_frame fetch env s st :
  let '(s', st', effects) := loadTideData fetch env s st in
  currentDate s' = currentDate s /\ station s' = station s
  /\ threshold s' = threshold s /\ notifSettings s' = notifSettings s
  /\ favorites s' = favorites s /\ loading s' = false
  /\ (error s' = None
      \/ (error s' = Some loadErrorMessage /\ dailyData s' = dailyData s
          /\ st' = st /\ effects = []))
  /\ forall m, In (PostMessage m) effects ->
       In (onDay (body (payload m))) (monthDays (currentDate s)).
Proof.
  unfold loadTideData.
  destruct (tryLoad_cases fetch env (setError None (setLoading true s)) st)
    as [->|(hilo & ->)].
  - repeat split; try reflexivity; [right; repeat split; reflexivity | intros m []].
  - cbn [setLoading setError setDailyData currentDate station threshold notifSettings
         favorites dailyData error loading].
    repeat split; try reflexivity; [left; reflexivity|].
    intros m Hin.
    destruct (posted_message_day _ _ _ _ _ _ _ Hin) as (day & Hday & -> & _).
    rewrite <- (processMonth_dates hilo (threshold s) (currentDate s)).
    apply in_map, Hday.
Qed.

Lemma loadTideData_frame_witness :
  let '(s', st', effects) := loadTideData sampleService sampleEnv sampleState ∅ in
  In (PostMessage sampleMessage) effects
  /\ In (onDay (body (payload sampleMessage))) (monthDays (currentDate sampleState))
  /\ error s' = None /\ loading s' = false.
Proof.
  pose proof (loadTideData_frame sampleService sampleEnv sampleState ∅) as Hframe.
  destruct (loadTideData sampleService sampleEnv sampleState ∅) as [[s' st'] effects] eqn:E.
  destruct Hframe as (_ & _ & _ & _ & _ & Hload & _ & Hposts).
  assert (Hin : In (PostMessage sampleMessage) effects).
  { replace effects with (loadTideData sampleService sampleEnv sampleState ∅).2
      by (rewrite E; reflexivity).
    vm_compute. left. reflexivity. }
  split; [exact Hin|]. split; [apply Hposts, Hin|]. split; [|exact Hload].
  replace s' with (loadTideData sampleService sampleEnv sampleState ∅).1.1
    by (rewrite E; reflexivity).
  reflexivity.
Defined.

(** * The search form *)

Example isBlankQuery_spaces : isBlankQuery "  	 " = true.
Proof. reflexivity. Qed.

Example isBlankQuery_text : isBlankQuery "  San Diego " = false.
Proof. reflexivity. Qed.

(** X21: [handleSearch] never touches the date, the threshold, the bucketed
    days, the settings or the favorites; a blank query changes nothing at
    all; the station changes only to a result with a non-empty id, and then
    the query is cleared, the loading flag is down and the error is left as
    it was; the error changes only to the not-found message, and then the
    station and the query are kept. *)
Theorem handleSearch_guards (findStationId : Resolver) (ui : SearchUi) :
  let ui' := handleSearch findStationId ui in
  (currentDate (ui_app ui') = currentDate (ui_app ui)
   /\ threshold (ui_app ui') = threshold (ui_app ui)
   /\ dailyData (ui_app ui') = dailyData (ui_app ui)
   /\ notifSettings (ui_app ui') = notifSettings (ui_app ui)
   /\ favorites (ui_app ui') = favorites (ui_app ui))
  /\ (isBlankQuery (searchQuery ui) = true -> ui' = ui)
  /\ (station (ui_app ui') <> station (ui_app ui) ->
      id (station (ui_app ui')) <> "" /\ searchQuery ui' = ""
      /\ loading (ui_app ui') = false /\ error (ui_app ui') = error (ui_app ui))
  /\ (error (ui_app ui') <> error (ui_app ui) ->
      error (ui_app ui') = Some searchErrorMessage
      /\ station (ui_app ui') = station (ui_app ui)
      /\ searchQuery ui' = searchQuery ui /\ loading (ui_app ui') = false).
Proof.
  cbn zeta. unfold handleSearch.
  destruct (isBlankQuery (searchQuery ui)) eqn:Hblank.
  - repeat split; try reflexivity; try congruence.
  - destruct (findStationId (searchQuery ui)) as [sid sname| |].
    + destruct (String.eqb_spec sid "") as [->|Hne];
        cbn [ui_app searchQuery setLoading setError setStation currentDate station
             threshold dailyData error notifSettings favorites loading id].
      * repeat split; try reflexivity; try congruence.
      * repeat split; try reflexivity; try congruence.
    + cbn [ui_app searchQuery setLoading setError setStation currentDate station
           threshold dailyData error notifSettings favorites loading id].
      repeat split; try reflexivity; try congruence.
    + cbn [ui_app searchQuery setLoading setError setStation currentDate station
           threshold dailyData error notifSettings favorites loading id].
      repeat split; try reflexivity; try congruence.
Qed.

Lemma handleSearch_guards_witness :
  let ui := mkSearchUi sampleState "Seattle" in
  let ui' := handleSearch sampleResolver ui in
  station (ui_app ui') <> station (ui_app ui)
  /\ id (station (ui_app ui')) <> "" /\ searchQuery ui' = ""
  /\ handleSearch sampleResolver (mkSearchUi sampleState "   ")
     = mkSearchUi sampleState "   "
  /\ error (ui_app (handleSearch sampleResolver (mkSearchUi sampleState "nowhere")))
     = Some searchErrorMessage.
Proof.
  cbn zeta.
  assert (Hchg : station (ui_app (handleSearch sampleResolver
                                    (mkSearchUi sampleState "Seattle")))
                 <> station (ui_app (mkSearchUi sampleState "Seattle"))).
  { vm_compute. discriminate. }
  destruct (handleSearch_guards sampleResolver (mkSearchUi sampleState "Seattle"))
    as (_ & _ & Hst & _).
  destruct (Hst Hchg) as (Hid & Hq & _).
  split; [exact Hchg|]. split; [exact Hid|]. split; [exact Hq|].
  split.
  - apply (proj1 (proj2 (handleSearch_guards sampleResolver
                           (mkSearchUi sampleState "   ")))).
    reflexivity.
  - apply (proj2 (proj2 (proj2 (handleSearch_guards sampleResolver
                                  (mkSearchUi sampleState "nowhere"))))).
    vm_compute. discriminate.
Defined.

Example isBlankQuery_wide : isBlankQuery " 　 " = true.
Proof. reflexivity. Qed.

(** X22: a search that finds a station, followed by the load it triggers
    when the service answers, leaves the component on the new station with
    the month bucketed from the new answer, the query cleared, the loading
    flag down and no error, also when an error was shown before. *)
Theorem search_then_load (findStationId : Resolver) (fetch : Service) (env : Env)
    (ui : SearchUi) (st : gmap string string) (sid sname : string)
    (hilo : list TidePrediction) :
  isBlankQuery (searchQuery ui) = false ->
  findStationId (searchQuery ui) = StationFound sid sname ->
  sid <> "" ->
  let ui' := handleSearch findStationId ui in
  fetchResolved fetch (ui_app ui') hilo ->
  let s' := stateAfterLoad fetch env (ui_app ui') st in
  searchQuery ui' = ""
  /\ station s' = mkStation sid sname
  /\ dailyData s' = processMonth hilo (threshold (ui_app ui)) (currentDate (ui_app ui))
  /\ error s' = None /\ loading s' = false.
Proof.
  intros Hblank Hfound Hsid. cbn zeta. unfold handleSearch.
  rewrite Hblank, Hfound.
  destruct (String.eqb_spec sid "") as [->|_]; [congruence|].
  cbn [ui_app searchQuery]. intros Hres.
  destruct (stateAfterLoad_resolved fetch env _ st hilo Hres) as (Hdata & _ & Hload & Herr).
  destruct (stateAfterLoad_frame fetch env
              (setLoading false (setStation (mkStation sid sname)
                                            (setLoading true (ui_app ui)))) st)
    as (_ & Hstation & _).
  split; [reflexivity|]. split; [exact Hstation|].
  split; [exact Hdata|]. split; [exact Herr | exact Hload].
Qed.

Lemma search_then_load_witness :
  let ui := mkSearchUi (setError (Some searchErrorMessage) sampleState) "Seattle" in
  let ui' := handleSearch sampleResolver ui in
  let s' := stateAfterLoad sampleService sampleEnv (ui_app ui') ∅ in
  error (ui_app ui') = Some searchErrorMessage
  /\ searchQuery ui' = ""
  /\ station s' = mkStation "9447130" "Seattle, WA"
  /\ dailyData s' = processMonth sampleHilo six midJanuary
  /\ error s' = None /\ loading s' = false.
Proof.
  cbn zeta. split; [reflexivity|].
  apply (search_then_load sampleResolver sampleService sampleEnv
           (mkSearchUi (setError (Some searchErrorMessage) sampleState) "Seattle")
           ∅ "9447130" "Seattle, WA" sampleHilo).
  - reflexivity.
  - reflexivity.
  - discriminate.
  - exists "20240101", "20240131". repeat split; reflexivity.
Defined.

(** * The persisting effect *)

(** X23: the persisting effect stores the two strings it is given under
    [tidewatch_favorites] and [tidewatch_notif_settings], where the next
    start of the component reads them, and changes no other entry; no alert
    marker is added, removed or emptied by it. *)
Theorem persist_keeps_markers (favoritesJson settingsJson : string)
    (st : gmap string string) :
  persist favoritesJson settingsJson st !! "tidewatch_favorites" = Some favoritesJson
  /\ persist favoritesJson settingsJson st !! "tidewatch_notif_settings"
     = Some settingsJson
  /\ (forall k, k <> "tidewatch_favorites" -> k <> "tidewatch_notif_settings" ->
      persist favoritesJson settingsJson st !! k = st !! k)
  /\ (forall station d key, alertKey station d = Some key ->
      noItem (persist favoritesJson settingsJson st) key = noItem st key).
Proof.
  unfold persist. split.
  - rewrite lookup_insert_ne by discriminate. apply lookup_insert_eq.
  - split; [apply lookup_insert_eq|]. split.
    + intros k Hf Hs. rewrite !lookup_insert_ne by congruence. reflexivity.
    + intros station d key Hkey.
      destruct (alertKey_not_persisted _ _ _ Hkey) as [Hf Hs].
      unfold noItem. rewrite !lookup_insert_ne by congruence. reflexivity.
Qed.

Lemma persist_keeps_markers_witness :
  noItem (persist "[]" "{}" (<[sampleKey := "sent"]> ∅)) sampleKey = false.
Proof.
  rewrite (proj2 (proj2 (proj2 (persist_keeps_markers "[]" "{}"
                                  (<[sampleKey := "sent"]> ∅))))
             sampleStation (LocalDate 2024 0 15 0) sampleKey eq_refl).
  apply noItem_insert_same.
Defined.

(** * The calendar grid *)

Example weekday_monday : weekday 2024 0 1 = 1.
Proof. reflexivity. Qed.

Example weekday_leap_day : weekday 2024 1 29 = 4.
Proof. reflexivity. Qed.

Example calendarDays_january :
  calendarDays midJanuary
  = (LocalDate 2023 11 31 0 :: monthDays midJanuary
     ++ [LocalDate 2024 1 1 0; LocalDate 2024 1 2 0; LocalDate 2024 1 3 0])%list.
Proof. reflexivity. Qed.

Example calendarDays_length_sep_2024 :
  length (calendarDays (LocalDate 2024 8 10 0)) = 35%nat.
Proof. reflexivity. Qed.

Lemma daysBeforeMonth_succ (y m : Z) :
  0 <= m -> daysBeforeMonth y (m + 1) = daysBeforeMonth y m + daysInMonth y m.
Proof.
  intros Hm. unfold daysBeforeMonth.
  replace (Z.to_nat (m + 1)) with (S (Z.to_nat m)) by lia.
  rewrite seq_S, fold_left_app. cbn [fold_left Nat.add].
  rewrite Z2Nat.id by lia. reflexivity.
Qed.

Lemma daysBeforeMonth_december (y : Z) :
  daysBeforeMonth y 11 + 31 = 365 + (if isLeapYear y then 1 else 0).
Proof.
  unfold daysBeforeMonth. cbn [Z.to_nat Pos.to_nat Pos.iter_op Nat.add seq fold_left].
  unfold daysInMonth. cbn [Z.of_nat Pos.of_succ_nat Pos.succ Z.eqb Pos.eqb orb].
  destruct (isLeapYear y); reflexivity.
Qed.

Lemma leap_days_step (y : Z) :
  y / 4 - y / 100 + y / 400
  = (y - 1) / 4 - (y - 1) / 100 + (y - 1) / 400 + (if isLeapYear y then 1 else 0).
Proof.
  unfold isLeapYear.
  destruct (Z.eqb_spec (y mod 4) 0), (Z.eqb_spec (y mod 100) 0),
           (Z.eqb_spec (y mod 400) 0); cbn [andb orb negb];
    Z.div_mod_to_equations; lia.
Qed.

(** Day numbers run on across the end of a month and of a year. *)
Lemma dayNumber_monthAfter (y m j : Z) :
  0 <= m <= 11 ->
  dayNumber (fst (monthAfter y m)) (snd (monthAfter y m)) j
  = dayNumber y m (daysInMonth y m) + j.
Proof.
  intros Hm. unfold monthAfter. cbn [fst snd].
  destruct (Z.eqb_spec m 11) as [->|Hne].
  - unfold dayNumber. replace (y + 1 - 1) with y by lia.
    pose proof (daysBeforeMonth_december y) as Hdec.
    pose proof (leap_days_step y) as Hleap.
    change (daysBeforeMonth (y + 1) 0) with 0.
    change (daysInMonth y 11) with 31. lia.
  - unfold dayNumber. rewrite daysBeforeMonth_succ by lia. lia.
Qed.

Lemma monthAfter_monthBefore (y m : Z) :
  0 <= m <= 11 ->
  monthAfter (fst (monthBefore y m)) (snd (monthBefore y m)) = (y, m)
  /\ 0 <= snd (monthBefore y m) <= 11 /\ 0 <= snd (monthAfter y m) <= 11.
Proof.
  intros Hm. unfold monthAfter, monthBefore. cbn [fst snd].
  destruct (Z.eqb_spec m 0) as [->|Hne].
  - cbn. split; [f_equal; lia | lia].
  - destruct (Z.eqb_spec (m - 1) 11); [lia|].
    split; [f_equal; lia|]. destruct (Z.eqb_spec m 11); lia.
Qed.

Lemma dayNumber_monthBefore (y m j : Z) :
  0 <= m <= 11 ->
  dayNumber y m j
  = dayNumber (fst (monthBefore y m)) (snd (monthBefore y m))
              (daysInMonth (fst (monthBefore y m)) (snd (monthBefore y m))) + j.
Proof.
  intros Hm. destruct (monthAfter_monthBefore y m Hm) as (Hback & Hpm & _).
  rewrite <- dayNumber_monthAfter by exact Hpm.
  rewrite Hback. reflexivity.
Qed.

Lemma nextDay_end_of_month (y m t : Z) :
  0 <= m <= 11 ->
  nextDay (LocalDate y m (daysInMonth y m) t)
  = LocalDate (fst (monthAfter y m)) (snd (monthAfter y m)) 1 0.
Proof.
  intros Hm. unfold nextDay, monthAfter. rewrite Z.ltb_irrefl. cbn [fst snd].
  destruct (Z.ltb_spec m 11), (Z.eqb_spec m 11); try lia; reflexivity.
Qed.

(** The loop of [eachDayOfInterval] inside one month, up to an end date that
    all the days it walks over precede. *)
Lemma eachDay_loop_run (y m : Z) (E : Date) (n extra k : nat) :
  (1 <= k)%nat ->
  Z.of_nat k + Z.of_nat n <= daysInMonth y m + 1 ->
  (forall j, (k <= j < k + n)%nat -> date_le (LocalDate y m (Z.of_nat j) 0) E = true) ->
  eachDay_loop (n + extra) (LocalDate y m (Z.of_nat k) 0) E
  = (map (fun i => LocalDate y m (Z.of_nat i) 0) (seq k n)
     ++ eachDay_loop extra
          (match n with
           | O => LocalDate y m (Z.of_nat k) 0
           | S _ => nextDay (LocalDate y m (Z.of_nat (k + n - 1)) 0)
           end) E)%list.
Proof.
  revert k. induction n as [|n IH]; intros k Hk Hfit Hle; [reflexivity|].
  cbn [Nat.add eachDay_loop seq map app].
  rewrite Hle by lia. f_equal.
  destruct n as [|n'].
  - cbn [Nat.add seq map app]. replace (k + 1 - 1)%nat with k by lia. reflexivity.
  - assert (Hnext : nextDay (LocalDate y m (Z.of_nat k) 0)
                    = LocalDate y m (Z.of_nat (S k)) 0).
    { unfold nextDay.
      destruct (Z.ltb_spec (Z.of_nat k) (daysInMonth y m)) as [_|Hge]; [|lia].
      f_equal. lia. }
    rewrite Hnext, (IH (S k)); [|lia|lia|intros j Hj; apply Hle; lia].
    replace (S k + S n' - 1)%nat with (k + S (S n') - 1)%nat by lia. reflexivity.
Qed.

(** A date of an earlier month precedes any date of a later one. *)
Lemma date_le_earlier_month (y1 m1 d1 t1 y2 m2 d2 t2 : Z) :
  0 <= m1 <= 11 -> 0 <= m2 <= 11 -> 12 * y1 + m1 < 12 * y2 + m2 ->
  date_le (LocalDate y1 m1 d1 t1) (LocalDate y2 m2 d2 t2) = true.
Proof.
  intros H1 H2 Hlt. unfold date_le, compareFields.
  destruct (Z.compare_spec y1 y2) as [E|E|E]; [|reflexivity|lia].
  subst. destruct (Z.compare_spec m1 m2) as [E|E|E]; [lia|reflexivity|lia].
Qed.

Lemma date_le_same_month (y m d1 d2 t2 : Z) :
  d1 <= d2 -> 0 <= t2 ->
  date_le (LocalDate y m d1 0) (LocalDate y m d2 t2) = true.
Proof.
  intros Hd Ht. unfold date_le, compareFields. rewrite !Z.compare_refl.
  destruct (Z.compare_spec d1 d2) as [E|E|E]; [|reflexivity|lia].
  destruct (Z.compare_spec 0 t2); [reflexivity|reflexivity|lia].
Qed.

Lemma weekday_range (y m dd : Z) : 0 <= weekday y m dd <= 6.
Proof. unfold weekday. pose proof (Z.mod_pos_bound (dayNumber y m dd - 1) 7). lia. Qed.

Lemma weekday_last_day (y m : Z) :
  weekday y m (daysInMonth y m)
  = (weekday y m 1 + daysInMonth y m - 1) mod 7.
Proof.
  unfold weekday.
  replace (dayNumber y m (daysInMonth y m) - 1)
    with (dayNumber y m 1 - 1 + (daysInMonth y m - 1))
    by (unfold dayNumber; lia).
  rewrite <- Z.add_sub_assoc. rewrite Zplus_mod_idemp_l. reflexivity.
Qed.

Lemma dayNumber_shift (y m a b : Z) : dayNumber y m (a + b) = dayNumber y m a + b.
Proof. unfold dayNumber. lia. Qed.

Lemma calendarStart_eq (y m dd t : Z) :
  calendarStart (LocalDate y m dd t)
  = if weekday y m 1 =? 0 then LocalDate y m 1 0
    else LocalDate (fst (monthBefore y m)) (snd (monthBefore y m))
                   (daysInMonth (fst (monthBefore y m)) (snd (monthBefore y m))
                    + 1 - weekday y m 1) 0.
Proof.
  unfold calendarStart, startOfWeek, setDate, monthBefore. cbn [startOfMonth fst snd].
  pose proof (weekday_range y m 1) as Hg. pose proof (daysInMonth_pos y m) as Hdim.
  destruct (Z.eqb_spec (weekday y m 1) 0) as [->|Hne].
  - change (1 - 0) with 1. change (1 <? 1) with false. cbv beta iota.
    destruct (Z.ltb_spec (daysInMonth y m) 1); [lia | reflexivity].
  - destruct (Z.ltb_spec (1 - weekday y m 1) 1); [|lia].
    cbn [startOfDay]. f_equal. lia.
Qed.

Lemma calendarEnd_eq (y m dd t : Z) :
  calendarEnd (LocalDate y m dd t)
  = if weekday y m (daysInMonth y m) =? 6
    then LocalDate y m (daysInMonth y m) (msPerDay - 1)
    else LocalDate (fst (monthAfter y m)) (snd (monthAfter y m))
                   (6 - weekday y m (daysInMonth y m)) (msPerDay - 1).
Proof.
  unfold calendarEnd, endOfWeek, setDate, monthAfter. cbn [endOfMonth fst snd].
  pose proof (weekday_range y m (daysInMonth y m)) as Hh.
  pose proof (daysInMonth_pos y m) as Hdim.
  destruct (Z.ltb_spec (daysInMonth y m + (6 - weekday y m (daysInMonth y m))) 1);
    [lia|].
  destruct (Z.eqb_spec (weekday y m (daysInMonth y m)) 6) as [E|Hne].
  - rewrite E.
    destruct (Z.ltb_spec (daysInMonth y m) (daysInMonth y m + (6 - 6))); [lia|].
    f_equal. lia.
  - destruct (Z.ltb_spec (daysInMonth y m)
                (daysInMonth y m + (6 - weekday y m (daysInMonth y m)))); [|lia].
    f_equal. lia.
Qed.

Section CalendarGrid.

Variables y m dd t : Z.
Hypothesis Hm : 0 <= m <= 11.

Let cur := LocalDate y m dd t.
Let g := weekday y m 1.
Let h := weekday y m (daysInMonth y m).
Let py := fst (monthBefore y m).
Let pm := snd (monthBefore y m).
Let ny := fst (monthAfter y m).
Let nm := snd (monthAfter y m).

Lemma grid_months :
  0 <= pm <= 11 /\ 0 <= nm <= 11
  /\ 12 * py + pm = 12 * y + m - 1 /\ 12 * ny + nm = 12 * y + m + 1.
Proof.
  unfold py, pm, ny, nm, monthBefore, monthAfter. cbn [fst snd].
  destruct (Z.eqb_spec m 0), (Z.eqb_spec m 11); lia.
Qed.

Lemma calendarEnd_after_month (j : Z) :
  j <= daysInMonth y m -> date_le (LocalDate y m j 0) (calendarEnd cur) = true.
Proof.
  intros Hj. unfold cur. rewrite calendarEnd_eq.
  destruct grid_months as (_ & Hnm & _ & Hn).
  destruct (weekday y m (daysInMonth y m) =? 6).
  - apply date_le_same_month; [exact Hj | unfold msPerDay; lia].
  - apply date_le_earlier_month; [exact Hm | exact Hnm | fold ny nm; lia].
Qed.

Lemma calendarEnd_after_lead (j : Z) :
  date_le (LocalDate py pm j 0) (calendarEnd cur) = true.
Proof.
  unfold cur. rewrite calendarEnd_eq.
  destruct grid_months as (Hpm & Hnm & Hp & Hn).
  destruct (weekday y m (daysInMonth y m) =? 6).
  - apply date_le_earlier_month; [exact Hpm | exact Hm | lia].
  - apply date_le_earlier_month; [exact Hpm | exact Hnm | fold ny nm; lia].
Qed.

Lemma calendarEnd_after_trail (j : Z) :
  j <= 6 - h -> h <> 6 -> date_le (LocalDate ny nm j 0) (calendarEnd cur) = true.
Proof.
  intros Hj Hh. unfold cur. rewrite calendarEnd_eq. fold h ny nm.
  destruct (Z.eqb_spec h 6); [contradiction|].
  apply date_le_same_month; [exact Hj | unfold msPerDay; lia].
Qed.

Lemma calendar_fuel :
  differenceInCalendarDays (calendarEnd cur) (calendarStart cur)
  = Some (g + daysInMonth y m + (6 - h) - 1).
Proof.
  unfold cur. rewrite calendarEnd_eq, calendarStart_eq. fold g h py pm ny nm.
  pose proof (dayNumber_monthAfter y m (6 - h) Hm) as Hafter.
  pose proof (dayNumber_monthBefore y m 1 Hm) as Hbefore.
  fold py pm ny nm in Hafter, Hbefore.
  pose proof (dayNumber_shift y m 1 (daysInMonth y m - 1)) as Hlast.
  replace (1 + (daysInMonth y m - 1)) with (daysInMonth y m) in Hlast by lia.
  pose proof (dayNumber_shift py pm (daysInMonth py pm) (1 - g)) as Hlead.
  replace (daysInMonth py pm + (1 - g)) with (daysInMonth py pm + 1 - g) in Hlead by lia.
  destruct (Z.eqb_spec h 6) as [Eh|Hh], (Z.eqb_spec g 0) as [Eg|Hg];
    cbn [differenceInCalendarDays]; f_equal; lia.
Qed.

Lemma grid_lead_segment (rest : nat) :
  eachDay_loop (Z.to_nat g + rest) (startOfDay (calendarStart cur)) (calendarEnd cur)
  = (leadingDays cur ++ eachDay_loop rest (LocalDate y m 1 0) (calendarEnd cur))%list.
Proof.
  pose proof (weekday_range y m 1) as Hg. fold g in Hg.
  pose proof (daysInMonth_pos py pm) as Hdimp.
  unfold cur at 1 3. rewrite calendarStart_eq. fold g py pm.
  unfold leadingDays, monthBefore. fold (monthBefore y m). fold py pm g.
  destruct (Z.eqb_spec g 0) as [Eg|Hne].
  - rewrite Eg. reflexivity.
  - cbn [startOfDay].
    replace (daysInMonth py pm + 1 - g)
      with (Z.of_nat (Z.to_nat (daysInMonth py pm + 1 - g))) at 1 by lia.
    rewrite eachDay_loop_run; [|lia|lia|intros j _; apply calendarEnd_after_lead].
    f_equal. destruct (Z.to_nat g) as [|n] eqn:En; [lia|].
    replace (Z.of_nat (Z.to_nat (daysInMonth py pm + 1 - g) + S n - 1))
      with (daysInMonth py pm) by lia.
    destruct grid_months as (Hpm & _).
    rewrite nextDay_end_of_month by exact Hpm.
    unfold py, pm.
    destruct (monthAfter_monthBefore y m Hm) as (-> & _). reflexivity.
Qed.

Lemma grid_month_segment (rest : nat) :
  eachDay_loop (Z.to_nat (daysInMonth y m) + rest) (LocalDate y m 1 0) (calendarEnd cur)
  = (monthDays cur ++ eachDay_loop rest (LocalDate ny nm 1 0) (calendarEnd cur))%list.
Proof.
  pose proof (daysInMonth_pos y m) as Hdim.
  change (LocalDate y m 1 0) with (LocalDate y m (Z.of_nat 1) 0) at 1.
  rewrite eachDay_loop_run;
    [|lia|lia|intros j Hj; apply calendarEnd_after_month; lia].
  unfold cur at 2. cbn [monthDays]. f_equal.
  destruct (Z.to_nat (daysInMonth y m)) as [|n] eqn:En; [lia|].
  replace (Z.of_nat (1 + S n - 1)) with (daysInMonth y m) by lia.
  rewrite nextDay_end_of_month by exact Hm. reflexivity.
Qed.

Lemma grid_trail_segment :
  eachDay_loop (Z.to_nat (6 - h) + 0) (LocalDate ny nm 1 0) (calendarEnd cur)
  = trailingDays cur.
Proof.
  pose proof (weekday_range y m (daysInMonth y m)) as Hh. fold h in Hh.
  pose proof (daysInMonth_pos ny nm) as Hdimn.
  change (LocalDate ny nm 1 0) with (LocalDate ny nm (Z.of_nat 1) 0).
  rewrite eachDay_loop_run;
    [|lia|lia|intros j Hj; apply calendarEnd_after_trail; lia].
  cbn [eachDay_loop]. rewrite app_nil_r.
  unfold cur, trailingDays, monthAfter. fold (monthAfter y m). reflexivity.
Qed.

(** The grid is the days that pad the first week, the days of the month and
    the days that pad the last week. *)
Lemma calendarDays_eq :
  calendarDays cur = (leadingDays cur ++ monthDays cur ++ trailingDays cur)%list.
Proof.
  pose proof (weekday_range y m 1) as Hg. fold g in Hg.
  pose proof (weekday_range y m (daysInMonth y m)) as Hh. fold h in Hh.
  pose proof (daysInMonth_pos y m) as Hdim.
  unfold calendarDays, eachDayOfInterval. rewrite calendar_fuel.
  replace (Z.to_nat (g + daysInMonth y m + (6 - h) - 1 + 1))
    with (Z.to_nat g + (Z.to_nat (daysInMonth y m) + (Z.to_nat (6 - h) + 0)))%nat
    by lia.
  rewrite grid_lead_segment, grid_month_segment, grid_trail_segment. reflexivity.
Qed.

End CalendarGrid.

Lemma weekday_calendarStart (y m : Z) :
  0 <= m <= 11 ->
  (dayNumber y m 1 - weekday y m 1 - 1) mod 7 = 0.
Proof.
  intros _. unfold weekday.
  replace (dayNumber y m 1 - (dayNumber y m 1 - 1) mod 7 - 1)
    with ((dayNumber y m 1 - 1) - (dayNumber y m 1 - 1) mod 7) by lia.
  rewrite Zminus_mod_idemp_r, Z.sub_diag. reflexivity.
Qed.

Lemma adjacent_month_differs (y m : Z) (d : Date) :
  0 <= m <= 11 ->
  (exists k, d = LocalDate (fst (monthBefore y m)) (snd (monthBefore y m)) k 0)
  \/ (exists k, d = LocalDate (fst (monthAfter y m)) (snd (monthAfter y m)) k 0) ->
  forall dd t, isSameMonth d (LocalDate y m dd t) = false.
Proof.
  intros Hm [[k ->]|[k ->]] dd t; unfold monthBefore, monthAfter; cbn [fst snd isSameMonth].
  - destruct (Z.eqb_spec m 0) as [->|Hne].
    + destruct (Z.eqb_spec (y - 1) y); [lia | reflexivity].
    + destruct (Z.eqb_spec (m - 1) m); [lia|]. apply andb_false_r.
  - destruct (Z.eqb_spec m 11) as [->|Hne].
    + destruct (Z.eqb_spec (y + 1) y); [lia | reflexivity].
    + destruct (Z.eqb_spec (m + 1) m); [lia|]. apply andb_false_r.
Qed.

(** X24: the calendar grid of a valid date is made of whole weeks, four to
    six of them, and starts on a Sunday: it holds, in order, fewer than seven
    last days of the month before, every day of the visible month once, and
    fewer than seven first days of the month after; the padding days are
    never of the visible month. *)
Theorem calendar_grid_whole_weeks (cur : Date) :
  normalDate cur ->
  calendarDays cur = (leadingDays cur ++ monthDays cur ++ trailingDays cur)%list
  /\ (length (leadingDays cur) < 7)%nat /\ (length (trailingDays cur) < 7)%nat
  /\ (exists weeks, length (calendarDays cur) = (7 * weeks)%nat
                    /\ (4 <= weeks <= 6)%nat)
  /\ (forall d, In d (leadingDays cur ++ trailingDays cur) -> isSameMonth d cur = false)
  /\ (exists ys ms ds,
        hd_error (calendarDays cur) = Some (LocalDate ys ms ds 0)
        /\ weekday ys ms ds = 0).
Proof.
  destruct cur as [|y m dd t]; [intros []|]. intros [Hm _].
  pose proof (calendarDays_eq y m dd t Hm) as Hgrid.
  pose proof (weekday_range y m 1) as Hg.
  pose proof (weekday_range y m (daysInMonth y m)) as Hh.
  pose proof (daysInMonth_pos y m) as Hdim.
  pose proof (weekday_last_day y m) as Hlast.
  assert (Hlead : length (leadingDays (LocalDate y m dd t)) = Z.to_nat (weekday y m 1)).
  { unfold leadingDays, monthBefore. rewrite length_map, length_seq. reflexivity. }
  assert (Htrail : length (trailingDays (LocalDate y m dd t))
                   = Z.to_nat (6 - weekday y m (daysInMonth y m))).
  { unfold trailingDays, monthAfter. rewrite length_map, length_seq. reflexivity. }
  assert (Hmonth : length (monthDays (LocalDate y m dd t))
                   = Z.to_nat (daysInMonth y m)).
  { cbn [monthDays]. rewrite length_map, length_seq. reflexivity. }
  split; [exact Hgrid|]. split; [lia|]. split; [lia|]. split.
  { exists (Z.to_nat ((weekday y m 1 + daysInMonth y m - 1) / 7 + 1)).
    rewrite Hgrid, !length_app, Hlead, Hmonth, Htrail, Hlast.
    pose proof (Z.div_mod (weekday y m 1 + daysInMonth y m - 1) 7 ltac:(lia)) as Hdm.
    pose proof (Z.mod_pos_bound (weekday y m 1 + daysInMonth y m - 1) 7 ltac:(lia)).
    split; [lia|].
    assert (3 <= (weekday y m 1 + daysInMonth y m - 1) / 7 <= 5); [|lia].
    split; [apply Z.div_le_lower_bound; lia|].
    apply Z.lt_succ_r, Z.div_lt_upper_bound; lia. }
  split.
  { intros d Hd. apply in_app_iff in Hd.
    apply (adjacent_month_differs y m d Hm).
    destruct Hd as [Hd|Hd].
    - left. unfold leadingDays, monthBefore in Hd. fold (monthBefore y m) in Hd.
      cbn [fst snd] in Hd. apply in_map_iff in Hd. destruct Hd as (k & <- & _).
      exists (Z.of_nat k). reflexivity.
    - right. unfold trailingDays, monthAfter in Hd. fold (monthAfter y m) in Hd.
      cbn [fst snd] in Hd. apply in_map_iff in Hd. destruct Hd as (k & <- & _).
      exists (Z.of_nat k). reflexivity. }
  rewrite Hgrid.
  destruct (Z.eqb_spec (weekday y m 1) 0) as [Eg|Hne].
  - exists y, m, 1. split; [|exact Eg].
    unfold leadingDays, monthBefore. rewrite Eg. cbn [Z.to_nat seq map app monthDays].
    destruct (Z.to_nat (daysInMonth y m)) eqn:En; [lia | reflexivity].
  - pose proof (dayNumber_monthBefore y m 1 Hm) as Hb.
    unfold leadingDays.
    destruct (monthBefore y m) as [py pm]. cbn [fst snd] in Hb.
    pose proof (daysInMonth_pos py pm).
    exists py, pm, (daysInMonth py pm + 1 - weekday y m 1).
    split.
    + destruct (Z.to_nat (weekday y m 1)) eqn:En; [lia|].
      cbn [seq map app hd_error]. f_equal. f_equal. lia.
    + unfold weekday at 1.
      replace (daysInMonth py pm + 1 - weekday y m 1)
        with (daysInMonth py pm + (1 - weekday y m 1)) by lia.
      rewrite dayNumber_shift.
      replace (dayNumber py pm (daysInMonth py pm) + (1 - weekday y m 1) - 1)
        with (dayNumber y m 1 - weekday y m 1 - 1) by lia.
      apply weekday_calendarStart, Hm.
Qed.

Lemma calendar_grid_whole_weeks_witness :
  length (calendarDays midJanuary) = 35%nat
  /\ hd_error (calendarDays midJanuary) = Some (LocalDate 2023 11 31 0)
  /\ exists weeks, length (calendarDays midJanuary) = (7 * weeks)%nat
                   /\ (4 <= weeks <= 6)%nat.
Proof.
  split; [reflexivity|]. split; [reflexivity|].
  apply (calendar_grid_whole_weeks midJanuary). cbn. lia.
Defined.
